(** * MKVSource: the EBML / Matroska parsing engine

    A shallow embedding of [Parse.cpp] / [Parse.h] (the [Buffer] and
    [Parser] classes) and of the seek branch of [MKVSource::ParseData],
    followed by the properties established about them.

    Conventions.
    - A C++ integer of width w is a [Z]; every place where the source wraps
      (unsigned arithmetic, narrowing stores) is written out with [dw],
      [qw], [to_byte], [to_int32].
    - A [const BYTE *] walking a buffer is the list of the bytes from the
      pointer to the end of the allocation; reading where there is no byte
      is the fault [ReadPastEnd].
    - Behaviour that ISO C++ leaves undefined is not given a value: it is
      the outcome [Undefined] with the kind of fault.
    - [while] loops with no static bound take a step budget ([fuel]); a
      loop that never exits yields [OutOfFuel] for every budget. *)

From Stdlib Require Import ZArith Lia List String Ascii Bool.
From stdpp Require Import base option list gmap strings.
Import ListNotations.
Local Open Scope Z_scope.

(** ** Outcomes of a call *)

Inductive fault : Type :=
| ReadPastEnd        (* dereference of a byte pointer outside its array *)
| WritePastEnd       (* store outside an array *)
| NullDeref          (* member access through a null pointer *)
| Uninitialised      (* use of a pointer that was never assigned *)
| MapEnd             (* [find(...)->second] on [end()] *)
| BadConversion      (* floating value not representable in the integer type *)
| SignedOverflow     (* signed integer arithmetic out of range *)
| DivideByZero
| InvalidDelete.     (* [delete] of a pointer that no [new] returned *)

Inductive exn : Type :=
| InvalidArgumentException
| NullReferenceException
| PlatformException (hresult : Z) (message : string).

Inductive outcome (A : Type) : Type :=
| Ok (a : A)
| Throw (e : exn)
| Undefined (f : fault)
| OutOfFuel.

Arguments Ok {A} a.
Arguments Throw {A} e.
Arguments Undefined {A} f.
Arguments OutOfFuel {A}.

#[global] Instance outcome_ret : MRet outcome := fun A a => Ok a.
#[global] Instance outcome_bind : MBind outcome := fun A B f m =>
  match m with
  | Ok a => f a
  | Throw e => Throw e
  | Undefined u => Undefined u
  | OutOfFuel => OutOfFuel
  end.

(** ** Machine integers *)

Definition MAXDWORD : Z := 0xFFFFFFFF.

(** Reduction of a value into [DWORD] (unsigned 32 bit). *)
Definition dw (z : Z) : Z := z mod 2^32.
(** Reduction into [UINT64] / [QWORD]. *)
Definition qw (z : Z) : Z := z mod 2^64.
(** Reduction into [BYTE] / [uint8]. *)
Definition to_byte (z : Z) : Z := z mod 256.
(** Conversion of an unsigned 32-bit value to [int] (two's complement). *)
Definition to_int32 (z : Z) : Z := (z + 2^31) mod 2^32 - 2^31.

#[global] Arguments dw : simpl never.
#[global] Arguments qw : simpl never.
#[global] Arguments to_byte : simpl never.
#[global] Arguments to_int32 : simpl never.

Definition is_DWORD (z : Z) : Prop := 0 <= z < 2^32.
Definition is_BYTE (z : Z) : Prop := 0 <= z < 256.

(** Signed arithmetic: the result when it fits, a fault otherwise. *)
Definition int_result (z : Z) : outcome Z :=
  if (- 2^31 <=? z) && (z <? 2^31) then Ok z else Undefined SignedOverflow.
Definition int64_result (z : Z) : outcome Z :=
  if (- 2^63 <=? z) && (z <? 2^63) then Ok z else Undefined SignedOverflow.

(** [double] holds every integer of magnitude up to 2^53; beyond that an
    integer-valued operand is rounded to 53 significant bits, ties to even.
    [rne_double z] is the integer value of the [double] nearest to [z]. *)
Definition rne_double (z : Z) : Z :=
  let a := Z.abs z in
  if a <? 2^53 then z
  else
    let e := Z.log2 a - 52 in
    let q := Z.shiftr a e in
    let r := a - Z.shiftl q e in
    let half := Z.shiftl 1 (e - 1) in
    let q' := if r <? half then q
              else if half <? r then q + 1
              else if Z.even q then q else q + 1 in
    Z.sgn z * Z.shiftl q' e.

(** [pow(2, e) - 1] as the source computes it, in [double]. *)
Definition pow2_minus_1 (e : Z) : Z := rne_double (2 ^ e - 1).

(** Conversion of an integer-valued [double] to [DWORD]. *)
Definition double_to_DWORD (z : Z) : outcome Z :=
  if (0 <=? z) && (z <? 2^32) then Ok z else Undefined BadConversion.

(** An IEEE-754 value as [float_element::data] (a [double]) holds it: the
    bit pattern read from the file, and whether it was read as a 4-byte
    [float] (then widened, which is exact) or as an 8-byte [double]. *)
Inductive ieee : Type :=
| Float32 (bits : Z)
| Float64 (bits : Z).

(** Truncation of an IEEE value towards zero, [None] for NaN and infinities. *)
Definition ieee_trunc (x : ieee) : option Z :=
  let '(sign, e, m, ebits, mbits, bias) :=
    match x with
    | Float32 b => (Z.testbit b 31, Z.land (Z.shiftr b 23) 0xFF, Z.land b (2^23 - 1), 8, 23, 127)
    | Float64 b => (Z.testbit b 63, Z.land (Z.shiftr b 52) 0x7FF, Z.land b (2^52 - 1), 11, 52, 1023)
    end in
  if e =? 2^ebits - 1 then None
  else
    let mant := if e =? 0 then m else 2^mbits + m in
    let ex := (if e =? 0 then 1 else e) - bias - mbits in
    let mag := if 0 <=? ex then Z.shiftl mant ex else Z.shiftr mant (- ex) in
    Some (if sign then - mag else mag).

Definition ieee_to_DWORD (x : ieee) : outcome Z :=
  match ieee_trunc x with
  | Some z => double_to_DWORD z
  | None => Undefined BadConversion
  end.

(** ** The [Buffer] class *)

Module Buffer.

(** The private members of [ref class Buffer]. [m_array] is a handle and
    is null until the first allocation. *)
Record t : Type := mk {
  m_array : option (list Z);
  m_count : Z;        (* nominal count *)
  m_allocated : Z;    (* actual allocation size *)
  m_begin : Z;
  m_end : Z           (* 1 past the last element *)
}.

Definition DataSize (b : t) : Z := dw (m_end b - m_begin b).

Definition CurrentFreeSize (b : t) : Z := dw (m_count b - DataSize b).

(** [Ptr]: the start of the array; the handle must not be null. *)
Definition Ptr (b : t) : outcome (list Z) :=
  match m_array b with
  | Some a => Ok a
  | None => Throw NullReferenceException
  end.

(** [Allocate]: returns the buffer and the number of arrays it created. *)
Definition Allocate (alloc : Z) (b : t) : outcome (t * nat) :=
  if alloc >? m_allocated b then
    old ← (if m_count b =? 0 then Ok (default [] (m_array b)) else Ptr b);
    if m_count b <=? Z.of_nat (length old) then
      let tmp := take (Z.to_nat (m_count b)) old
                 ++ replicate (Z.to_nat (alloc - m_count b)) 0 in
      Ok (mk (Some tmp) (m_count b) alloc (m_begin b) (m_end b), 1%nat)
    else Undefined ReadPastEnd
  else Ok (b, 0%nat).

Definition SetSize (count : Z) (b : t) : outcome (t * nat) :=
  '(b1, n) ← (if count >? m_allocated b then Allocate count b else Ok (b, 0%nat));
  Ok (mk (m_array b1) count (m_allocated b1) (m_begin b1) (m_end b1), n).

(** [MoveMemory(Ptr, DataPtr, DataSize)] on the array. *)
Definition MoveMemory_to_front (a : list Z) (from n : Z) : outcome (list Z) :=
  if from + n <=? Z.of_nat (length a) then
    Ok (take (Z.to_nat n) (drop (Z.to_nat from) a) ++ drop (Z.to_nat n) a)
  else Undefined ReadPastEnd.

Definition Reserve (cb : Z) (b : t) : outcome (t * nat) :=
  if cb >? MAXDWORD - DataSize b then Throw InvalidArgumentException
  else if cb >? dw (m_count b - m_end b) then
    (* New end position would be past the end of the array. *)
    '(b1, n) ← (if cb >? CurrentFreeSize b
                then SetSize (dw (DataSize b + cb)) b   (* array needs to grow *)
                else Ok (b, 0%nat));
    a ← Ptr b1;
    a' ← MoveMemory_to_front a (m_begin b1) (DataSize b1);
    (* Reset begin and end: m_end first. *)
    Ok (mk (Some a') (m_count b1) (m_allocated b1) 0 (DataSize b1), n)
  else Ok (b, 0%nat).

Definition MoveStart (cb : Z) (b : t) : outcome t :=
  if cb >? DataSize b then Throw InvalidArgumentException
  else Ok (mk (m_array b) (m_count b) (m_allocated b) (dw (m_begin b + cb)) (m_end b)).

Definition MoveEnd (cb : Z) (b : t) : outcome (t * nat) :=
  '(b1, n) ← Reserve cb b;
  Ok (mk (m_array b1) (m_count b1) (m_allocated b1) (m_begin b1) (dw (m_end b1 + cb)), n).

(** The constructor [Buffer(DWORD cbSize)]. *)
Definition new (cbSize : Z) : outcome (t * nat) :=
  '(b, n) ← SetSize cbSize (mk None 0 0 0 0);
  a ← Ptr b;
  (* ZeroMemory(Ptr, cbSize) *)
  Ok (mk (Some (replicate (Z.to_nat cbSize) 0 ++ drop (Z.to_nat cbSize) a))
         (m_count b) (m_allocated b) (m_begin b) (m_end b), n).

(** The byte stream stores into the array between calls; it never
    changes its size. *)
Definition stored (a' : list Z) (b : t) : t :=
  mk (Some a') (m_count b) (m_allocated b) (m_begin b) (m_end b).

(** States a buffer can be in: built by the constructor and then driven
    through the public methods, with stores by the byte stream between. *)
Inductive reachable : t -> Prop :=
| reach_new cbSize b n :
    is_DWORD cbSize -> new cbSize = Ok (b, n) -> reachable b
| reach_Reserve cb b b' n :
    reachable b -> is_DWORD cb -> Reserve cb b = Ok (b', n) -> reachable b'
| reach_MoveStart cb b b' :
    reachable b -> is_DWORD cb -> MoveStart cb b = Ok b' -> reachable b'
| reach_MoveEnd cb b b' n :
    reachable b -> is_DWORD cb -> MoveEnd cb b = Ok (b', n) -> reachable b'
| reach_stored a a' b :
    reachable b -> m_array b = Some a -> length a' = length a ->
    reachable (stored a' b).

(** The representation invariant the methods assert. *)
Definition invariant (b : t) : Prop :=
  0 <= m_begin b /\ m_begin b <= m_end b /\ m_end b <= m_count b /\
  m_count b <= m_allocated b /\ m_allocated b < 2^32 /\
  exists a, m_array b = Some a /\ Z.of_nat (length a) = m_allocated b.

(** [Reserve(n); Reserve(n)], with the allocations of each call. *)
Definition Reserve_twice (cb : Z) (b : t) : outcome (t * nat * nat) :=
  '(b1, n1) ← Reserve cb b;
  '(b2, n2) ← Reserve cb b1;
  Ok (b2, n1, n2).

(** [MoveStart(k); MoveEnd(k)]. *)
Definition MoveStart_MoveEnd (k : Z) (b : t) : outcome t :=
  b1 ← MoveStart k b;
  '(b2, _) ← MoveEnd k b1;
  Ok b2.

End Buffer.

(** ** EBML element model ([Parse.h]) *)

(** [enum EET]. The source gives [_UNSIGNED] and [_SIGNED] the same
    enumerator value 3, so they are one value of the type. *)
Inductive EET : Type :=
| _VOID | MASTER | _UNSIGNED | TEXTA | TEXTU | BINARY | _FLOAT | _DATE | JUST_GO_ON.

Definition _SIGNED : EET := _UNSIGNED.

#[global] Instance EET_eq_dec : EqDecision EET.
Proof. solve_decision. Defined.

(** [struct type_name]; a default-constructed one has type 0 and no name. *)
Record type_name : Type := mk_type_name {
  tn_type : EET;
  tn_name : option string
}.

Definition type_name_default : type_name := mk_type_name _VOID None.

Definition tn (t : EET) (s : string) : type_name := mk_type_name t (Some s).

(** [std::map<DWORD, type_name> element_types_names]. *)
Definition element_types_names_entries : list (Z * type_name) := [
    (0x1A45DFA3, tn MASTER "EBML");
    (0x4286, tn _UNSIGNED "EBMLVersion");
    (0x42F7, tn _UNSIGNED "EBMLReadVersion");
    (0x42F2, tn _UNSIGNED "EBMLMaxIDLength");
    (0x42F3, tn _UNSIGNED "EBMLMaxSizeLength");
    (0x4282, tn TEXTA "DocType");
    (0x4287, tn _UNSIGNED "DocTypeVersion");
    (0x4285, tn _UNSIGNED "DocTypeReadVersion");
    (0xEC, tn BINARY "Void");
    (0xBF, tn BINARY "CRC-32");
    (0x1B538667, tn MASTER "SignatureSlot");
    (0x7E8A, tn _UNSIGNED "SignatureAlgo");
    (0x7E9A, tn _UNSIGNED "SignatureHash");
    (0x7EA5, tn BINARY "SignaturePublicKey");
    (0x7EB5, tn BINARY "Signature");
    (0x7E5B, tn MASTER "SignatureElements");
    (0x7E7B, tn MASTER "SignatureElementList");
    (0x6532, tn BINARY "SignedElement");
    (0x18538067, tn JUST_GO_ON "Segment");
    (0x114D9B74, tn MASTER "SeekHead");
    (0x4DBB, tn MASTER "Seek");
    (0x53AB, tn BINARY "SeekID");
    (0x53AC, tn _UNSIGNED "SeekPosition");
    (0x1549A966, tn MASTER "Info");
    (0x73A4, tn BINARY "SegmentUID");
    (0x7384, tn TEXTU "SegmentFilename");
    (0x3CB923, tn BINARY "PrevUID");
    (0x3C83AB, tn TEXTU "PrevFilename");
    (0x3EB923, tn BINARY "NextUID");
    (0x3E83BB, tn TEXTU "NextFilename");
    (0x4444, tn BINARY "SegmentFamily");
    (0x6924, tn MASTER "ChapterTranslate");
    (0x69FC, tn _UNSIGNED "ChapterTranslateEditionUID");
    (0x69BF, tn _UNSIGNED "ChapterTranslateCodec");
    (0x69A5, tn BINARY "ChapterTranslateID");
    (0x2AD7B1, tn _UNSIGNED "TimecodeScale");
    (0x4489, tn _FLOAT "Duration");
    (0x4461, tn _DATE "DateUTC");
    (0x7BA9, tn TEXTU "Title");
    (0x4D80, tn TEXTU "MuxingApp");
    (0x5741, tn TEXTU "WritingApp");
    (0x1F43B675, tn JUST_GO_ON "Cluster");
    (0xE7, tn _UNSIGNED "Timecode");
    (0x5854, tn MASTER "SilentTracks");
    (0x58D7, tn _UNSIGNED "SilentTrackNumber");
    (0xA7, tn _UNSIGNED "Position");
    (0xAB, tn _UNSIGNED "PrevSize");
    (0xA3, tn BINARY "SimpleBlock");
    (0xA0, tn MASTER "BlockGroup");
    (0xA1, tn BINARY "Block");
    (0xA2, tn BINARY "BlockVirtual");
    (0x75A1, tn MASTER "BlockAdditions");
    (0xA6, tn MASTER "BlockMore");
    (0xEE, tn _UNSIGNED "BlockAddID");
    (0xA5, tn BINARY "BlockAdditional");
    (0x9B, tn _UNSIGNED "BlockDuration");
    (0xFA, tn _UNSIGNED "ReferencePriority");
    (0xFB, tn _SIGNED "ReferenceBlock");
    (0xFD, tn _SIGNED "ReferenceVirtual");
    (0xA4, tn BINARY "CodecState");
    (0x8E, tn MASTER "Slices");
    (0xE8, tn MASTER "TimeSlice");
    (0xCC, tn _UNSIGNED "LaceNumber");
    (0xCD, tn _UNSIGNED "FrameNumber");
    (0xCB, tn _UNSIGNED "BlockAdditionID");
    (0xCE, tn _UNSIGNED "Delay");
    (0xCF, tn _UNSIGNED "SliceDuration");
    (0xC8, tn MASTER "ReferenceFrame");
    (0xC9, tn _UNSIGNED "ReferenceOffset");
    (0xCA, tn _UNSIGNED "ReferenceTimeCode");
    (0xAF, tn BINARY "EncryptedBlock");
    (0x1654AE6B, tn MASTER "Tracks");
    (0xAE, tn MASTER "TrackEntry");
    (0xD7, tn _UNSIGNED "TrackNumber");
    (0x73C5, tn _UNSIGNED "TrackUID");
    (0x83, tn _UNSIGNED "TrackType");
    (0xB9, tn _UNSIGNED "FlagEnabled");
    (0x88, tn _UNSIGNED "FlagDefault");
    (0x55AA, tn _UNSIGNED "FlagForced");
    (0x9C, tn _UNSIGNED "FlagLacing");
    (0x6DE7, tn _UNSIGNED "MinCache");
    (0x6DF8, tn _UNSIGNED "MaxCache");
    (0x23E383, tn _UNSIGNED "DefaultDuration");
    (0x23314F, tn _FLOAT "TrackTimecodeScale");
    (0x537F, tn _SIGNED "TrackOffset");
    (0x55EE, tn _UNSIGNED "MaxBlockAdditionID");
    (0x536E, tn TEXTU "Name");
    (0x22B59C, tn TEXTA "Language");
    (0x86, tn TEXTA "CodecID");
    (0x63A2, tn BINARY "CodecPrivate");
    (0x258688, tn TEXTU "CodecName");
    (0x7446, tn _UNSIGNED "AttachmentLink");
    (0x3A9697, tn TEXTU "CodecSettings");
    (0x3B4040, tn TEXTA "CodecInfoURL");
    (0x26B240, tn TEXTA "CodecDownloadURL");
    (0xAA, tn _UNSIGNED "CodecDecodeAll");
    (0x6FAB, tn _UNSIGNED "TrackOverlay");
    (0x6624, tn MASTER "TrackTranslate");
    (0x66FC, tn _UNSIGNED "TrackTranslateEditionUID");
    (0x66BF, tn _UNSIGNED "TrackTranslateCodec");
    (0x66A5, tn BINARY "TrackTranslateTrackID");
    (0xE0, tn MASTER "Video");
    (0x9A, tn _UNSIGNED "FlagInterlaced");
    (0x53B8, tn _UNSIGNED "StereoMode");
    (0x53B9, tn _UNSIGNED "OldStereoMode");
    (0xB0, tn _UNSIGNED "PixelWidth");
    (0xBA, tn _UNSIGNED "PixelHeight");
    (0x54AA, tn _UNSIGNED "PixelCropBottom");
    (0x54BB, tn _UNSIGNED "PixelCropTop");
    (0x54CC, tn _UNSIGNED "PixelCropLeft");
    (0x54DD, tn _UNSIGNED "PixelCropRight");
    (0x54B0, tn _UNSIGNED "DisplayWidth");
    (0x54BA, tn _UNSIGNED "DisplayHeight");
    (0x54B2, tn _UNSIGNED "DisplayUnit");
    (0x54B3, tn _UNSIGNED "AspectRatioType");
    (0x2EB524, tn BINARY "ColourSpace");
    (0x2FB523, tn _FLOAT "GammaValue");
    (0x2383E3, tn _FLOAT "FrameRate");
    (0xE1, tn MASTER "Audio");
    (0xB5, tn _FLOAT "SamplingFrequency");
    (0x78B5, tn _FLOAT "OutputSamplingFrequency");
    (0x9F, tn _UNSIGNED "Channels");
    (0x7D7B, tn BINARY "ChannelPositions");
    (0x6264, tn _UNSIGNED "BitDepth");
    (0xE2, tn MASTER "TrackOperation");
    (0xE3, tn MASTER "TrackCombinePlanes");
    (0xE4, tn MASTER "TrackPlane");
    (0xE5, tn _UNSIGNED "TrackPlaneUID");
    (0xE6, tn _UNSIGNED "TrackPlaneType");
    (0xE9, tn MASTER "TrackJoinBlocks");
    (0xED, tn _UNSIGNED "TrackJoinUID");
    (0xC0, tn _UNSIGNED "TrickTrackUID");
    (0xC1, tn BINARY "TrickTrackSegmentUID");
    (0xC6, tn _UNSIGNED "TrickTrackFlag");
    (0xC7, tn _UNSIGNED "TrickMasterTrackUID");
    (0xC4, tn BINARY "TrickMasterTrackSegmentUID");
    (0x6D80, tn MASTER "ContentEncodings");
    (0x6240, tn MASTER "ContentEncoding");
    (0x5031, tn _UNSIGNED "ContentEncodingOrder");
    (0x5032, tn _UNSIGNED "ContentEncodingScope");
    (0x5033, tn _UNSIGNED "ContentEncodingType");
    (0x5034, tn MASTER "ContentCompression");
    (0x4254, tn _UNSIGNED "ContentCompAlgo");
    (0x4255, tn BINARY "ContentCompSettings");
    (0x5035, tn MASTER "ContentEncryption");
    (0x47E1, tn _UNSIGNED "ContentEncAlgo");
    (0x47E2, tn BINARY "ContentEncKeyID");
    (0x47E3, tn BINARY "ContentSignature");
    (0x47E4, tn BINARY "ContentSigKeyID");
    (0x47E5, tn _UNSIGNED "ContentSigAlgo");
    (0x47E6, tn _UNSIGNED "ContentSigHashAlgo");
    (0x1C53BB6B, tn MASTER "Cues");
    (0xBB, tn MASTER "CuePoint");
    (0xB3, tn _UNSIGNED "CueTime");
    (0xB7, tn MASTER "CueTrackPositions");
    (0xF7, tn _UNSIGNED "CueTrack");
    (0xF1, tn _UNSIGNED "CueClusterPosition");
    (0x5378, tn _UNSIGNED "CueBlockNumber");
    (0xEA, tn _UNSIGNED "CueCodecState");
    (0xDB, tn MASTER "CueReference");
    (0x96, tn _UNSIGNED "CueRefTime");
    (0x97, tn _UNSIGNED "CueRefCluster");
    (0x535F, tn _UNSIGNED "CueRefNumber");
    (0xEB, tn _UNSIGNED "CueRefCodecState");
    (0x1941A469, tn MASTER "Attachments");
    (0x61A7, tn MASTER "AttachedFile");
    (0x467E, tn TEXTU "FileDescription");
    (0x466E, tn TEXTU "FileName");
    (0x4660, tn TEXTA "FileMimeType");
    (0x465C, tn BINARY "FileData");
    (0x46AE, tn _UNSIGNED "FileUID");
    (0x4675, tn BINARY "FileReferral");
    (0x4661, tn _UNSIGNED "FileUsedStartTime");
    (0x4662, tn _UNSIGNED "FileUsedEndTime");
    (0x1043A770, tn MASTER "Chapters");
    (0x45B9, tn MASTER "EditionEntry");
    (0x45BC, tn _UNSIGNED "EditionUID");
    (0x45BD, tn _UNSIGNED "EditionFlagHidden");
    (0x45DB, tn _UNSIGNED "EditionFlagDefault");
    (0x45DD, tn _UNSIGNED "EditionFlagOrdered");
    (0xB6, tn MASTER "ChapterAtom");
    (0x73C4, tn _UNSIGNED "ChapterUID");
    (0x91, tn _UNSIGNED "ChapterTimeStart");
    (0x92, tn _UNSIGNED "ChapterTimeEnd");
    (0x98, tn _UNSIGNED "ChapterFlagHidden");
    (0x4598, tn _UNSIGNED "ChapterFlagEnabled");
    (0x6E67, tn BINARY "ChapterSegmentUID");
    (0x6EBC, tn _UNSIGNED "ChapterSegmentEditionUID");
    (0x63C3, tn _UNSIGNED "ChapterPhysicalEquiv");
    (0x8F, tn MASTER "ChapterTrack");
    (0x89, tn _UNSIGNED "ChapterTrackNumber");
    (0x80, tn MASTER "ChapterDisplay");
    (0x85, tn TEXTU "ChapString");
    (0x437C, tn TEXTA "ChapLanguage");
    (0x437E, tn TEXTA "ChapCountry");
    (0x6944, tn MASTER "ChapProcess");
    (0x6955, tn _UNSIGNED "ChapProcessCodecID");
    (0x450D, tn BINARY "ChapProcessPrivate");
    (0x6911, tn MASTER "ChapProcessCommand");
    (0x6922, tn _UNSIGNED "ChapProcessTime");
    (0x6933, tn BINARY "ChapProcessData");
    (0x1254C367, tn MASTER "Tags");
    (0x7373, tn MASTER "Tag");
    (0x63C0, tn MASTER "Targets");
    (0x68CA, tn _UNSIGNED "TargetTypeValue");
    (0x63CA, tn TEXTA "TargetType");
    (0x63C5, tn _UNSIGNED "TagTrackUID");
    (0x63C9, tn _UNSIGNED "TagEditionUID");
    (0x63C4, tn _UNSIGNED "TagChapterUID");
    (0x63C6, tn _UNSIGNED "TagAttachmentUID");
    (0x67C8, tn MASTER "SimpleTag");
    (0x45A3, tn TEXTU "TagName");
    (0x447A, tn TEXTA "TagLanguage");
    (0x4484, tn _UNSIGNED "TagDefault");
    (0x4487, tn TEXTU "TagString");
    (0x4485, tn BINARY "TagBinary")
  ]%string.

Definition element_types_names : gmap Z type_name :=
  list_to_map element_types_names_entries.

(** The element classes deriving from [base_element]. Every one carries
    the [name] and [type] members of the base. *)
#[local] Set Warnings "-register-all".
Inductive base_element : Type :=
| plain_element (name : option string) (type : EET)
| master_element (name : option string) (type : EET) (children : list base_element)
| binary_element (name : option string) (type : EET) (length : Z) (data : list Z)
| string_element (name : option string) (type : EET) (data : list Z)
| sint_element (name : option string) (type : EET) (data : Z)
| uint_element (name : option string) (type : EET) (data : Z)
| float_element (name : option string) (type : EET) (data : ieee).

Definition elem_name (e : base_element) : option string :=
  match e with
  | plain_element n _ | master_element n _ _ | binary_element n _ _ _
  | string_element n _ _ | sint_element n _ _ | uint_element n _ _
  | float_element n _ _ => n
  end.

Definition elem_type (e : base_element) : EET :=
  match e with
  | plain_element _ t | master_element _ t _ | binary_element _ t _ _
  | string_element _ t _ | sint_element _ t _ | uint_element _ t _
  | float_element _ t _ => t
  end.

(** [e->name = n]. *)
Definition set_name (n : option string) (e : base_element) : base_element :=
  match e with
  | plain_element _ t => plain_element n t
  | master_element _ t c => master_element n t c
  | binary_element _ t l d => binary_element n t l d
  | string_element _ t d => string_element n t d
  | sint_element _ t d => sint_element n t d
  | uint_element _ t d => uint_element n t d
  | float_element _ t d => float_element n t d
  end.

(** [e->type = t]. *)
Definition set_type (t : EET) (e : base_element) : base_element :=
  match e with
  | plain_element n _ => plain_element n t
  | master_element n _ c => master_element n t c
  | binary_element n _ l d => binary_element n t l d
  | string_element n _ d => string_element n t d
  | sint_element n _ d => sint_element n t d
  | uint_element n _ d => uint_element n t d
  | float_element n _ d => float_element n t d
  end.

Record bit_number_result : Type := mk_bit_number_result {
  bitNum : Z;         (* uint8 *)
  clearedNum : Z      (* uint8 *)
}.

Record matroska_number_result : Type := mk_matroska_number_result {
  mnr_id : Z;         (* DWORD *)
  mnr_length : Z      (* DWORD *)
}.

Record element_header_result : Type := mk_element_header_result {
  ehr_id : Z;         (* DWORD *)
  elemsize : Z;       (* DWORD *)
  headsize : Z        (* DWORD *)
}.

(** ** The read position

    The three locations [pData], [cbLen] and [pAte] every reader of
    [Parse.cpp] takes by address and advances together. [data] holds the
    bytes from the position [pData] points at to the end of the array. *)
Record cursor : Type := mk_cursor {
  data : list Z;
  cbLen : Z;          (* DWORD *)
  pAte : Z            (* DWORD *)
}.

(** Read the byte under [pData]; then [pData++], [cbLen--], [pAte++]. *)
Definition read_byte (c : cursor) : outcome (Z * cursor) :=
  match data c with
  | [] => Undefined ReadPastEnd
  | x :: rest => Ok (x, mk_cursor rest (dw (cbLen c - 1)) (dw (pAte c + 1)))
  end.

(** The byte-copy loops: [n] times, store the byte read into [buf[i]]. *)
Fixpoint read_n (n : nat) (c : cursor) : outcome (list Z * cursor) :=
  match n with
  | O => Ok ([], c)
  | S n' =>
      '(x, c1) ← read_byte c;
      '(xs, c2) ← read_n n' c1;
      Ok (x :: xs, c2)
  end.

(** Skipping: [pData += n], [cbLen -= n], [pAte += n]. *)
Definition skip (n : Z) (c : cursor) : cursor :=
  mk_cursor (drop (Z.to_nat n) (data c)) (dw (cbLen c - n)) (dw (pAte c + n)).

(** Rewinding ([pData -= n], [cbLen += n], [pAte -= n]) is only ever
    followed by a return, so the bytes themselves are not put back. *)
Definition rewind_counts (n : Z) (c : cursor) : cursor :=
  mk_cursor (data c) (dw (cbLen c + n)) (dw (pAte c - n)).

(** ** Fixed-length numbers *)

(** The accumulation loop of [ParseFixedLengthNumber] on an [__int64]. *)
Fixpoint accumulate_int64 (r : Z) (bytes : list Z) : outcome Z :=
  match bytes with
  | [] => Ok r
  | x :: rest => r' ← int64_result (r * 0x100 + x); accumulate_int64 r' rest
  end.

(** [ParseFixedLengthNumber(data, 0, length, _signed)], [data] holding
    the [length] bytes that were filled in. *)
Definition ParseFixedLengthNumber (bytes : list Z) (_signed : bool) : outcome Z :=
  r ← accumulate_int64 0 bytes;
  if _signed then
    match bytes with
    | [] => Undefined Uninitialised                     (* data[pos] was never written *)
    | b0 :: _ =>
        if Z.land b0 0x80 =? 0 then Ok r
        else
          (* r -= pow(2, 8 * length), evaluated in double *)
          let d := rne_double (rne_double r - 2 ^ (8 * Z.of_nat (length bytes))) in
          if (- 2^63 <=? d) && (d <? 2^63) then Ok d else Undefined BadConversion
    end
  else Ok r.

(** [ReadFixedLengthNumber]: [length] bytes go into [byte buf[8]]. *)
Definition ReadFixedLengthNumber (c : cursor) (length : Z) (_signed : bool)
  : outcome (Z * cursor) :=
  if length >? 8 then
    '(_, _) ← read_n 9 c; Undefined WritePastEnd
  else
    '(buf, c1) ← read_n (Z.to_nat length) c;
    r ← ParseFixedLengthNumber buf _signed;
    Ok (r, c1).

(** ** Variable-length numbers *)

(** The scan of [GetMajorBitNumber]: [while (!(n & i)) { r += 1; i >>= 1; }],
    the counter [r] being an [int]. *)
Fixpoint GetMajorBitNumber_scan (fuel : nat) (n i r : Z) : outcome (Z * Z) :=
  match fuel with
  | O => OutOfFuel
  | S fuel' =>
      if Z.land n i =? 0 then
        r' ← int_result (r + 1);
        GetMajorBitNumber_scan fuel' n (Z.shiftr i 1) r'
      else Ok (r, i)
  end.

Definition GetMajorBitNumber (fuel : nat) (n : Z) : outcome bit_number_result :=
  '(r, i) ← GetMajorBitNumber_scan fuel n 0x80 0;
  Ok (mk_bit_number_result (to_byte r) (to_byte (Z.land n (Z.lnot i)))).

(** [while (i)]: [code = code * 0x100 + next byte; i -= 1]. *)
Fixpoint ReadMatroskaNumber_tail (i : nat) (code : Z) (c : cursor) : outcome (Z * cursor) :=
  match i with
  | O => Ok (code, c)
  | S i' =>
      '(x, c1) ← read_byte c;
      ReadMatroskaNumber_tail i' (dw (code * 0x100 + x)) c1
  end.

Definition ReadMatroskaNumber (fuel : nat) (c : cursor) (unmodified _signed : bool)
  : outcome (matroska_number_result * cursor) :=
  if unmodified && _signed then
    Throw (PlatformException (-1)
             "Contradictory arguments: ReadMatroskaNumber unmodified and signed")
  else
    '(code, c1) ← read_byte c;
    numResult ← GetMajorBitNumber fuel (to_byte code);
    let code := if unmodified then code else clearedNum numResult in
    '(code, c2) ← ReadMatroskaNumber_tail (Z.to_nat (bitNum numResult)) code c1;
    let bound := pow2_minus_1 (7 * bitNum numResult + 7) in
    if _signed then
      code' ← double_to_DWORD (rne_double (code - bound));
      Ok (mk_matroska_number_result code' (bitNum numResult + 1), c2)
    else if code =? bound then
      Ok (mk_matroska_number_result (dw (-1)) (bitNum numResult + 1), c2)
    else
      Ok (mk_matroska_number_result code (bitNum numResult + 1), c2).

Definition ReadEbmlElementHeader (fuel : nat) (c : cursor)
  : outcome (element_header_result * cursor) :=
  '(mresult1, c1) ← ReadMatroskaNumber fuel c true false;
  '(mresult2, c2) ← ReadMatroskaNumber fuel c1 false false;
  Ok (mk_element_header_result (mnr_id mresult1) (mnr_id mresult2)
        (dw (mnr_length mresult1 + mnr_length mresult2)), c2).

(** ** The element tree reader *)

(** Big-endian integer of a byte list, as the reversed-copy plus [memcpy]
    of the float branches produces the bit pattern. *)
Definition be_bits (bytes : list Z) : Z :=
  fold_left (fun acc x => acc * 0x100 + x) bytes 0.

(** [ReadSimpleElement2], with the tree reader it calls for a [MASTER]
    passed in ([ReadEbmlElementTree2] below ties the knot). The result is
    the pointer returned: [None] is the null pointer. The [else if] on
    [_SIGNED] is the same test as the one on [_UNSIGNED] and is never
    taken. *)
Definition ReadSimpleElement2_with
    (tree : cursor -> Z -> outcome (base_element * cursor))
    (c : cursor) (type : EET) (size : Z)
  : outcome (option base_element * cursor) :=
  if size =? 0 then Ok (None, c)
  else
    match type with
    | _UNSIGNED =>
        '(d, c1) ← ReadFixedLengthNumber c size false;
        Ok (Some (uint_element None type d), c1)
    | TEXTA | TEXTU =>
        '(buf, c1) ← read_n (Z.to_nat size) c;
        Ok (Some (string_element None type buf), c1)
    | MASTER =>
        '(m, c1) ← tree c size;
        Ok (Some m, c1)
    | _DATE =>
        (* the number is read and rescaled, then dropped *)
        '(_, c1) ← ReadFixedLengthNumber c size true;
        Ok (Some (plain_element None type), c1)
    | _FLOAT =>
        if size =? 4 then
          '(buf, c1) ← read_n 4 c;
          Ok (Some (float_element None type (Float32 (be_bits buf))), c1)
        else if size =? 8 then
          '(buf, c1) ← read_n 8 c;
          Ok (Some (float_element None type (Float64 (be_bits buf))), c1)
        else
          '(_, c1) ← ReadFixedLengthNumber c size false;
          Ok (None, c1)
    | _ =>
        '(buf, c1) ← read_n (Z.to_nat size) c;
        Ok (Some (binary_element None type size buf), c1)
    end.

(** The table lookup of the tree reader: type [BINARY] and a
    default-constructed [type_name] when the id is not in the map. *)
Definition classify (id : Z) : EET * type_name :=
  match element_types_names !! id with
  | Some t => (tn_type t, t)
  | None => (BINARY, type_name_default)
  end.

(** What one pass through the body of the [while (total_size > 0)] loop
    of [ReadEbmlElementTree2] leaves behind. *)
Inductive tree_step_result : Type :=
| TreeBreak (c : cursor)
| TreeNext (c : cursor) (total_size : Z) (child : base_element).

(** One pass through the loop body, [tree] reading a nested master. *)
Definition ReadEbmlElementTree2_body
    (tree : cursor -> Z -> outcome (base_element * cursor))
    (fuel : nat) (c : cursor) (total_size : Z) : outcome tree_step_result :=
  '(hresult, c1) ← ReadEbmlElementHeader fuel c;
  if elemsize hresult =? dw (-1) then
    (* skipping data, error *)
    Ok (TreeBreak (skip total_size c1))
  else
    let c2 := if elemsize hresult >? total_size
              then skip total_size c1       (* skipping data, error *)
              else c1 in
    let '(type, typeNameResult) := classify (ehr_id hresult) in
    let total_size' := dw (total_size - dw (elemsize hresult + headsize hresult)) in
    match type with
    | MASTER =>
        '(masterElement, c3) ← tree c2 (elemsize hresult);
        Ok (TreeNext c3 total_size'
              (set_type (tn_type typeNameResult)
                 (set_name (tn_name typeNameResult) masterElement)))
    | _ =>
        '(simpleElement, c3) ← ReadSimpleElement2_with tree c2 type (elemsize hresult);
        match simpleElement with
        | None => Undefined NullDeref          (* simpleElement->name = ... *)
        | Some e => Ok (TreeNext c3 total_size' (set_name (tn_name typeNameResult) e))
        end
    end.

(** [ReadEbmlElementTree2]: the loop, with the children gathered so far. *)
Fixpoint ReadEbmlElementTree2_loop (fuel : nat) (c : cursor) (total_size : Z)
    (children : list base_element) {struct fuel} : outcome (base_element * cursor) :=
  if total_size >? 0 then
    match fuel with
    | O => OutOfFuel
    | S fuel' =>
        step ← ReadEbmlElementTree2_body
                 (fun c' size => ReadEbmlElementTree2_loop fuel' c' size [])
                 fuel' c total_size;
        match step with
        | TreeBreak c' => Ok (master_element None _VOID children, c')
        | TreeNext c' total_size' child =>
            ReadEbmlElementTree2_loop fuel' c' total_size' (children ++ [child])
        end
    end
  else Ok (master_element None _VOID children, c).

Definition ReadEbmlElementTree2 (fuel : nat) (c : cursor) (total_size : Z)
  : outcome (base_element * cursor) :=
  ReadEbmlElementTree2_loop fuel c total_size [].

Definition ReadSimpleElement2 (fuel : nat) (c : cursor) (type : EET) (size : Z)
  : outcome (option base_element * cursor) :=
  ReadSimpleElement2_with (ReadEbmlElementTree2 fuel) c type size.

(** ** The Matroska model ([Parse.h]) *)

Record Seek : Type := mk_Seek {
  elemID : option string;       (* const char*, null until a SeekID is seen *)
  SeekPosition : Z              (* DWORD64 *)
}.

Record SegmentInformation : Type := mk_SegmentInformation {
  SegmentUID : list Z;          (* byte[16] *)
  TimecodeScale : Z;            (* UINT64 *)
  Duration : ieee;              (* double *)
  MuxingApp : option (list Z);  (* const char*: the bytes it points at *)
  WritingApp : option (list Z)
}.

Record CueTrackPosition : Type := mk_CueTrackPosition {
  CueTrack : Z;                 (* UINT64 *)
  CueClusterPosition : Z        (* UINT64 *)
}.

Record CuePoint : Type := mk_CuePoint {
  CueTime : Z;                  (* UINT64 *)
  CueTrackPositions : list CueTrackPosition
}.

(** Of [struct Video] and [struct Audio], the members the parser writes;
    the others stay zero. *)
Record Video : Type := mk_Video {
  FlagInterlaced : bool;
  PixelWidth : Z;               (* DWORD *)
  PixelHeight : Z               (* DWORD *)
}.

Record Audio : Type := mk_Audio {
  SamplingFrequency : Z;        (* DWORD *)
  OutputSamplingFrequency : Z;  (* DWORD *)
  Channels : Z;                 (* BYTE *)
  BitDepth : Z                  (* BYTE *)
}.

(** Of [struct TrackData], the members the parser writes. The members
    [Video] and [Audio] are named [TrackVideo] and [TrackAudio] here. *)
Record TrackData : Type := mk_TrackData {
  TrackNumber : Z;              (* DWORD *)
  TrackUID : Z;                 (* LONG64 *)
  TrackType : Z;                (* DWORD *)
  FlagEnabled : bool;
  FlagDefault : bool;
  FlagForced : bool;
  FlagLacing : bool;
  MinCache : Z;                 (* DWORD *)
  MaxCache : Z;                 (* DWORD *)
  DefaultDuration : Z;          (* DWORD *)
  MaxBlockAdditionID : Z;       (* DWORD *)
  CodecID : option (list Z);    (* const char* *)
  CodecPrivate : option (list Z);
  CodecPrivateLength : Z;       (* int *)
  CodecDecodeAll : bool;
  TrackVideo : option Video;
  TrackAudio : option Audio
}.

Record MKVMasterData : Type := mk_MKVMasterData {
  SegmentPosition : Z;          (* LONG64 *)
  SeekHead : list Seek;
  SegInfo : option SegmentInformation;
  Tracks : list TrackData;
  FirstClusterPosition : Z;     (* LONG64 *)
  Cues : list CuePoint
}.

(** Value-initialised structures, as [new T()] yields them. *)
Definition Seek_zero : Seek := mk_Seek None 0.
Definition SegmentInformation_zero : SegmentInformation :=
  mk_SegmentInformation (replicate 16 0) 0 (Float64 0) None None.
Definition CueTrackPosition_zero : CueTrackPosition := mk_CueTrackPosition 0 0.
Definition CuePoint_zero : CuePoint := mk_CuePoint 0 [].
Definition Video_zero : Video := mk_Video false 0 0.
Definition Audio_zero : Audio := mk_Audio 0 0 0 0.
Definition TrackData_zero : TrackData :=
  mk_TrackData 0 0 0 false false false false 0 0 0 0 None None 0 false None None.
Definition MKVMasterData_zero : MKVMasterData := mk_MKVMasterData 0 [] None [] 0 [].

(** ** The [Parser] class *)

Definition m_cirBufferLength : Z := 30.

Record Parser : Type := mk_Parser {
  m_jumpTo : Z   (* QWORD *);
  m_jumpFlag : bool;
  m_isFinishedParsingMaster : bool;
  m_isCurrentKeyFrame : bool;
  m_currentBlockTimeCode : Z   (* UINT64 *);
  m_currentTimeStamp : Z   (* UINT64 *);
  m_currentFrameSize : Z   (* int *);
  m_currentStream : Z   (* int *);
  m_insertedHeaderYet : bool;
  m_circularBuffer : list Z   (* int[m_cirBufferLength] *);
  pCircRead : nat   (* index into m_circularBuffer *);
  pCircWrite : nat   (* index into m_circularBuffer *);
  m_circularBufferPosition : list Z   (* int[m_cirBufferLength] *);
  pCircReadPosition : nat;
  pCircWritePosition : nat;
  m_frameCount : Z   (* byte *);
  m_startPosition : Z   (* m_startPosition.hVal.QuadPart, LONGLONG *);
  m_frameSizeQueue : list Z   (* std::queue<int> *);
  m_SCR : Z   (* LONGLONG *);
  m_muxRate : Z   (* DWORD *);
  m_masterData : MKVMasterData;
  m_framesReady : bool;
  m_bEOS : bool
}.

(** The state [Parser::Parser()] leaves: the members its initialiser list
    does not name start out zero, [ref new] handing out zero-filled
    storage. *)
Definition Parser_new : Parser :=
  mk_Parser 0 false false false 0 0 0 0 false
            (replicate 30 0) 0 0 (replicate 30 0) 0 0 0 0 [] 0 0
            MKVMasterData_zero false false.

Definition set_m_jumpTo (v : Z) (p : Parser) : Parser :=
  mk_Parser v (m_jumpFlag p) (m_isFinishedParsingMaster p) (m_isCurrentKeyFrame p) (m_currentBlockTimeCode p) (m_currentTimeStamp p) (m_currentFrameSize p) (m_currentStream p) (m_insertedHeaderYet p) (m_circularBuffer p) (pCircRead p) (pCircWrite p) (m_circularBufferPosition p) (pCircReadPosition p) (pCircWritePosition p) (m_frameCount p) (m_startPosition p) (m_frameSizeQueue p) (m_SCR p) (m_muxRate p) (m_masterData p) (m_framesReady p) (m_bEOS p).
Definition set_m_jumpFlag (v : bool) (p : Parser) : Parser :=
  mk_Parser (m_jumpTo p) v (m_isFinishedParsingMaster p) (m_isCurrentKeyFrame p) (m_currentBlockTimeCode p) (m_currentTimeStamp p) (m_currentFrameSize p) (m_currentStream p) (m_insertedHeaderYet p) (m_circularBuffer p) (pCircRead p) (pCircWrite p) (m_circularBufferPosition p) (pCircReadPosition p) (pCircWritePosition p) (m_frameCount p) (m_startPosition p) (m_frameSizeQueue p) (m_SCR p) (m_muxRate p) (m_masterData p) (m_framesReady p) (m_bEOS p).
Definition set_m_isFinishedParsingMaster (v : bool) (p : Parser) : Parser :=
  mk_Parser (m_jumpTo p) (m_jumpFlag p) v (m_isCurrentKeyFrame p) (m_currentBlockTimeCode p) (m_currentTimeStamp p) (m_currentFrameSize p) (m_currentStream p) (m_insertedHeaderYet p) (m_circularBuffer p) (pCircRead p) (pCircWrite p) (m_circularBufferPosition p) (pCircReadPosition p) (pCircWritePosition p) (m_frameCount p) (m_startPosition p) (m_frameSizeQueue p) (m_SCR p) (m_muxRate p) (m_masterData p) (m_framesReady p) (m_bEOS p).
Definition set_m_isCurrentKeyFrame (v : bool) (p : Parser) : Parser :=
  mk_Parser (m_jumpTo p) (m_jumpFlag p) (m_isFinishedParsingMaster p) v (m_currentBlockTimeCode p) (m_currentTimeStamp p) (m_currentFrameSize p) (m_currentStream p) (m_insertedHeaderYet p) (m_circularBuffer p) (pCircRead p) (pCircWrite p) (m_circularBufferPosition p) (pCircReadPosition p) (pCircWritePosition p) (m_frameCount p) (m_startPosition p) (m_frameSizeQueue p) (m_SCR p) (m_muxRate p) (m_masterData p) (m_framesReady p) (m_bEOS p).
Definition set_m_currentBlockTimeCode (v : Z) (p : Parser) : Parser :=
  mk_Parser (m_jumpTo p) (m_jumpFlag p) (m_isFinishedParsingMaster p) (m_isCurrentKeyFrame p) v (m_currentTimeStamp p) (m_currentFrameSize p) (m_currentStream p) (m_insertedHeaderYet p) (m_circularBuffer p) (pCircRead p) (pCircWrite p) (m_circularBufferPosition p) (pCircReadPosition p) (pCircWritePosition p) (m_frameCount p) (m_startPosition p) (m_frameSizeQueue p) (m_SCR p) (m_muxRate p) (m_masterData p) (m_framesReady p) (m_bEOS p).
Definition set_m_currentTimeStamp (v : Z) (p : Parser) : Parser :=
  mk_Parser (m_jumpTo p) (m_jumpFlag p) (m_isFinishedParsingMaster p) (m_isCurrentKeyFrame p) (m_currentBlockTimeCode p) v (m_currentFrameSize p) (m_currentStream p) (m_insertedHeaderYet p) (m_circularBuffer p) (pCircRead p) (pCircWrite p) (m_circularBufferPosition p) (pCircReadPosition p) (pCircWritePosition p) (m_frameCount p) (m_startPosition p) (m_frameSizeQueue p) (m_SCR p) (m_muxRate p) (m_masterData p) (m_framesReady p) (m_bEOS p).
Definition set_m_currentStream (v : Z) (p : Parser) : Parser :=
  mk_Parser (m_jumpTo p) (m_jumpFlag p) (m_isFinishedParsingMaster p) (m_isCurrentKeyFrame p) (m_currentBlockTimeCode p) (m_currentTimeStamp p) (m_currentFrameSize p) v (m_insertedHeaderYet p) (m_circularBuffer p) (pCircRead p) (pCircWrite p) (m_circularBufferPosition p) (pCircReadPosition p) (pCircWritePosition p) (m_frameCount p) (m_startPosition p) (m_frameSizeQueue p) (m_SCR p) (m_muxRate p) (m_masterData p) (m_framesReady p) (m_bEOS p).
Definition set_m_circularBuffer (v : list Z) (p : Parser) : Parser :=
  mk_Parser (m_jumpTo p) (m_jumpFlag p) (m_isFinishedParsingMaster p) (m_isCurrentKeyFrame p) (m_currentBlockTimeCode p) (m_currentTimeStamp p) (m_currentFrameSize p) (m_currentStream p) (m_insertedHeaderYet p) v (pCircRead p) (pCircWrite p) (m_circularBufferPosition p) (pCircReadPosition p) (pCircWritePosition p) (m_frameCount p) (m_startPosition p) (m_frameSizeQueue p) (m_SCR p) (m_muxRate p) (m_masterData p) (m_framesReady p) (m_bEOS p).
Definition set_pCircWrite (v : nat) (p : Parser) : Parser :=
  mk_Parser (m_jumpTo p) (m_jumpFlag p) (m_isFinishedParsingMaster p) (m_isCurrentKeyFrame p) (m_currentBlockTimeCode p) (m_currentTimeStamp p) (m_currentFrameSize p) (m_currentStream p) (m_insertedHeaderYet p) (m_circularBuffer p) (pCircRead p) v (m_circularBufferPosition p) (pCircReadPosition p) (pCircWritePosition p) (m_frameCount p) (m_startPosition p) (m_frameSizeQueue p) (m_SCR p) (m_muxRate p) (m_masterData p) (m_framesReady p) (m_bEOS p).
Definition set_m_frameCount (v : Z) (p : Parser) : Parser :=
  mk_Parser (m_jumpTo p) (m_jumpFlag p) (m_isFinishedParsingMaster p) (m_isCurrentKeyFrame p) (m_currentBlockTimeCode p) (m_currentTimeStamp p) (m_currentFrameSize p) (m_currentStream p) (m_insertedHeaderYet p) (m_circularBuffer p) (pCircRead p) (pCircWrite p) (m_circularBufferPosition p) (pCircReadPosition p) (pCircWritePosition p) v (m_startPosition p) (m_frameSizeQueue p) (m_SCR p) (m_muxRate p) (m_masterData p) (m_framesReady p) (m_bEOS p).
Definition set_m_startPosition (v : Z) (p : Parser) : Parser :=
  mk_Parser (m_jumpTo p) (m_jumpFlag p) (m_isFinishedParsingMaster p) (m_isCurrentKeyFrame p) (m_currentBlockTimeCode p) (m_currentTimeStamp p) (m_currentFrameSize p) (m_currentStream p) (m_insertedHeaderYet p) (m_circularBuffer p) (pCircRead p) (pCircWrite p) (m_circularBufferPosition p) (pCircReadPosition p) (pCircWritePosition p) (m_frameCount p) v (m_frameSizeQueue p) (m_SCR p) (m_muxRate p) (m_masterData p) (m_framesReady p) (m_bEOS p).
Definition set_m_masterData (v : MKVMasterData) (p : Parser) : Parser :=
  mk_Parser (m_jumpTo p) (m_jumpFlag p) (m_isFinishedParsingMaster p) (m_isCurrentKeyFrame p) (m_currentBlockTimeCode p) (m_currentTimeStamp p) (m_currentFrameSize p) (m_currentStream p) (m_insertedHeaderYet p) (m_circularBuffer p) (pCircRead p) (pCircWrite p) (m_circularBufferPosition p) (pCircReadPosition p) (pCircWritePosition p) (m_frameCount p) (m_startPosition p) (m_frameSizeQueue p) (m_SCR p) (m_muxRate p) v (m_framesReady p) (m_bEOS p).
Definition set_m_framesReady (v : bool) (p : Parser) : Parser :=
  mk_Parser (m_jumpTo p) (m_jumpFlag p) (m_isFinishedParsingMaster p) (m_isCurrentKeyFrame p) (m_currentBlockTimeCode p) (m_currentTimeStamp p) (m_currentFrameSize p) (m_currentStream p) (m_insertedHeaderYet p) (m_circularBuffer p) (pCircRead p) (pCircWrite p) (m_circularBufferPosition p) (pCircReadPosition p) (pCircWritePosition p) (m_frameCount p) (m_startPosition p) (m_frameSizeQueue p) (m_SCR p) (m_muxRate p) (m_masterData p) v (m_bEOS p).

(** *** Model building from a parsed master element *)

(** [dynamic_cast<master_element*>(e)->children]: the cast yields null for
    any other class. *)
Definition children_of (e : base_element) : outcome (list base_element) :=
  match e with
  | master_element _ _ ch => Ok ch
  | _ => Undefined NullDeref
  end.

Definition uint_data_of (e : base_element) : outcome Z :=
  match e with
  | uint_element _ _ d => Ok d
  | _ => Undefined NullDeref
  end.

(** The first argument of [strcmp(e->name, ...)]. *)
Definition name_of (e : base_element) : outcome string :=
  match elem_name e with
  | Some n => Ok n
  | None => Undefined NullDeref
  end.

Definition byte_at (arr : list Z) (i : nat) : outcome Z :=
  match arr !! i with
  | Some x => Ok x
  | None => Undefined ReadPastEnd
  end.

Definition lookup_type_name (id : Z) : outcome type_name :=
  match element_types_names !! id with
  | Some t => Ok t
  | None => Undefined MapEnd
  end.

(** The key built with [MAKELONG]/[MAKEWORD] from the SeekID bytes; [size]
    is the [int] size of the enclosing SeekHead element. *)
Definition SeekID_key (size : Z) (arr : list Z) : outcome Z :=
  a3 ← (if size >? 3 then byte_at arr 3 else Ok 0);
  a2 ← (if size >? 2 then byte_at arr 2 else Ok 0);
  a1 ← (if size >? 1 then byte_at arr 1 else Ok 0);
  a0 ← byte_at arr 0;
  Ok (Z.lor (Z.lor a3 (Z.shiftl a2 8)) (Z.shiftl (Z.lor a1 (Z.shiftl a0 8)) 16)).

Fixpoint build_Seek (size : Z) (children : list base_element) (seek : Seek)
  : outcome Seek :=
  match children with
  | [] => Ok seek
  | child :: rest =>
      seek1 ← match elem_type child with
              | BINARY =>
                  match child with
                  | binary_element _ _ _ arr =>
                      key ← SeekID_key size arr;
                      t ← lookup_type_name key;
                      Ok (mk_Seek (tn_name t) (SeekPosition seek))
                  | _ => Undefined NullDeref
                  end
              | _ => Ok seek
              end;
      seek2 ← match elem_type child with
              | _UNSIGNED =>
                  d ← uint_data_of child;
                  Ok (mk_Seek (elemID seek1) (qw d))
              | _ => Ok seek1
              end;
      build_Seek size rest seek2
  end.

Fixpoint build_SeekHead (size : Z) (children : list base_element) (seeks : list Seek)
  : outcome (list Seek) :=
  match children with
  | [] => Ok seeks
  | base :: rest =>
      ch ← children_of base;
      seek ← build_Seek size ch Seek_zero;
      build_SeekHead size rest (seeks ++ [seek])
  end.

(** The loop over the children of an Info element, filling [segInfo]. *)
Fixpoint build_SegInfo (children : list base_element) (segInfo : SegmentInformation)
  : outcome SegmentInformation :=
  match children with
  | [] => Ok segInfo
  | child :: rest =>
      segInfo' ←
        match elem_type child with
        | BINARY =>
            match child with
            | binary_element _ _ len d =>
                (* memcpy(&segInfo->SegmentUID[0], data, length) *)
                if len >? 16 then Undefined WritePastEnd
                else if len >? Z.of_nat (length d) then Undefined ReadPastEnd
                else Ok (mk_SegmentInformation
                           (take (Z.to_nat len) d ++ drop (Z.to_nat len) (SegmentUID segInfo))
                           (TimecodeScale segInfo) (Duration segInfo)
                           (MuxingApp segInfo) (WritingApp segInfo))
            | _ => Undefined NullDeref
            end
        | _UNSIGNED =>
            d ← uint_data_of child;
            Ok (mk_SegmentInformation (SegmentUID segInfo) (qw d) (Duration segInfo)
                  (MuxingApp segInfo) (WritingApp segInfo))
        | TEXTU =>
            match child with
            | string_element _ _ d =>
                n ← name_of child;
                if String.eqb n "MuxingApp" then
                  Ok (mk_SegmentInformation (SegmentUID segInfo) (TimecodeScale segInfo)
                        (Duration segInfo) (Some d) (WritingApp segInfo))
                else if String.eqb n "WritingApp" then
                  Ok (mk_SegmentInformation (SegmentUID segInfo) (TimecodeScale segInfo)
                        (Duration segInfo) (MuxingApp segInfo) (Some d))
                else Ok segInfo
            | _ => Undefined NullDeref
            end
        | _FLOAT =>
            match child with
            | float_element _ _ d =>
                n ← name_of child;
                if String.eqb n "Duration" then
                  Ok (mk_SegmentInformation (SegmentUID segInfo) (TimecodeScale segInfo)
                        d (MuxingApp segInfo) (WritingApp segInfo))
                else Ok segInfo
            | _ => Undefined NullDeref
            end
        | _ => Ok segInfo
        end;
      build_SegInfo rest segInfo'
  end.

(** The Info branch: [segInfo = new SegmentInformation()], the loop, and
    the store into the master data. *)
Definition build_Info (children : list base_element) : outcome SegmentInformation :=
  build_SegInfo children SegmentInformation_zero.

Definition set_TrackNumber (v : Z) (t : TrackData) : TrackData :=
  mk_TrackData v (TrackUID t) (TrackType t) (FlagEnabled t) (FlagDefault t) (FlagForced t) (FlagLacing t) (MinCache t) (MaxCache t) (DefaultDuration t) (MaxBlockAdditionID t) (CodecID t) (CodecPrivate t) (CodecPrivateLength t) (CodecDecodeAll t) (TrackVideo t) (TrackAudio t).
Definition set_TrackUID (v : Z) (t : TrackData) : TrackData :=
  mk_TrackData (TrackNumber t) v (TrackType t) (FlagEnabled t) (FlagDefault t) (FlagForced t) (FlagLacing t) (MinCache t) (MaxCache t) (DefaultDuration t) (MaxBlockAdditionID t) (CodecID t) (CodecPrivate t) (CodecPrivateLength t) (CodecDecodeAll t) (TrackVideo t) (TrackAudio t).
Definition set_TrackType (v : Z) (t : TrackData) : TrackData :=
  mk_TrackData (TrackNumber t) (TrackUID t) v (FlagEnabled t) (FlagDefault t) (FlagForced t) (FlagLacing t) (MinCache t) (MaxCache t) (DefaultDuration t) (MaxBlockAdditionID t) (CodecID t) (CodecPrivate t) (CodecPrivateLength t) (CodecDecodeAll t) (TrackVideo t) (TrackAudio t).
Definition set_FlagEnabled (v : bool) (t : TrackData) : TrackData :=
  mk_TrackData (TrackNumber t) (TrackUID t) (TrackType t) v (FlagDefault t) (FlagForced t) (FlagLacing t) (MinCache t) (MaxCache t) (DefaultDuration t) (MaxBlockAdditionID t) (CodecID t) (CodecPrivate t) (CodecPrivateLength t) (CodecDecodeAll t) (TrackVideo t) (TrackAudio t).
Definition set_FlagDefault (v : bool) (t : TrackData) : TrackData :=
  mk_TrackData (TrackNumber t) (TrackUID t) (TrackType t) (FlagEnabled t) v (FlagForced t) (FlagLacing t) (MinCache t) (MaxCache t) (DefaultDuration t) (MaxBlockAdditionID t) (CodecID t) (CodecPrivate t) (CodecPrivateLength t) (CodecDecodeAll t) (TrackVideo t) (TrackAudio t).
Definition set_FlagForced (v : bool) (t : TrackData) : TrackData :=
  mk_TrackData (TrackNumber t) (TrackUID t) (TrackType t) (FlagEnabled t) (FlagDefault t) v (FlagLacing t) (MinCache t) (MaxCache t) (DefaultDuration t) (MaxBlockAdditionID t) (CodecID t) (CodecPrivate t) (CodecPrivateLength t) (CodecDecodeAll t) (TrackVideo t) (TrackAudio t).
Definition set_FlagLacing (v : bool) (t : TrackData) : TrackData :=
  mk_TrackData (TrackNumber t) (TrackUID t) (TrackType t) (FlagEnabled t) (FlagDefault t) (FlagForced t) v (MinCache t) (MaxCache t) (DefaultDuration t) (MaxBlockAdditionID t) (CodecID t) (CodecPrivate t) (CodecPrivateLength t) (CodecDecodeAll t) (TrackVideo t) (TrackAudio t).
Definition set_MinCache (v : Z) (t : TrackData) : TrackData :=
  mk_TrackData (TrackNumber t) (TrackUID t) (TrackType t) (FlagEnabled t) (FlagDefault t) (FlagForced t) (FlagLacing t) v (MaxCache t) (DefaultDuration t) (MaxBlockAdditionID t) (CodecID t) (CodecPrivate t) (CodecPrivateLength t) (CodecDecodeAll t) (TrackVideo t) (TrackAudio t).
Definition set_MaxCache (v : Z) (t : TrackData) : TrackData :=
  mk_TrackData (TrackNumber t) (TrackUID t) (TrackType t) (FlagEnabled t) (FlagDefault t) (FlagForced t) (FlagLacing t) (MinCache t) v (DefaultDuration t) (MaxBlockAdditionID t) (CodecID t) (CodecPrivate t) (CodecPrivateLength t) (CodecDecodeAll t) (TrackVideo t) (TrackAudio t).
Definition set_DefaultDuration (v : Z) (t : TrackData) : TrackData :=
  mk_TrackData (TrackNumber t) (TrackUID t) (TrackType t) (FlagEnabled t) (FlagDefault t) (FlagForced t) (FlagLacing t) (MinCache t) (MaxCache t) v (MaxBlockAdditionID t) (CodecID t) (CodecPrivate t) (CodecPrivateLength t) (CodecDecodeAll t) (TrackVideo t) (TrackAudio t).
Definition set_MaxBlockAdditionID (v : Z) (t : TrackData) : TrackData :=
  mk_TrackData (TrackNumber t) (TrackUID t) (TrackType t) (FlagEnabled t) (FlagDefault t) (FlagForced t) (FlagLacing t) (MinCache t) (MaxCache t) (DefaultDuration t) v (CodecID t) (CodecPrivate t) (CodecPrivateLength t) (CodecDecodeAll t) (TrackVideo t) (TrackAudio t).
Definition set_CodecID (v : option (list Z)) (t : TrackData) : TrackData :=
  mk_TrackData (TrackNumber t) (TrackUID t) (TrackType t) (FlagEnabled t) (FlagDefault t) (FlagForced t) (FlagLacing t) (MinCache t) (MaxCache t) (DefaultDuration t) (MaxBlockAdditionID t) v (CodecPrivate t) (CodecPrivateLength t) (CodecDecodeAll t) (TrackVideo t) (TrackAudio t).
Definition set_CodecPrivate (v : option (list Z)) (t : TrackData) : TrackData :=
  mk_TrackData (TrackNumber t) (TrackUID t) (TrackType t) (FlagEnabled t) (FlagDefault t) (FlagForced t) (FlagLacing t) (MinCache t) (MaxCache t) (DefaultDuration t) (MaxBlockAdditionID t) (CodecID t) v (CodecPrivateLength t) (CodecDecodeAll t) (TrackVideo t) (TrackAudio t).
Definition set_CodecPrivateLength (v : Z) (t : TrackData) : TrackData :=
  mk_TrackData (TrackNumber t) (TrackUID t) (TrackType t) (FlagEnabled t) (FlagDefault t) (FlagForced t) (FlagLacing t) (MinCache t) (MaxCache t) (DefaultDuration t) (MaxBlockAdditionID t) (CodecID t) (CodecPrivate t) v (CodecDecodeAll t) (TrackVideo t) (TrackAudio t).
Definition set_CodecDecodeAll (v : bool) (t : TrackData) : TrackData :=
  mk_TrackData (TrackNumber t) (TrackUID t) (TrackType t) (FlagEnabled t) (FlagDefault t) (FlagForced t) (FlagLacing t) (MinCache t) (MaxCache t) (DefaultDuration t) (MaxBlockAdditionID t) (CodecID t) (CodecPrivate t) (CodecPrivateLength t) v (TrackVideo t) (TrackAudio t).
Definition set_TrackVideo (v : option Video) (t : TrackData) : TrackData :=
  mk_TrackData (TrackNumber t) (TrackUID t) (TrackType t) (FlagEnabled t) (FlagDefault t) (FlagForced t) (FlagLacing t) (MinCache t) (MaxCache t) (DefaultDuration t) (MaxBlockAdditionID t) (CodecID t) (CodecPrivate t) (CodecPrivateLength t) (CodecDecodeAll t) v (TrackAudio t).
Definition set_TrackAudio (v : option Audio) (t : TrackData) : TrackData :=
  mk_TrackData (TrackNumber t) (TrackUID t) (TrackType t) (FlagEnabled t) (FlagDefault t) (FlagForced t) (FlagLacing t) (MinCache t) (MaxCache t) (DefaultDuration t) (MaxBlockAdditionID t) (CodecID t) (CodecPrivate t) (CodecPrivateLength t) (CodecDecodeAll t) (TrackVideo t) v.

(** [bool b = x] for an integer [x]. *)
Definition nonzero (x : Z) : bool := negb (x =? 0).

(** The [_UNSIGNED] branch of the TrackEntry loop: the [strcmp] chain. *)
Definition TrackData_assign_uint (n : string) (d : Z) (t : TrackData) : TrackData :=
  if String.eqb n "TrackNumber" then set_TrackNumber (dw d) t
  else if String.eqb n "TrackUID" then set_TrackUID d t
  else if String.eqb n "TrackType" then set_TrackType (dw d) t
  else if String.eqb n "FlagEnabled" then set_FlagEnabled (nonzero d) t
  else if String.eqb n "FlagDefault" then set_FlagDefault (nonzero d) t
  else if String.eqb n "FlagForced" then set_FlagForced (nonzero d) t
  else if String.eqb n "FlagLacing" then set_FlagLacing (nonzero d) t
  else if String.eqb n "MinCache" then set_MinCache (dw d) t
  else if String.eqb n "MaxCache" then set_MaxCache (dw d) t
  else if String.eqb n "MaxBlockAdditionID" then set_MaxBlockAdditionID (dw d) t
  else if String.eqb n "CodecDecodeAll" then set_CodecDecodeAll (nonzero d) t
  else if String.eqb n "DefaultDuration" then set_DefaultDuration (dw d) t
  else t.

(** The loop over the children of a Video or Audio master inside a
    TrackEntry. The name of [master] is compared only after the name of
    the child matched, as [&&] evaluates it. *)
Fixpoint build_Video_Audio (master : base_element) (children : list base_element)
    (va : Video * Audio) : outcome (Video * Audio) :=
  match children with
  | [] => Ok va
  | child :: rest =>
      let '(video, audio) := va in
      va' ←
        match elem_type child with
        | _UNSIGNED =>
            d ← uint_data_of child;
            n ← name_of child;
            if String.eqb n "PixelWidth" then
              m ← name_of master;
              Ok (if String.eqb m "Video"
                  then (mk_Video (FlagInterlaced video) (dw d) (PixelHeight video), audio)
                  else va)
            else if String.eqb n "PixelHeight" then
              m ← name_of master;
              Ok (if String.eqb m "Video"
                  then (mk_Video (FlagInterlaced video) (PixelWidth video) (dw d), audio)
                  else va)
            else if String.eqb n "FlagInterlaced" then
              m ← name_of master;
              Ok (if String.eqb m "Video"
                  then (mk_Video (nonzero d) (PixelWidth video) (PixelHeight video), audio)
                  else va)
            else if String.eqb n "Channels" then
              m ← name_of master;
              Ok (if String.eqb m "Audio"
                  then (video, mk_Audio (SamplingFrequency audio)
                                 (OutputSamplingFrequency audio) (to_byte d) (BitDepth audio))
                  else va)
            else if String.eqb n "BitDepth" then
              m ← name_of master;
              Ok (if String.eqb m "Audio"
                  then (video, mk_Audio (SamplingFrequency audio)
                                 (OutputSamplingFrequency audio) (Channels audio) (to_byte d))
                  else va)
            else Ok va
        | _FLOAT =>
            match child with
            | float_element _ _ x =>
                n ← name_of child;
                if String.eqb n "SamplingFrequency" then
                  m ← name_of master;
                  if String.eqb m "Audio" then
                    f ← ieee_to_DWORD x;
                    Ok (video, mk_Audio f (OutputSamplingFrequency audio)
                                 (Channels audio) (BitDepth audio))
                  else Ok va
                else if String.eqb n "OutputSamplingFrequency" then
                  m ← name_of master;
                  if String.eqb m "Audio" then
                    f ← ieee_to_DWORD x;
                    Ok (video, mk_Audio (SamplingFrequency audio) f
                                 (Channels audio) (BitDepth audio))
                  else Ok va
                else Ok va
            | _ => Undefined NullDeref
            end
        | _ => Ok va
        end;
      build_Video_Audio master rest va'
  end.

(** The loop over the children of one TrackEntry. *)
Fixpoint build_TrackEntry (children : list base_element) (trackEntry : TrackData)
  : outcome TrackData :=
  match children with
  | [] => Ok trackEntry
  | child :: rest =>
      t' ←
        match elem_type child with
        | TEXTA =>
            match child with
            | string_element _ _ d =>
                n ← name_of child;
                Ok (if String.eqb n "CodecID" then set_CodecID (Some d) trackEntry
                    else trackEntry)
            | _ => Undefined NullDeref
            end
        | BINARY =>
            match child with
            | binary_element _ _ len d =>
                n ← name_of child;
                Ok (if String.eqb n "CodecPrivate"
                    then set_CodecPrivateLength (to_int32 len)
                           (set_CodecPrivate (Some d) trackEntry)
                    else trackEntry)
            | _ => Undefined NullDeref
            end
        | _UNSIGNED =>
            d ← uint_data_of child;
            n ← name_of child;
            Ok (TrackData_assign_uint n d trackEntry)
        | MASTER =>
            ch ← children_of child;
            '(video, audio) ← build_Video_Audio child ch (Video_zero, Audio_zero);
            Ok (set_TrackAudio (Some audio) (set_TrackVideo (Some video) trackEntry))
        | _ => Ok trackEntry
        end;
      build_TrackEntry rest t'
  end.

Fixpoint build_Tracks (children : list base_element) (tracks : list TrackData)
  : outcome (list TrackData) :=
  match children with
  | [] => Ok tracks
  | base :: rest =>
      ch ← children_of base;
      trackEntry ← build_TrackEntry ch TrackData_zero;
      build_Tracks rest (tracks ++ [trackEntry])
  end.

(** The loop over the children of one CueTrackPositions master. *)
Fixpoint build_CueTrackPosition (children : list base_element) (pos : CueTrackPosition)
  : outcome CueTrackPosition :=
  match children with
  | [] => Ok pos
  | child :: rest =>
      pos' ←
        match elem_type child with
        | _UNSIGNED =>
            d ← uint_data_of child;
            n ← name_of child;
            Ok (if String.eqb n "CueTrack"
                then mk_CueTrackPosition (qw d) (CueClusterPosition pos)
                else if String.eqb n "CueClusterPosition"
                then mk_CueTrackPosition (CueTrack pos) (qw d)
                else pos)
        | _ => Ok pos
        end;
      build_CueTrackPosition rest pos'
  end.

(** The loop over the children of one CuePoint master. *)
Fixpoint build_CuePoint (children : list base_element) (cuePoint : CuePoint)
  : outcome CuePoint :=
  match children with
  | [] => Ok cuePoint
  | child :: rest =>
      cp' ←
        match elem_type child with
        | MASTER =>
            ch ← children_of child;
            cueTrackPos ← build_CueTrackPosition ch CueTrackPosition_zero;
            Ok (mk_CuePoint (CueTime cuePoint) (CueTrackPositions cuePoint ++ [cueTrackPos]))
        | _UNSIGNED =>
            d ← uint_data_of child;
            Ok (mk_CuePoint (qw d) (CueTrackPositions cuePoint))
        | _ => Ok cuePoint
        end;
      build_CuePoint rest cp'
  end.

Fixpoint build_Cues (children : list base_element) (cues : list CuePoint)
  : outcome (list CuePoint) :=
  match children with
  | [] => Ok cues
  | base :: rest =>
      ch ← children_of base;
      cuePoint ← build_CuePoint ch CuePoint_zero;
      build_Cues rest (cues ++ [cuePoint])
  end.

(** Stores into [m_masterData]. *)
Definition set_SegmentPosition (v : Z) (m : MKVMasterData) : MKVMasterData :=
  mk_MKVMasterData v (SeekHead m) (SegInfo m) (Tracks m) (FirstClusterPosition m) (Cues m).
Definition set_SeekHead (v : list Seek) (m : MKVMasterData) : MKVMasterData :=
  mk_MKVMasterData (SegmentPosition m) v (SegInfo m) (Tracks m) (FirstClusterPosition m) (Cues m).
Definition set_SegInfo (v : option SegmentInformation) (m : MKVMasterData) : MKVMasterData :=
  mk_MKVMasterData (SegmentPosition m) (SeekHead m) v (Tracks m) (FirstClusterPosition m) (Cues m).
Definition set_Tracks (v : list TrackData) (m : MKVMasterData) : MKVMasterData :=
  mk_MKVMasterData (SegmentPosition m) (SeekHead m) (SegInfo m) v (FirstClusterPosition m) (Cues m).
Definition set_Cues (v : list CuePoint) (m : MKVMasterData) : MKVMasterData :=
  mk_MKVMasterData (SegmentPosition m) (SeekHead m) (SegInfo m) (Tracks m) (FirstClusterPosition m) v.

(** *** The frame-size ring *)

(** Store [v] under [pCircWrite], count the frame, advance the pointer and
    wrap it at the end of the 30 slots. *)
Definition ring_next (w : nat) : nat :=
  if (S w =? 30)%nat then 0%nat else S w.

Definition ring_stored (v : Z) (p : Parser) : Parser :=
  set_pCircWrite (ring_next (pCircWrite p))
    (set_m_frameCount (to_byte (m_frameCount p + 1))
       (set_m_circularBuffer (<[pCircWrite p := v]> (m_circularBuffer p)) p)).

Definition ring_store (v : Z) (p : Parser) : outcome Parser :=
  if (pCircWrite p <? length (m_circularBuffer p))%nat then Ok (ring_stored v p)
  else Undefined WritePastEnd.

Fixpoint ring_store_n (n : nat) (v : Z) (p : Parser) : outcome Parser :=
  match n with
  | O => Ok p
  | S n' => p1 ← ring_store v p; ring_store_n n' v p1
  end.

(** *** SimpleBlock framing *)

Definition lace_too_big : exn :=
  PlatformException (-4) "laced frame size bigger than 3 bytes".

(** EBML lacing, size of the first frame: [(framelength, skipBytes)]. *)
Definition ebml_lace_first (c : cursor) : outcome (Z * Z * cursor) :=
  '(t0, c1) ← read_byte c;
  if negb (Z.land t0 0x80 =? 0) then
    (* framelength -= pow(2, 8 * 2), from framelength = 0 *)
    Ok (0 - 2 ^ 16, 1, c1)
  else
    '(t1, c2) ← read_byte c1;
    if negb (Z.land t0 0x40 =? 0) then
      Ok ((t0 - 0x40) * 0x100 + t1, 2, c2)
    else
      '(t2, c3) ← read_byte c2;
      if negb (Z.land t0 0x32 =? 0) then
        Ok ((t0 - 0x32) * 0x10000 + t1 * 0x100 + t2, 3, c3)
      else Throw lace_too_big.

(** EBML lacing, difference to the previous size: [(uns, skipBytes)]. *)
Definition ebml_lace_delta (c : cursor) : outcome (Z * Z * cursor) :=
  '(t0, c1) ← read_byte c;
  if negb (Z.land t0 0x80 =? 0) then
    Ok ((t0 - 0x80) - (2 ^ (7 * 0 + 6) - 1), 1, c1)
  else
    '(t1, c2) ← read_byte c1;
    if negb (Z.land t0 0x40 =? 0) then
      Ok (((t0 - 0x40) * 0x100 + t1) - (2 ^ (7 * 1 + 6) - 1), 2, c2)
    else
      '(t2, c3) ← read_byte c2;
      if negb (Z.land t0 0x32 =? 0) then
        Ok (((t0 - 0x32) * 0x10000 + t1 * 0x100 + t2) - (2 ^ (7 * 2 + 6) - 1), 3, c3)
      else Throw lace_too_big.

(** The loop [for (i = 1; i < numframes - 1; ++i)] of EBML lacing; the
    result carries [accumLength] and [framelength] out of it. *)
Fixpoint ebml_lace_loop (n : nat) (c : cursor) (accumLength lastFramelength : Z)
    (p : Parser) : outcome (cursor * Z * Z * Parser) :=
  match n with
  | O => Ok (c, accumLength, lastFramelength, p)
  | S n' =>
      '(uns, skipBytes, c1) ← ebml_lace_delta c;
      let framelength := lastFramelength + uns in
      let accumLength := to_int32 (accumLength + framelength + skipBytes) in
      p1 ← ring_store (to_int32 framelength) p;
      ebml_lace_loop n' c1 accumLength framelength p1
  end.

(** The SimpleBlock branch of [ParseBytes], up to its [break]; [size] is
    the [int] element size. *)
Definition ParseSimpleBlock (size : Z) (p : Parser) (c : cursor)
  : outcome (Parser * cursor) :=
  '(b0, c1) ← read_byte c;
  let p := set_m_currentStream (b0 - 0x80) p in
  '(temp0, c2) ← read_byte c1;
  '(temp1, c3) ← read_byte c2;
  (* read timecode *)
  let timeCode := (0 * 0x100 + temp0) * 0x100 + temp1 in
  let timeCode := if negb (Z.land temp0 0x80 =? 0) then timeCode - 2 ^ (8 * 2)
                  else timeCode in
  '(flags, c4) ← read_byte c3;
  let keyFrame := Z.land flags 0x80 =? 0x80 in
  let p := set_m_isCurrentKeyFrame keyFrame p in
  let laceflags := Z.land flags 0x06 in
  let p := set_m_currentTimeStamp (qw (m_currentBlockTimeCode p + timeCode)) p in
  if laceflags =? 0x00 then
    (* no lacing *)
    fl ← int_result (size - 4);
    p ← ring_store fl p;
    Ok (set_m_framesReady true p, c4)
  else
    '(n, c5) ← read_byte c4;
    let numframes := to_byte (n + 1) in   (* number in file is minus 1 so add one *)
    if laceflags =? 0x02 then
      Throw (PlatformException (-4) "xiph lacing not supported")
    else if laceflags =? 0x06 then
      (* EBML lacing *)
      '(framelength, skipBytes, c6) ← ebml_lace_first c5;
      let accumLength := to_int32 (0 + framelength + skipBytes) in
      p ← ring_store (to_int32 framelength) p;
      '(c7, accumLength, framelength, p) ←
        ebml_lace_loop (Z.to_nat (numframes - 2)) c6 accumLength framelength p;
      (* last frame: lastFrameLength is computed, framelength is stored *)
      rest ← int_result (size - 4);
      lastFrameLength ← int_result (rest - accumLength);
      p ← ring_store (to_int32 framelength) p;
      Ok (set_m_framesReady true p, c7)
    else if laceflags =? 0x04 then
      (* fixed size lacing *)
      body ← int_result (size - 5);
      if numframes =? 0 then Undefined DivideByZero
      else
        let fl := Z.quot body numframes in
        if numframes >? m_cirBufferLength then
          Throw (PlatformException (-222) "circular buffer too small")
        else
          p ← ring_store_n (Z.to_nat numframes) fl p;
          Ok (set_m_framesReady true p, c5)
    else Ok (set_m_framesReady true p, c5).

(** *** [ParseBytes] *)

(** The scan of the SeekHead on reaching a Cluster: the first entry that
    names a part of the master data not parsed yet. *)
Fixpoint first_missing (m : MKVMasterData) (seeks : list Seek) : outcome (option Seek) :=
  match seeks with
  | [] => Ok None
  | sk :: rest =>
      match elemID sk with
      | None => Undefined NullDeref              (* strcmp on a null elemID *)
      | Some id =>
          if (String.eqb id "Info" && bool_decide (SegInfo m = None))
             || (String.eqb id "Tracks" && (Z.of_nat (length (Tracks m)) =? 0))
             || (String.eqb id "Cues" && (Z.of_nat (length (Cues m)) =? 0))
          then Ok (Some sk)
          else first_missing m rest
      end
  end.

(** [delete e]: the destructor of the element's class. Those of
    [sint_element], [uint_element] and [float_element] run [delete] on
    the address of their own [data] member, which no [new] returned;
    that of [master_element] deletes the children in order; those of
    [binary_element] and [string_element] release the array they hold. *)
Fixpoint delete_element (e : base_element) : outcome unit :=
  match e with
  | plain_element _ _ => Ok tt
  | master_element _ _ children =>
      (fix delete_all (l : list base_element) : outcome unit :=
         match l with
         | [] => Ok tt
         | child :: rest => _ ← delete_element child; delete_all rest
         end) children
  | binary_element _ _ _ _ | string_element _ _ _ => Ok tt
  | sint_element _ _ _ | uint_element _ _ _ | float_element _ _ _ =>
      Undefined InvalidDelete
  end.

(** [delete dump], where [dump] may be null. *)
Definition delete_dump (dump : option base_element) : outcome unit :=
  match dump with
  | None => Ok tt
  | Some e => delete_element e
  end.

(** How one pass through the body of [while (cbLen > 0)] ends. *)
Inductive parse_step : Type :=
| StepReturn (result : bool) (p : Parser) (c : cursor)
| StepBreak (p : Parser) (c : cursor)
| StepNext (p : Parser) (c : cursor) (masterElement : option base_element).

(** The chain of tests on [name] that follows the [try] block. *)
Definition ParseBytes_dispatch (fuel : nat) (name : string) (type : EET) (size : Z)
    (p : Parser) (c : cursor) (masterElement : option base_element)
  : outcome parse_step :=
  let md := m_masterData p in
  if String.eqb name "EBML" then Ok (StepNext p c masterElement)
  else if String.eqb name "Segment" then
    Ok (StepNext (set_m_masterData (set_SegmentPosition (pAte c) md) p) c masterElement)
  else if String.eqb name "SeekHead" then
    match masterElement with
    | Some m =>
        ch ← children_of m;
        seeks ← build_SeekHead size ch (SeekHead md);
        Ok (StepNext (set_m_masterData (set_SeekHead seeks md) p) c masterElement)
    | None => Ok (StepNext p c masterElement)
    end
  else if String.eqb name "Info" then
    match masterElement with
    | Some m =>
        ch ← children_of m;
        segInfo ← build_Info ch;
        Ok (StepNext (set_m_masterData (set_SegInfo (Some segInfo) md) p) c masterElement)
    | None => Ok (StepNext p c masterElement)
    end
  else if String.eqb name "Tracks" then
    match masterElement with
    | Some m =>
        ch ← children_of m;
        tracks ← build_Tracks ch (Tracks md);
        Ok (StepNext (set_m_masterData (set_Tracks tracks md) p) c masterElement)
    | None => Ok (StepNext p c masterElement)
    end
  else if String.eqb name "Cues" then
    match masterElement with
    | Some m =>
        ch ← children_of m;
        cues ← build_Cues ch (Cues md);
        Ok (StepNext (set_m_masterData (set_Cues cues md) p) c masterElement)
    | None => Ok (StepNext p c masterElement)
    end
  else if String.eqb name "Timecode" then
    '(e, c1) ← ReadSimpleElement2 fuel c type (dw size);
    match e with
    | Some (uint_element _ _ d) =>
        Ok (StepNext (set_m_currentBlockTimeCode (qw d) p) c1 masterElement)
    | _ => Undefined NullDeref
    end
  else if String.eqb name "SimpleBlock" then
    '(p1, c1) ← ParseSimpleBlock size p c;
    Ok (StepBreak p1 c1)
  else if String.eqb name "BlockGroup" then Ok (StepNext p c masterElement)
  else
    match type with
    | JUST_GO_ON | MASTER => Ok (StepNext p c masterElement)
    | _ =>
        '(dump, c1) ← ReadSimpleElement2 fuel c type (dw size);
        _ ← delete_dump dump;
        Ok (StepNext p c1 masterElement)
    end.

(** One pass through the loop body: the element header, the [try] block,
    then the dispatch on the name. Nothing in the [try] block raises a
    [std::exception], so its [catch] clause is never entered; a
    [Platform::Exception] passes through it. A call that throws is the
    outcome [Throw] and the state it leaves is not kept. *)
Definition ParseBytes_body (fuel : nat) (p : Parser) (c : cursor)
    (masterElement : option base_element) : outcome parse_step :=
  '(elemHeader, c1) ← ReadEbmlElementHeader fuel c;
  typeNameResult ← lookup_type_name (ehr_id elemHeader);
  match tn_name typeNameResult with
  | None => Undefined NullDeref
  | Some name =>
      let type := tn_type typeNameResult in
      let size := to_int32 (elemsize elemHeader) in
      let hsize := to_int32 (headsize elemHeader) in
      let not_enough := StepReturn false p (rewind_counts (dw hsize) c1) in
      match type with
      | MASTER =>
          if dw size >? cbLen c1 then Ok not_enough
          else
            '(m, c2) ← ReadEbmlElementTree2 fuel c1 (elemsize elemHeader);
            ParseBytes_dispatch fuel name type size p c2 (Some m)
      | JUST_GO_ON =>
          if String.eqb name "Cluster" && negb (m_isFinishedParsingMaster p) then
            missing ← first_missing (m_masterData p) (SeekHead (m_masterData p));
            match missing with
            | Some sk =>
                Ok (StepReturn false
                      (set_m_jumpFlag true
                         (set_m_jumpTo
                            (qw (SeekPosition sk + SegmentPosition (m_masterData p))) p))
                      c1)
            | None =>
                ParseBytes_dispatch fuel name type size
                  (set_m_isFinishedParsingMaster true p) c1 masterElement
            end
          else ParseBytes_dispatch fuel name type size p c1 masterElement
      | _ =>
          if dw size >? cbLen c1 then Ok not_enough
          else ParseBytes_dispatch fuel name type size p c1 masterElement
      end
  end.

Fixpoint ParseBytes_loop (fuel : nat) (p : Parser) (c : cursor)
    (masterElement : option base_element) {struct fuel}
  : outcome (bool * Parser * cursor) :=
  if cbLen c >? 0 then
    match fuel with
    | O => OutOfFuel
    | S fuel' =>
        step ← ParseBytes_body fuel' p c masterElement;
        match step with
        | StepReturn result p' c' => Ok (result, p', c')
        | StepBreak p' c' => Ok (true, p', c')
        | StepNext p' c' masterElement' => ParseBytes_loop fuel' p' c' masterElement'
        end
    end
  else Ok (true, p, c).

(** [bool Parser::ParseBytes(const BYTE *pData, DWORD cbLen, DWORD *pAte)]:
    the result, the value left in the location [pAte] points at, and the
    parser. *)
Definition ParseBytes (fuel : nat) (p : Parser) (pData : list Z) (cbLen : Z)
  : outcome (bool * Z * Parser) :=
  if cbLen <? 4 then Ok (false, 0, p)
  else
    '(result, p', c') ← ParseBytes_loop fuel p (mk_cursor pData cbLen 0) None;
    Ok (result, pAte c', p').

(** *** Seeking *)

(** The [find_if] of [FindSeekPoint]: the predicate records in [lastOne]
    every item it rejects and stops at the first it accepts. *)
Fixpoint FindSeekPoint_scan (startTime : Z) (cues : list CuePoint)
    (lastOne : option CuePoint) : option CuePoint :=
  match cues with
  | [] => lastOne
  | item :: rest =>
      if CueTime item <? startTime then FindSeekPoint_scan startTime rest (Some item)
      else lastOne
  end.

Definition FindSeekPoint (p : Parser) : outcome Z :=
  let md := m_masterData p in
  match SegInfo md with
  | None => Undefined NullDeref
  | Some segInfo =>
      let scale := TimecodeScale segInfo / 100 in
      if scale =? 0 then Undefined DivideByZero
      else
        let startTime := qw (m_startPosition p) / scale in
        match FindSeekPoint_scan startTime (Cues md) None with
        | None => Undefined Uninitialised       (* lastOne was never assigned *)
        | Some lastOne =>
            (* for now, return the first track's position only *)
            match CueTrackPositions lastOne with
            | [] => Undefined ReadPastEnd
            | pos :: _ => Ok (qw (CueClusterPosition pos + SegmentPosition md))
            end
        end
  end.

(** The seek branch of [MKVSource::ParseData], taken when the parser is
    not at the end of the stream, has no frames ready and
    [m_startPosition.hVal.QuadPart > 0]. *)
Definition ParseData_seek (p : Parser) : outcome Parser :=
  jumpToBytePosition ← FindSeekPoint p;
  Ok (set_m_startPosition 0 (set_m_jumpTo jumpToBytePosition (set_m_jumpFlag true p))).

(** ** Further code of [Parse.cpp] *)

(** *** The reader over a bare pointer *)

(** [while (i)] of [ParseMatroskaNumber]: the bytes come from under the
    pointer, no count is kept. *)
Fixpoint ParseMatroskaNumber_tail (i : nat) (code : Z) (pData : list Z)
  : outcome (Z * list Z) :=
  match i with
  | O => Ok (code, pData)
  | S i' =>
      match pData with
      | [] => Undefined ReadPastEnd
      | x :: rest => ParseMatroskaNumber_tail i' (dw (code * 0x100 + x)) rest
      end
  end.

(** [Parser::ParseMatroskaNumber(BYTE **pData, bool isSigned, bool
    unModified)]: the result and the pointer left behind. The two flags
    come in the opposite order to [ReadMatroskaNumber] and are not tested
    against each other. *)
Definition ParseMatroskaNumber (fuel : nat) (pData : list Z) (isSigned unModified : bool)
  : outcome (matroska_number_result * list Z) :=
  match pData with
  | [] => Undefined ReadPastEnd
  | code :: pData1 =>
      numResult ← GetMajorBitNumber fuel (to_byte code);
      let code := if unModified then code else clearedNum numResult in
      '(code, pData2) ← ParseMatroskaNumber_tail (Z.to_nat (bitNum numResult)) code pData1;
      let bound := pow2_minus_1 (7 * bitNum numResult + 7) in
      if isSigned then
        code' ← double_to_DWORD (rne_double (code - bound));
        Ok (mk_matroska_number_result code' (bitNum numResult + 1), pData2)
      else if code =? bound then
        Ok (mk_matroska_number_result (dw (-1)) (bitNum numResult + 1), pData2)
      else
        Ok (mk_matroska_number_result code (bitNum numResult + 1), pData2)
  end.

(** *** The MPEG-1 helpers

    The static functions [Parse.cpp] keeps from the MPEG-1 sample it was
    derived from. [ThrowException(hr)] raises the [HRESULT] it is given;
    the codes are those of the platform headers and are kept by name. An
    exception leaves no result, so what a call stored into an output
    structure before it threw is not kept. *)

Inductive hresult : Type :=
| MF_E_INVALID_FORMAT | MF_E_INVALIDTYPE | E_UNEXPECTED.

Inductive mpeg_outcome (A : Type) : Type :=
| Returns (a : A)
| ThrowException (hr : hresult)
| ThrowInvalidArgument        (* throw ref new InvalidArgumentException() *)
| Faults (f : fault).

Arguments Returns {A} a.
Arguments ThrowException {A} hr.
Arguments ThrowInvalidArgument {A}.
Arguments Faults {A} f.

#[global] Instance mpeg_outcome_ret : MRet mpeg_outcome := fun A a => Returns a.
#[global] Instance mpeg_outcome_bind : MBind mpeg_outcome := fun A B f m =>
  match m with
  | Returns a => f a
  | ThrowException hr => ThrowException hr
  | ThrowInvalidArgument => ThrowInvalidArgument
  | Faults u => Faults u
  end.

(** Reduction into [WORD] (unsigned 16 bit). *)
Definition to_word (z : Z) : Z := z mod 2^16.
#[global] Arguments to_word : simpl never.

(** [HAS_FLAG(b, flag)]. *)
Definition HAS_FLAG (b flag : Z) : bool := Z.land b flag =? flag.

(** [htonl(x)] on a [DWORD]. *)
Definition htonl (x : Z) : Z :=
  Z.lor (Z.lor (Z.lor (Z.land (Z.shiftr x 24) 0x000000FF)
                      (Z.land (Z.shiftr x 8) 0x0000FF00))
               (Z.land (Z.shiftl x 8) 0x00FF0000))
        (Z.land (Z.shiftl x 24) 0xFF000000).

Definition MAKE_WORD (b1 b2 : Z) : Z := to_word (Z.lor (Z.shiftl b1 8) b2).

(** [pData[i]]. *)
Definition mpeg_at (pData : list Z) (i : nat) : mpeg_outcome Z :=
  match pData !! i with
  | Some x => Returns x
  | None => Faults ReadPastEnd
  end.

(** [MAKE_DWORD_HOSTORDER]: the four bytes under the pointer read as one
    [DWORD]. Every target of the project (x86, x64 and ARM Windows) is
    little-endian. *)
Definition MAKE_DWORD_HOSTORDER (pData : list Z) : mpeg_outcome Z :=
  match pData with
  | b0 :: b1 :: b2 :: b3 :: _ =>
      Returns (Z.lor (Z.lor (Z.lor b0 (Z.shiftl b1 8)) (Z.shiftl b2 16)) (Z.shiftl b3 24))
  | _ => Faults ReadPastEnd
  end.

(** [MAKE_DWORD]: the same four bytes in MPEG-1 stream order. *)
Definition MAKE_DWORD (pData : list Z) : mpeg_outcome Z :=
  d ← MAKE_DWORD_HOSTORDER pData; Returns (htonl d).

(** [while (cbLeft > 4)] of [FindNextStartCode]; every pass reads the
    four bytes under the pointer and then moves it past them, so the
    recursion is on the bytes. The result is [(result, cbLeft)]. *)
Fixpoint FindNextStartCode_loop (pData : list Z) (cbLeft : Z) {struct pData}
  : mpeg_outcome (bool * Z) :=
  if cbLeft >? 4 then
    match pData with
    | b0 :: b1 :: b2 :: b3 :: rest =>
        if Z.land (Z.lor (Z.lor (Z.lor b0 (Z.shiftl b1 8)) (Z.shiftl b2 16)) (Z.shiftl b3 24))
                  0x00FFFFFF =? 0x00010000
        then Returns (true, cbLeft)
        else FindNextStartCode_loop rest (cbLeft - 4)
    | _ => Faults ReadPastEnd
    end
  else Returns (false, cbLeft).

(** [Parser::FindNextStartCode(pData, cbLen, pAte)]: the result and the
    value stored through [pAte]. *)
Definition FindNextStartCode (pData : list Z) (cbLen : Z) : mpeg_outcome (bool * Z) :=
  '(result, cbLeft) ← FindNextStartCode_loop pData cbLen;
  Returns (result, dw (cbLen - cbLeft)).

(** [ParsePTS]: the 33-bit presentation time stamp, as the [QuadPart] of
    the [LARGE_INTEGER] whose two halves are filled in. *)
Definition ParsePTS (pData : list Z) : mpeg_outcome Z :=
  byte1 ← mpeg_at pData 0;
  d1 ← mpeg_at pData 1;
  d2 ← mpeg_at pData 2;
  let word1 := MAKE_WORD d1 d2 in
  d3 ← mpeg_at pData 3;
  d4 ← mpeg_at pData 4;
  let word2 := MAKE_WORD d3 d4 in
  (* Check marker bits. *)
  if negb (Z.land byte1 0xE1 =? 0x21)
     || negb (Z.land word1 0x01 =? 0x01)
     || negb (Z.land word2 0x01 =? 0x01)
  then ThrowException MF_E_INVALID_FORMAT
  else
    (* The PTS is 33 bits, so bit 32 goes in the high-order DWORD *)
    let HighPart := Z.shiftr (Z.land byte1 0x08) 3 in
    let LowPart :=
      Z.lor (Z.lor (dw (Z.shiftl (Z.land byte1 0x06) 29))
                   (dw (Z.shiftl (Z.land word1 0xFFFE) 14)))
            (Z.shiftr word2 1) in
    Returns (HighPart * 2^32 + LowPart).

Inductive StreamType : Type :=
| StreamType_Unknown
| StreamType_AllAudio
| StreamType_AllVideo
| StreamType_Reserved
| StreamType_Private1
| StreamType_Padding
| StreamType_Private2
| StreamType_Audio
| StreamType_Video
| StreamType_Data.

Definition MPEG1_STREAMTYPE_ALL_AUDIO : Z := 0xB8.
Definition MPEG1_STREAMTYPE_ALL_VIDEO : Z := 0xB9.
Definition MPEG1_STREAMTYPE_RESERVED : Z := 0xBC.
Definition MPEG1_STREAMTYPE_PRIVATE1 : Z := 0xBD.
Definition MPEG1_STREAMTYPE_PADDING : Z := 0xBE.
Definition MPEG1_STREAMTYPE_PRIVATE2 : Z := 0xBF.
Definition MPEG1_STREAMTYPE_AUDIO_MASK : Z := 0xC0.
Definition MPEG1_STREAMTYPE_VIDEO_MASK : Z := 0xE0.
Definition MPEG1_STREAMTYPE_DATA_MASK : Z := 0xF0.

(** [ParseStreamId(id, pType, pStreamNum)]: the values stored through
    the two pointers. *)
Definition ParseStreamId (id : Z) : mpeg_outcome (StreamType * Z) :=
  if id =? MPEG1_STREAMTYPE_ALL_AUDIO then Returns (StreamType_AllAudio, 0)
  else if id =? MPEG1_STREAMTYPE_ALL_VIDEO then Returns (StreamType_AllVideo, 0)
  else if id =? MPEG1_STREAMTYPE_RESERVED then Returns (StreamType_Reserved, 0)
  else if id =? MPEG1_STREAMTYPE_PRIVATE1 then Returns (StreamType_Private1, 0)
  else if id =? MPEG1_STREAMTYPE_PADDING then Returns (StreamType_Padding, 0)
  else if id =? MPEG1_STREAMTYPE_PRIVATE2 then Returns (StreamType_Private2, 0)
  else if Z.land id 0xE0 =? MPEG1_STREAMTYPE_AUDIO_MASK then
    Returns (StreamType_Audio, Z.land id 0x1F)
  else if Z.land id 0xF0 =? MPEG1_STREAMTYPE_VIDEO_MASK then
    Returns (StreamType_Video, Z.land id 0x0F)
  else if Z.land id 0xF0 =? MPEG1_STREAMTYPE_DATA_MASK then
    Returns (StreamType_Data, Z.land id 0x0F)
  else ThrowException MF_E_INVALID_FORMAT.   (* Unknown stream ID code. *)

Record MPEG1StreamHeader : Type := mk_MPEG1StreamHeader {
  stream_id : Z;         (* BYTE *)
  sh_type : StreamType;
  sh_number : Z;         (* BYTE *)
  sizeBound : Z          (* DWORD *)
}.

(** [ParseStreamData(pStreamInfo, header)]: the header filled in. *)
Definition ParseStreamData (pStreamInfo : list Z) : mpeg_outcome MPEG1StreamHeader :=
  s1 ← mpeg_at pStreamInfo 1;
  (* Check marker bits. *)
  if negb (Z.land s1 0xC0 =? 0xC0) then ThrowException MF_E_INVALID_FORMAT
  else
    id ← mpeg_at pStreamInfo 0;
    '(type, num) ← ParseStreamId id;
    (* Calculate STD bound. *)
    s2 ← mpeg_at pStreamInfo 2;
    let bound := Z.lor s2 (Z.shiftl (Z.land s1 0x1F) 8) in
    let bound := if negb (Z.land s1 0x20 =? 0) then dw (bound * 1024)
                 else dw (bound * 128) in
    Returns (mk_MPEG1StreamHeader id type num bound).

Record MFRatio : Type := mk_MFRatio {
  Numerator : Z;         (* DWORD *)
  Denominator : Z        (* DWORD *)
}.

Definition MPEG1_VIDEO_SEQ_HEADER_MIN_SIZE : Z := 12.
Definition MPEG1_VIDEO_SEQ_HEADER_MAX_SIZE : Z := 140.
Definition MPEG1_AUDIO_FRAME_HEADER_SIZE : Z := 4.
Definition MPEG1_SEQUENCE_HEADER_CODE : Z := 0x000001B3.

Record MPEG1VideoSeqHeader : Type := mk_MPEG1VideoSeqHeader {
  width : Z;                     (* WORD *)
  height : Z;                    (* WORD *)
  pixelAspectRatio : MFRatio;
  frameRate : MFRatio;
  bitRate : Z;                   (* DWORD *)
  cbVBV_Buffer : Z;              (* WORD *)
  bConstrained : bool;
  cbHeader : Z;                  (* DWORD *)
  header : list Z                (* BYTE[MPEG1_VIDEO_SEQ_HEADER_MAX_SIZE] *)
}.

Definition frameRates : list MFRatio :=
  [ mk_MFRatio 0 0;             (* invalid *)
    mk_MFRatio 24000 1001;      (* 23.976 fps *)
    mk_MFRatio 24 1;
    mk_MFRatio 25 1;
    mk_MFRatio 30000 1001;      (* 29.97 fps *)
    mk_MFRatio 50 1;
    mk_MFRatio 60000 1001;      (* 59.94 fps *)
    mk_MFRatio 60 1 ].

Definition GetFrameRate (frameRateCode : Z) : mpeg_outcome MFRatio :=
  if (frameRateCode <? 1) || (frameRateCode >=? Z.of_nat (length frameRates))
  then ThrowException MF_E_INVALIDTYPE
  else
    match frameRates !! Z.to_nat frameRateCode with
    | Some r => Returns (mk_MFRatio (Numerator r) (Denominator r))
    | None => Faults ReadPastEnd
    end.

Definition pixelAspectHeights : list Z :=
  [ 0; 10000; 6735; 7031; 7615; 8055; 8437; 8935; 9157;
    9815; 10255; 10695; 10950; 11575; 12015 ].

Definition GetPixelAspectRatio (pixelAspectCode : Z) : mpeg_outcome MFRatio :=
  let width := 10000 in
  if (pixelAspectCode <? 1) || (pixelAspectCode >=? Z.of_nat (length pixelAspectHeights))
  then ThrowException MF_E_INVALIDTYPE
  else
    match pixelAspectHeights !! Z.to_nat pixelAspectCode with
    | Some h => Returns (mk_MFRatio h width)
    | None => Faults ReadPastEnd
    end.

(** The loop of [ReadVideoSequenceHeader] that skips to the sequence
    header code: while four more bytes are inside [cbData] and the four
    bytes under the pointer are zero, move past them. The result is the
    pointer and [cbPadding]. *)
Fixpoint skip_zero_dwords (pData : list Z) (cbData cbPadding : Z) {struct pData}
  : mpeg_outcome (list Z * Z) :=
  if dw (cbPadding + 4) <=? cbData then
    match pData with
    | b0 :: b1 :: b2 :: b3 :: rest =>
        if Z.lor (Z.lor (Z.lor b0 (Z.shiftl b1 8)) (Z.shiftl b2 16)) (Z.shiftl b3 24) =? 0
        then skip_zero_dwords rest cbData (dw (cbPadding + 4))
        else Returns (pData, cbPadding)
    | _ => Faults ReadPastEnd
    end
  else Returns (pData, cbPadding).

(** [CopyMemory(seqHeader.header, pData, cbRequired)] into the zeroed
    array of 140 bytes. *)
Definition copy_header (pData : list Z) (cbRequired : Z) : mpeg_outcome (list Z) :=
  if cbRequired <=? Z.of_nat (length pData) then
    Returns (take (Z.to_nat cbRequired) pData
             ++ replicate (Z.to_nat (MPEG1_VIDEO_SEQ_HEADER_MAX_SIZE - cbRequired)) 0)
  else Faults ReadPastEnd.

(** [ReadVideoSequenceHeader(pData, cbData, seqHeader)]: the value
    returned and, where the call filled it in, the header ([None] when
    [seqHeader] was left untouched). A null [pData] is [None]. *)
Definition ReadVideoSequenceHeader (pData : option (list Z)) (cbData : Z)
  : mpeg_outcome (Z * option MPEG1VideoSeqHeader) :=
  match pData with
  | None => ThrowInvalidArgument
  | Some pData =>
      (* Skip to the sequence header code. *)
      '(pData, cbPadding) ← skip_zero_dwords pData cbData 0;
      let cbData := dw (cbData - cbPadding) in
      (* Check for the minimum size buffer. *)
      if cbData <? MPEG1_VIDEO_SEQ_HEADER_MIN_SIZE then Returns (cbPadding, None)
      else
        (* Validate the sequence header code. *)
        code ← MAKE_DWORD pData;
        if negb (code =? MPEG1_SEQUENCE_HEADER_CODE) then ThrowException MF_E_INVALID_FORMAT
        else
          (* Calculate the actual required size. *)
          p11 ← mpeg_at pData 11;
          let cbRequired :=
            if HAS_FLAG p11 0x02 then MPEG1_VIDEO_SEQ_HEADER_MIN_SIZE + 64
            else if HAS_FLAG p11 0x01 then MPEG1_VIDEO_SEQ_HEADER_MIN_SIZE + 64
            else MPEG1_VIDEO_SEQ_HEADER_MIN_SIZE in
          if cbData <? cbRequired then Returns (cbPadding, None)
          else
            (* Check the marker bit. *)
            p10 ← mpeg_at pData 10;
            if negb (HAS_FLAG p10 0x20) then ThrowException MF_E_INVALID_FORMAT
            else
              p7 ← mpeg_at pData 7;
              let parCode := to_byte (Z.shiftr p7 4) in
              let frameRateCode := to_byte (Z.land p7 0x0F) in
              par ← GetPixelAspectRatio parCode;
              rate ← GetFrameRate frameRateCode;
              p4 ← mpeg_at pData 4;
              p5 ← mpeg_at pData 5;
              p6 ← mpeg_at pData 6;
              let w := to_word (Z.lor (Z.shiftl p4 4) (Z.shiftr p5 4)) in
              let h := to_word (Z.lor (Z.shiftl (Z.land p5 0x0F) 8) p6) in
              p8 ← mpeg_at pData 8;
              p9 ← mpeg_at pData 9;
              let rate0 := dw (Z.lor (Z.lor (Z.shiftl p8 10) (Z.shiftl p9 2)) (Z.shiftr p10 6)) in
              if rate0 =? 0 then ThrowException MF_E_INVALID_FORMAT   (* Not allowed. *)
              else
                let rate1 := if rate0 =? 0x3FFFF then 0    (* Variable bit-rate. *)
                             else dw (rate0 * 400) in      (* Units of 400 bps *)
                let vbv := to_word (Z.lor (Z.shiftl (Z.land p10 0x1F) 5) (Z.shiftr p11 3) * 2048) in
                hdr ← copy_header pData cbRequired;
                Returns (dw (cbRequired + cbPadding),
                         Some (mk_MPEG1VideoSeqHeader w h par rate rate1 vbv
                                 (HAS_FLAG p11 0x04) cbRequired hdr))
  end.

Inductive MPEG1AudioLayer : Type :=
| MPEG1_Audio_Layer1 | MPEG1_Audio_Layer2 | MPEG1_Audio_Layer3.

Inductive MPEG1AudioMode : Type :=
| MPEG1_Audio_Stereo | MPEG1_Audio_JointStereo
| MPEG1_Audio_DualChannel | MPEG1_Audio_SingleChannel.

Definition MPEG1_AUDIO_PRIVATE_BIT : Z := 0x01.
Definition MPEG1_AUDIO_COPYRIGHT_BIT : Z := 0x02.
Definition MPEG1_AUDIO_ORIGINAL_BIT : Z := 0x04.
Definition MPEG1_AUDIO_PROTECTION_BIT : Z := 0x08.

Record MPEG1AudioFrameHeader : Type := mk_MPEG1AudioFrameHeader {
  layer : MPEG1AudioLayer;
  dwBitRate : Z;            (* DWORD, Kbits / sec *)
  dwSamplesPerSec : Z;      (* DWORD *)
  nBlockAlign : Z;          (* WORD *)
  nChannels : Z;            (* WORD *)
  mode : MPEG1AudioMode;
  modeExtension : Z;        (* BYTE *)
  emphasis : Z;             (* BYTE *)
  wFlags : Z                (* WORD, bitwise OR of MPEG1AudioFlags *)
}.

(** The table of bit rates, a row for each layer. *)
Definition bitrate (l : MPEG1AudioLayer) : list Z :=
  match l with
  | MPEG1_Audio_Layer1 => [0; 32; 64; 96; 128; 160; 192; 224; 256; 288; 320; 352; 384; 416; 448]
  | MPEG1_Audio_Layer2 => [0; 32; 48; 56; 64; 80; 96; 112; 128; 160; 192; 224; 256; 320; 384]
  | MPEG1_Audio_Layer3 => [0; 32; 40; 48; 56; 64; 80; 96; 112; 128; 160; 192; 224; 256; 320]
  end.

(** [GetAudioBitRate(layer, index)]. The test of [layer] against the
    first and last enumerator never fails on a value of the enum. *)
Definition GetAudioBitRate (l : MPEG1AudioLayer) (index : Z) : mpeg_outcome Z :=
  let MAX_BITRATE_INDEX := 14 in
  if index >? MAX_BITRATE_INDEX then ThrowException MF_E_INVALID_FORMAT
  else
    match bitrate l !! Z.to_nat index with
    | Some r => Returns r
    | None => Faults ReadPastEnd
    end.

Definition GetSamplingFrequency (code : Z) : mpeg_outcome Z :=
  if code =? 0 then Returns 44100
  else if code =? 1 then Returns 48000
  else if code =? 2 then Returns 32000
  else ThrowException MF_E_INVALID_FORMAT.

(** [static_cast<MPEG1AudioMode>] of the two mode bits. *)
Definition MPEG1AudioMode_of (bits : Z) : MPEG1AudioMode :=
  if bits =? 0 then MPEG1_Audio_Stereo
  else if bits =? 1 then MPEG1_Audio_JointStereo
  else if bits =? 2 then MPEG1_Audio_DualChannel
  else MPEG1_Audio_SingleChannel.

(** [ReadAudioFrameHeader(pData, cbData, audioHeader)]: the value
    returned and the header copied out ([None] when [audioHeader] was
    left untouched). *)
Definition ReadAudioFrameHeader (pData : list Z) (cbData : Z)
  : mpeg_outcome (Z * option MPEG1AudioFrameHeader) :=
  if cbData <? MPEG1_AUDIO_FRAME_HEADER_SIZE then Returns (0, None)
  else
    p0 ← mpeg_at pData 0;
    if negb (p0 =? 0xFF) then ThrowException MF_E_INVALID_FORMAT
    else
      p1 ← mpeg_at pData 1;
      if negb (HAS_FLAG p1 0xF8) then ThrowException MF_E_INVALID_FORMAT
      else
        (* Layer bits *)
        l ← (let bits := Z.land p1 0x06 in
             if bits =? 0x00 then ThrowException MF_E_INVALID_FORMAT
             else if bits =? 0x06 then Returns MPEG1_Audio_Layer1
             else if bits =? 0x04 then Returns MPEG1_Audio_Layer2
             else if bits =? 0x02 then Returns MPEG1_Audio_Layer3
             else ThrowException E_UNEXPECTED);
        p2 ← mpeg_at pData 2;
        let bitRateIndex := to_byte (Z.shiftr (Z.land p2 0xF0) 4) in
        let samplingIndex := to_byte (Z.shiftr (Z.land p2 0x0C) 2) in
        br ← GetAudioBitRate l bitRateIndex;
        sps ← GetSamplingFrequency samplingIndex;
        p3 ← mpeg_at pData 3;
        let m := MPEG1AudioMode_of (Z.shiftr (Z.land p3 0xC0) 6) in
        let ext := to_byte (Z.shiftr (Z.land p3 0x30) 4) in
        let emph := to_byte (Z.land p3 0x03) in
        (* Parse the various bit flags. *)
        let f := 0 in
        let f := if HAS_FLAG p1 0x01 then Z.lor f MPEG1_AUDIO_PROTECTION_BIT else f in
        let f := if HAS_FLAG p2 0x01 then Z.lor f MPEG1_AUDIO_PRIVATE_BIT else f in
        let f := if HAS_FLAG p3 0x08 then Z.lor f MPEG1_AUDIO_COPYRIGHT_BIT else f in
        let f := if HAS_FLAG p3 0x04 then Z.lor f MPEG1_AUDIO_ORIGINAL_BIT else f in
        let channels := match m with MPEG1_Audio_SingleChannel => 1 | _ => 2 end in
        Returns (4, Some (mk_MPEG1AudioFrameHeader l br sps 1 channels m ext emph f)).

(** ** Notions the properties are stated with *)

(** The big-endian integer of a sequence of bytes. *)
Fixpoint be_value (bytes : list Z) : Z :=
  match bytes with
  | [] => 0
  | x :: rest => x * 256 ^ Z.of_nat (length rest) + be_value rest
  end.

(** A first byte [b] has its most significant 1-bit at position [k]
    counted from the most significant bit. *)
Definition leading_one_at (k b : Z) : Prop :=
  0 <= k <= 7 /\ 2 ^ (7 - k) <= b < 2 ^ (8 - k).

(** The bytes of a VINT with the length marker cleared or kept. *)
Definition vint_bytes (unmodified : bool) (k b : Z) (rest : list Z) : list Z :=
  (if unmodified then b else b - 2 ^ (7 - k)) :: rest.

(** The sentinel of all ones of a VINT of [k + 1] bytes. *)
Definition all_ones (k : Z) : Z := 2 ^ (7 * (k + 1)) - 1.

(** The value the specification gives a signed VINT of [k + 1] bytes:
    the cleared value minus [2^(7 * width - 1) - 1]. *)
Definition signed_vint_value (k b : Z) (rest : list Z) : Z :=
  be_value (vint_bytes false k b rest) - (2 ^ (7 * (k + 1) - 1) - 1).

(** A two-byte big-endian two's-complement integer. *)
Definition signed16 (hi lo : Z) : Z :=
  let u := hi * 256 + lo in
  if u <? 2 ^ 15 then u else u - 2 ^ 16.

(** The accumulation the VINT decoder performs, without the reductions. *)
Definition be_acc (code : Z) (bytes : list Z) : Z :=
  fold_left (fun a x => a * 0x100 + x) bytes code.

(** The test run over every non-zero byte to establish
    [GetMajorBitNumber_spec]. *)
Definition GetMajorBitNumber_check (n : Z) : bool :=
  match GetMajorBitNumber 8 n with
  | Ok r => (bitNum r =? 7 - Z.log2 n) && (clearedNum r =? n - 2 ^ Z.log2 n)
  | _ => false
  end.

(** A child of an Info master as the tree reader builds it (the class
    its type calls for, a name where it came from the table), other than
    an unsigned integer; a binary child fits the 16 bytes of [SegmentUID]. *)
Definition Info_child_without_scale (e : base_element) : Prop :=
  match e with
  | binary_element _ BINARY len d => 0 <= len <= 16 /\ len <= Z.of_nat (length d)
  | binary_element _ (_VOID | JUST_GO_ON) _ _ => True
  | string_element (Some _) TEXTU _ => True
  | string_element _ TEXTA _ => True
  | float_element (Some _) _FLOAT _ => True
  | master_element _ MASTER _ => True
  | plain_element _ _DATE => True
  | _ => False
  end.




(** A parser that has read the given master data and was asked to start
    at [t]. *)
Definition Parser_seeking (m : MKVMasterData) (t : Z) : Parser :=
  set_m_startPosition t (set_m_masterData m Parser_new).

(** The test run over every byte to establish [sign_bit_of_byte]. *)
Definition sign_bit_check (x : Z) : bool :=
  Bool.eqb (Z.land x 0x80 =? 0) (x <? 128).

(** The test run over every byte to establish [lace_marker_of_byte]. *)
Definition lace_marker_check (x : Z) : bool :=
  Bool.eqb (Z.land x 0x40 =? 0) (x mod 128 <? 64).

(** The ring of frame sizes has its 30 slots and the write pointer is
    inside it. *)
Definition ring_ok (p : Parser) : Prop :=
  length (m_circularBuffer p) = 30%nat /\ (pCircWrite p < 30)%nat.

(** The bytes of a SimpleBlock element: id A3, the size as a VINT of
    [k + 1] bytes, then the payload. *)
Definition SimpleBlock_bytes (sb : Z) (srest payload : list Z) : list Z :=
  0xA3 :: sb :: srest ++ payload.

(** The read position at the start of a window holding exactly [bytes]. *)
Definition window (bytes : list Z) : cursor :=
  mk_cursor bytes (Z.of_nat (length bytes)) 0.

(** ** Further notions the properties are stated with *)

(** The bytes a buffer holds: the [DataSize] bytes from [DataPtr] on. *)
Definition buffered_data (b : Buffer.t) : list Z :=
  match Buffer.m_array b with
  | Some a => take (Z.to_nat (Buffer.DataSize b)) (drop (Z.to_nat (Buffer.m_begin b)) a)
  | None => []
  end.

(** The bytes [hdr] are the header of an element: its id as a VINT
    (kept with its length marker) below 2^32, then its size as a VINT
    other than the all-ones pattern. *)
Definition encodes_header (hdr : list Z) (id size : Z) : Prop :=
  exists ik ib irest sk sb srest,
    hdr = ib :: irest ++ sb :: srest
    /\ leading_one_at ik ib /\ Z.of_nat (length irest) = ik /\ Forall is_BYTE irest
    /\ leading_one_at sk sb /\ Z.of_nat (length srest) = sk /\ Forall is_BYTE srest
    /\ id = be_value (vint_bytes true ik ib irest) /\ id < 2^32
    /\ size = be_value (vint_bytes false sk sb srest) /\ size <> all_ones sk.

(** The element a payload stands for under a type other than [MASTER]:
    an unsigned integer of at most 8 bytes below 2^63, a string, a float
    of 4 or 8 bytes, or the bytes themselves. *)
Definition leaf_value (type : EET) (size : Z) (payload : list Z) : option base_element :=
  match type with
  | _UNSIGNED =>
      if (size <=? 8) && (be_value payload <? 2^63)
      then Some (uint_element None type (be_value payload)) else None
  | TEXTA | TEXTU => Some (string_element None type payload)
  | _FLOAT =>
      if size =? 4 then Some (float_element None type (Float32 (be_value payload)))
      else if size =? 8 then Some (float_element None type (Float64 (be_value payload)))
      else None
  | _VOID | BINARY | JUST_GO_ON => Some (binary_element None type size payload)
  | MASTER | _DATE => None
  end.

(** The bytes [chunk] are one whole element and [e] is what it stands
    for: a header, then a payload of the declared size, which under a
    [MASTER] id is a sequence of whole elements (nested at most [depth]
    deep) and under another id is a non-empty leaf. The type and the
    name are those the tree reader's table gives the id. *)
Fixpoint encodes (depth : nat) (chunk : list Z) (e : base_element) {struct depth} : Prop :=
  exists hdr id size payload,
    chunk = hdr ++ payload /\ encodes_header hdr id size
    /\ Z.of_nat (length payload) = size
    /\ match fst (classify id) with
       | MASTER =>
           match depth with
           | O => False
           | S d =>
               exists chunks children,
                 payload = concat chunks /\ Forall2 (encodes d) chunks children
                 /\ e = master_element (tn_name (snd (classify id))) MASTER children
           end
       | type =>
           0 < size /\ Forall is_BYTE payload
           /\ exists v, leaf_value type size payload = Some v
                        /\ e = set_name (tn_name (snd (classify id))) v
       end.

(** The bytes [b :: rest] are one VINT: the leading 1-bit of [b] is at
    position [k] and [k] bytes follow. *)
Definition is_vint (k b : Z) (rest : list Z) : Prop :=
  leading_one_at k b /\ Z.of_nat (length rest) = k /\ Forall is_BYTE rest.

(** The size field of an element header as the header reader returns
    it: [(DWORD)-1] for the all-ones pattern, else the value modulo
    2^32. *)
Definition size_field (k b : Z) (rest : list Z) : Z :=
  if be_value (vint_bytes false k b rest) =? all_ones k then MAXDWORD
  else dw (be_value (vint_bytes false k b rest)).

(** The number of leading cue points whose time is below [target]. *)
Fixpoint cues_before (target : Z) (cues : list CuePoint) : nat :=
  match cues with
  | [] => O
  | item :: rest => if CueTime item <? target then S (cues_before target rest) else O
  end.

(** The five bytes of a presentation time stamp in an MPEG-1 packet
    header: the four bits [prefix], then the 33 bits of [pts] in groups of
    3, 15 and 15, each group closed by a marker bit 1. *)
Definition PTS_field (prefix pts : Z) : list Z :=
  [ prefix * 16 + (pts / 2^30) * 2 + 1;
    (pts / 2^22) mod 256;
    ((pts / 2^15) mod 128) * 2 + 1;
    (pts / 2^7) mod 256;
    (pts mod 128) * 2 + 1 ].

(** The test run over every byte to establish the facts on the masks
    [ParsePTS] applies to the first byte. *)
Definition PTS_byte1_check (b : Z) : bool :=
  Bool.eqb (Z.land b 0xE1 =? 0x21) ((b / 32 =? 1) && (b mod 2 =? 1))
  && (Z.shiftr (Z.land b 0x08) 3 =? (b / 8) mod 2)
  && (Z.land b 0x06 =? ((b / 2) mod 4) * 2).

(** The test run over every byte to establish [ParseStreamId_ranges]:
    the result of [ParseStreamId] against the ranges of
    ISO/IEC 11172-1, 2.4.4.2. *)
Definition ParseStreamId_check (id : Z) : bool :=
  match ParseStreamId id with
  | Returns (t, num) =>
      match t with
      | StreamType_Unknown => false
      | StreamType_AllAudio => (id =? 0xB8) && (num =? 0)
      | StreamType_AllVideo => (id =? 0xB9) && (num =? 0)
      | StreamType_Reserved => (id =? 0xBC) && (num =? 0)
      | StreamType_Private1 => (id =? 0xBD) && (num =? 0)
      | StreamType_Padding => (id =? 0xBE) && (num =? 0)
      | StreamType_Private2 => (id =? 0xBF) && (num =? 0)
      | StreamType_Audio => (0xC0 <=? id) && (id <=? 0xDF) && (num =? id - 0xC0)
      | StreamType_Video => (0xE0 <=? id) && (id <=? 0xEF) && (num =? id - 0xE0)
      | StreamType_Data => (0xF0 <=? id) && (id <=? 0xFF) && (num =? id - 0xF0)
      end
  | ThrowException MF_E_INVALID_FORMAT => (id <? 0xB8) || (id =? 0xBA) || (id =? 0xBB)
  | _ => false
  end.

(** The test run over every byte to establish the facts on the masks
    and shifts [ReadAudioFrameHeader] applies. *)
Definition audio_byte_check (b : Z) : bool :=
  Bool.eqb (HAS_FLAG b 0xF8) (0xF8 <=? b)
  && (Z.land b 0x06 =? ((b / 2) mod 4) * 2)
  && (to_byte (Z.shiftr (Z.land b 0xF0) 4) =? b / 16)
  && (to_byte (Z.shiftr (Z.land b 0x0C) 2) =? (b / 4) mod 4)
  && (Z.shiftr (Z.land b 0xC0) 6 =? b / 64)
  && (to_byte (Z.shiftr (Z.land b 0x30) 4) =? (b / 16) mod 4)
  && (to_byte (Z.land b 0x03) =? b mod 4).

(** The test run over every layer and bit-rate index to establish the
    range of [GetAudioBitRate]. *)
Definition audio_bitrate_check (l : MPEG1AudioLayer) (index : Z) : bool :=
  match GetAudioBitRate l index with
  | Returns r => (index <? 15) && (0 <=? r) && (r <=? 448)
  | ThrowException MF_E_INVALID_FORMAT => index =? 15
  | _ => false
  end.


(** The test run over every byte to establish the facts on the masks
    [ParseStreamData] applies to the second byte of a stream entry. *)
Definition stream_marker_check (b : Z) : bool :=
  Bool.eqb (Z.land b 0xC0 =? 0xC0) (0xC0 <=? b)
  && (Z.land b 0x1F =? b mod 32)
  && Bool.eqb (Z.land b 0x20 =? 0) ((b / 32) mod 2 =? 0).

(* ================================================================== *)
(** * Properties *)

Section BufferFacts.
Import Buffer.

Lemma dw_small z : 0 <= z < 2^32 -> dw z = z.
Proof. intros H. unfold dw. apply Z.mod_small. lia. Qed.

Lemma invariant_DataSize b :
  invariant b -> DataSize b = m_end b - m_begin b.
Proof.
  intros (H0 & H1 & H2 & H3 & H4 & _). unfold DataSize.
  apply dw_small. lia.
Qed.

Lemma invariant_CurrentFreeSize b :
  invariant b -> CurrentFreeSize b = m_count b - (m_end b - m_begin b).
Proof.
  intros Hb. unfold CurrentFreeSize. rewrite (invariant_DataSize b Hb).
  destruct Hb as (H0 & H1 & H2 & H3 & H4 & _). apply dw_small. lia.
Qed.

(** What [Reserve] does on a buffer that satisfies the invariant. *)
Lemma Reserve_spec b cb :
  invariant b -> is_DWORD cb ->
  (MAXDWORD - DataSize b < cb /\ Reserve cb b = Throw InvalidArgumentException)
  \/ (cb <= MAXDWORD - DataSize b /\
      exists b' n, Reserve cb b = Ok (b', n) /\ invariant b' /\ (n <= 1)%nat /\
                   DataSize b' = DataSize b /\ cb <= m_count b' - m_end b').
Proof.
  intros Hb Hcb.
  pose proof (invariant_DataSize b Hb) as HD.
  pose proof (invariant_CurrentFreeSize b Hb) as HF.
  destruct Hb as (H0 & H1 & H2 & H3 & H4 & a & Ha & Hlen).
  unfold is_DWORD in Hcb. unfold Reserve. rewrite HF, !HD. clear HF HD.
  destruct b as [arr c al bg en]. cbn in *. subst arr.
  unfold MAXDWORD.
  destruct (Z.gtb_spec cb (4294967295 - (en - bg))) as [Hbig|Hfit].
  { left. split; [lia | reflexivity]. }
  right. split; [lia|].
  rewrite (dw_small (c - en)) by lia.
  destruct (Z.gtb_spec cb (c - en)) as [Hmove|Hroom].
  2:{ eexists _, 0%nat. split; [reflexivity|].
      unfold invariant, DataSize; cbn. rewrite (dw_small (en - bg)) by lia.
      repeat split; try lia. eauto. }
  assert (Hfin : forall a1 c1 al1 n1,
             c <= c1 -> c1 <= al1 -> al1 < 2^32 ->
             Z.of_nat (length a1) = al1 -> en - bg + cb <= c1 -> (n1 <= 1)%nat ->
             exists b' n,
               (a' ← MoveMemory_to_front a1 bg (dw (en - bg));
                Ok (mk (Some a') c1 al1 0 (dw (en - bg)), n1))
               = Ok (b', n) /\ invariant b' /\ (n <= 1)%nat /\
               DataSize b' = en - bg /\ cb <= m_count b' - m_end b').
  { intros a1 c1 al1 n1 Hc Hal Hlt Hl Hrm Hn.
    unfold MoveMemory_to_front.
    rewrite (dw_small (en - bg)) by lia.
    destruct (Z.leb_spec (bg + (en - bg)) (Z.of_nat (length a1))); [|lia].
    eexists _, n1. split; [reflexivity|].
    unfold invariant, DataSize. cbn.
    rewrite (dw_small (en - bg - 0)) by lia.
    repeat split; try lia.
    eexists. split; [reflexivity|].
    rewrite length_app, length_take, !length_drop. lia. }
  destruct (Z.gtb_spec cb (c - (en - bg))) as [Hgrow|Hkeep].
  - (* the array grows *)
    unfold SetSize, Allocate, DataSize, Ptr. cbn.
    rewrite (dw_small (en - bg + cb)) by lia.
    destruct (Z.gtb_spec (en - bg + cb) al) as [Hal|Hal]; cbn.
    + assert (Hold : (if c =? 0 then Ok a else Ok a) = Ok a :> outcome (list Z))
        by (destruct (c =? 0); reflexivity).
      rewrite Hold. cbn.
      destruct (Z.leb_spec c (Z.of_nat (length a))); [|lia]. cbn.
      apply Hfin; try lia.
      rewrite length_app, length_take, length_replicate. lia.
    + apply Hfin; lia.
  - (* compaction alone makes room *)
    unfold DataSize, Ptr. cbn. apply Hfin; lia.
Qed.

Lemma new_invariant cbSize b n :
  is_DWORD cbSize -> new cbSize = Ok (b, n) -> invariant b.
Proof.
  unfold is_DWORD, new, SetSize, Allocate, Ptr. cbn. intros Hsz.
  destruct (Z.gtb_spec cbSize 0) as [Hpos|Hz]; cbn; [|discriminate].
  intros [= <- _]. unfold invariant. cbn. repeat split; try lia.
  eexists. split; [reflexivity|].
  rewrite length_app, length_replicate, length_drop, length_replicate. lia.
Qed.

Lemma MoveStart_spec b cb :
  invariant b -> 0 <= cb <= DataSize b ->
  exists b', MoveStart cb b = Ok b' /\ invariant b' /\
             DataSize b' = DataSize b - cb /\ m_end b' = m_end b.
Proof.
  intros Hb Hcb. pose proof (invariant_DataSize b Hb) as HD.
  unfold MoveStart. rewrite HD in *.
  destruct Hb as (H0 & H1 & H2 & H3 & H4 & a & Ha & Hlen).
  destruct (Z.gtb_spec cb (m_end b - m_begin b)); [lia|].
  eexists. split; [reflexivity|].
  unfold invariant, DataSize. cbn.
  rewrite (dw_small (m_begin b + cb)) by lia.
  rewrite (dw_small (m_end b - (m_begin b + cb))) by lia.
  repeat split; try lia. eauto.
Qed.

Lemma MoveEnd_spec b cb :
  invariant b -> is_DWORD cb -> cb <= MAXDWORD - DataSize b ->
  exists b' n, MoveEnd cb b = Ok (b', n) /\ invariant b' /\
               DataSize b' = DataSize b + cb.
Proof.
  intros Hb Hcb Hfit. unfold MoveEnd.
  destruct (Reserve_spec b cb Hb Hcb)
    as [[Hbig _] | (_ & b1 & n & -> & Hb1 & _ & HD1 & Hroom)]; [lia|].
  cbn. eexists _, n. split; [reflexivity|].
  pose proof (invariant_DataSize b1 Hb1) as HD.
  destruct Hb1 as (H0 & H1 & H2 & H3 & H4 & a & Ha & Hlen).
  unfold is_DWORD in Hcb.
  unfold invariant, DataSize at 1. cbn.
  rewrite (dw_small (m_end b1 + cb)) by lia.
  rewrite (dw_small (m_end b1 + cb - m_begin b1)) by lia.
  repeat split; try lia. eauto.
Qed.

Lemma MoveEnd_Ok_fits b cb b' n :
  invariant b -> is_DWORD cb -> MoveEnd cb b = Ok (b', n) ->
  cb <= MAXDWORD - DataSize b.
Proof.
  intros Hb Hcb. unfold MoveEnd.
  destruct (Reserve_spec b cb Hb Hcb) as [[_ ->] | [H _]]; [discriminate|].
  intros _. exact H.
Qed.

(** Every reachable buffer satisfies the invariant. *)
Lemma reachable_invariant b : reachable b -> invariant b.
Proof.
  induction 1 as [cbSize b n Hsz Hnew
                 | cb b b' n _ IH Hcb HR
                 | cb b b' _ IH Hcb HM
                 | cb b b' n _ IH Hcb HM
                 | a a' b _ IH Ha Hlen].
  - eapply new_invariant; eauto.
  - destruct (Reserve_spec b cb IH Hcb)
      as [[_ Hthrow] | (_ & b1 & n1 & Hok & Hb1 & _)]; congruence.
  - unfold is_DWORD in Hcb. revert HM. unfold MoveStart.
    destruct (Z.gtb_spec cb (DataSize b)) as [|Hle]; [discriminate|].
    intros HM.
    destruct (MoveStart_spec b cb IH ltac:(lia)) as (b1 & Hok & Hb1 & _).
    unfold MoveStart in Hok.
    destruct (Z.gtb_spec cb (DataSize b)); [lia|]. congruence.
  - pose proof (MoveEnd_Ok_fits _ _ _ _ IH Hcb HM) as Hfit.
    destruct (MoveEnd_spec b cb IH Hcb Hfit) as (b1 & n1 & Hok & Hb1 & _).
    congruence.
  - destruct IH as (H0 & H1 & H2 & H3 & H4 & a0 & Ha0 & Hl0).
    unfold invariant, stored. cbn. repeat split; try lia.
    exists a'. split; [reflexivity|]. congruence.
Qed.

(** C9. In every reachable buffer state, for every [n], [Reserve(n)] run
    twice in a row allocates at most one array, the second call
    allocating nothing (when the request overflows [MAXDWORD] both calls
    throw before any allocation); and for every [k] not exceeding the
    current data size, [MoveStart(k)] followed by [MoveEnd(k)] leaves
    [DataSize] at its original value. *)
Theorem Buffer_idempotence (b : t) (n k : Z) :
  reachable b -> is_DWORD n -> 0 <= k <= DataSize b ->
  (Reserve n b = Throw InvalidArgumentException
   \/ exists b1 n1, Reserve n b = Ok (b1, n1) /\ (n1 <= 1)%nat /\
                    Reserve_twice n b = Ok (b1, n1, 0%nat))
  /\ (exists b2, MoveStart_MoveEnd k b = Ok b2 /\ DataSize b2 = DataSize b).
Proof.
  intros Hr Hn Hk. apply reachable_invariant in Hr. split.
  - destruct (Reserve_spec b n Hr Hn)
      as [[_ Hthrow] | (Hfit & b1 & n1 & Hok & Hb1 & Hn1 & HD1 & Hroom)];
      [left; exact Hthrow | right].
    exists b1, n1. split; [exact Hok|]. split; [exact Hn1|].
    unfold Reserve_twice. rewrite Hok. cbn.
    assert (H2 : Reserve n b1 = Ok (b1, 0%nat)).
    { unfold Reserve. rewrite HD1.
      destruct (Z.gtb_spec n (MAXDWORD - DataSize b)); [lia|].
      destruct Hb1 as (H0 & H1 & H2 & H3 & H4 & _).
      unfold is_DWORD in Hn.
      rewrite (dw_small (m_count b1 - m_end b1)) by lia.
      destruct (Z.gtb_spec n (m_count b1 - m_end b1)); [lia|]. reflexivity. }
    rewrite H2. reflexivity.
  - destruct (MoveStart_spec b k Hr Hk) as (b1 & Hok1 & Hb1 & HD1 & _).
    pose proof (invariant_DataSize b Hr) as HD.
    assert (Hb := Hr). destruct Hb as (H0 & H1 & H2 & H3 & H4 & _).
    assert (Hkd : is_DWORD k) by (unfold is_DWORD; lia).
    assert (Hfit : k <= MAXDWORD - DataSize b1) by (unfold MAXDWORD; lia).
    destruct (MoveEnd_spec b1 k Hb1 Hkd Hfit) as (b2 & n2 & Hok2 & _ & HD2).
    exists b2. unfold MoveStart_MoveEnd. rewrite Hok1. cbn. rewrite Hok2. cbn.
    split; [reflexivity | lia].
Qed.

(** A buffer of 16 bytes into which 10 bytes were read, 3 of them
    consumed: the instance of [Buffer_idempotence] for a request of 12
    bytes (which compacts) and [k = 4]. *)
Lemma Buffer_idempotence_witness :
  let b := mk (Some (replicate 16 0)) 16 16 3 10 in
  (Reserve 12 b = Throw InvalidArgumentException
   \/ exists b1 n1, Reserve 12 b = Ok (b1, n1) /\ (n1 <= 1)%nat /\
                    Reserve_twice 12 b = Ok (b1, n1, 0%nat))
  /\ (exists b2, MoveStart_MoveEnd 4 b = Ok b2 /\ DataSize b2 = DataSize b).
Proof.
  intros b. apply (Buffer_idempotence b 12 4).
  - apply (reach_MoveStart 3 (mk (Some (replicate 16 0)) 16 16 0 10));
      [ | unfold is_DWORD; lia | reflexivity ].
    apply (reach_MoveEnd 10 (mk (Some (replicate 16 0)) 16 16 0 0) _ 0%nat);
      [ | unfold is_DWORD; lia | reflexivity ].
    apply (reach_new 16 _ 1%nat); [unfold is_DWORD; lia | reflexivity].
  - unfold is_DWORD; lia.
  - vm_compute. split; discriminate.
Defined.

End BufferFacts.

(** Evaluate the closed powers and rounded bounds in the goal and the
    hypotheses. *)
Ltac closed_pow :=
  repeat match goal with
    | |- context [pow2_minus_1 ?e] =>
        let v := eval vm_compute in (pow2_minus_1 e) in
        progress change (pow2_minus_1 e) with v
    | |- context [Z.pow ?a ?b] =>
        let v := eval vm_compute in (Z.pow a b) in
        progress change (Z.pow a b) with v
    | H : context [Z.pow ?a ?b] |- _ =>
        let v := eval vm_compute in (Z.pow a b) in
        progress change (Z.pow a b) with v in H
    end.

(** Equations between wrapped counters. *)
Ltac dw_lia := unfold dw; Z.to_euclidean_division_equations; lia.

Section VIntFacts.

Lemma dw_range z : 0 <= dw z < 2^32.
Proof. unfold dw. apply Z.mod_pos_bound. lia. Qed.

Lemma dw_dw_add a b : dw (dw a + b) = dw (a + b).
Proof. unfold dw. apply Zplus_mod_idemp_l. Qed.

Lemma dw_dw_sub a b : dw (dw a - b) = dw (a - b).
Proof. unfold dw. apply Zminus_mod_idemp_l. Qed.

Lemma dw_shift_add a x : dw (dw a * 0x100 + x) = dw (a * 0x100 + x).
Proof.
  unfold dw. rewrite <- Zplus_mod_idemp_l, Zmult_mod_idemp_l, Zplus_mod_idemp_l.
  reflexivity.
Qed.

Lemma be_acc_cons a x l : be_acc a (x :: l) = be_acc (a * 0x100 + x) l.
Proof. reflexivity. Qed.

Lemma be_acc_dw a l : dw (be_acc (dw a) l) = dw (be_acc a l).
Proof.
  revert a. induction l as [|x l IH]; intros a.
  - cbn. unfold dw. apply Zmod_mod.
  - rewrite !be_acc_cons.
    rewrite <- (IH (dw a * 256 + x)), <- (IH (a * 256 + x)), dw_shift_add.
    reflexivity.
Qed.

Lemma be_acc_value a l :
  be_acc a l = a * 256 ^ Z.of_nat (length l) + be_value l.
Proof.
  revert a. induction l as [|x l IH]; intros a.
  - cbn. lia.
  - rewrite be_acc_cons, IH. cbn [be_value length].
    rewrite Nat2Z.inj_succ, Z.pow_succ_r by lia. ring.
Qed.

Lemma be_value_bound l :
  Forall is_BYTE l -> 0 <= be_value l < 256 ^ Z.of_nat (length l).
Proof.
  induction 1 as [|x l Hx _ IH].
  - cbn. lia.
  - cbn [be_value length]. rewrite Nat2Z.inj_succ, Z.pow_succ_r by lia.
    unfold is_BYTE in Hx. nia.
Qed.

Lemma ReadMatroskaNumber_tail_spec rest tl :
  forall code cb ate,
    0 <= code < 2^32 ->
    ReadMatroskaNumber_tail (length rest) code
      (mk_cursor (rest ++ tl) (dw cb) (dw ate))
    = Ok (dw (be_acc code rest),
          mk_cursor tl (dw (cb - Z.of_nat (length rest)))
                       (dw (ate + Z.of_nat (length rest)))).
Proof.
  induction rest as [|x rest IH]; intros code cb ate Hc.
  - cbn. rewrite (dw_small code) by lia. rewrite Z.sub_0_r, Z.add_0_r. reflexivity.
  - cbn [length ReadMatroskaNumber_tail app]. unfold read_byte.
    cbn [data cbLen pAte mbind outcome_bind].
    rewrite dw_dw_sub, dw_dw_add.
    rewrite IH by apply dw_range.
    rewrite be_acc_cons, be_acc_dw, Nat2Z.inj_succ.
    replace (cb - 1 - Z.of_nat (length rest))
      with (cb - Z.succ (Z.of_nat (length rest))) by lia.
    replace (ate + 1 + Z.of_nat (length rest))
      with (ate + Z.succ (Z.of_nat (length rest))) by lia.
    reflexivity.
Qed.

Lemma GetMajorBitNumber_scan_mono fuel n i r x :
  GetMajorBitNumber_scan fuel n i r = Ok x ->
  forall fuel', (fuel <= fuel')%nat -> GetMajorBitNumber_scan fuel' n i r = Ok x.
Proof.
  revert i r. induction fuel as [|fuel IH]; intros i r H fuel' Hle.
  - discriminate.
  - destruct fuel' as [|fuel']; [lia|]. cbn [GetMajorBitNumber_scan] in *.
    destruct (Z.land n i =? 0); [|exact H].
    destruct (int_result (r + 1)) as [r'| | |]; cbn [mbind outcome_bind] in *;
      try discriminate.
    apply IH; [exact H | lia].
Qed.

Lemma GetMajorBitNumber_checked :
  forallb GetMajorBitNumber_check (map Z.of_nat (seq 1 255)) = true.
Proof. vm_compute. reflexivity. Qed.

(** On a non-zero byte the scan stops within eight steps, at the most
    significant 1-bit. *)
Lemma GetMajorBitNumber_spec fuel n :
  (8 <= fuel)%nat -> 1 <= n <= 255 ->
  GetMajorBitNumber fuel n
  = Ok (mk_bit_number_result (7 - Z.log2 n) (n - 2 ^ Z.log2 n)).
Proof.
  intros Hf Hn.
  pose proof GetMajorBitNumber_checked as H.
  rewrite forallb_forall in H.
  specialize (H n). unfold GetMajorBitNumber_check in H.
  assert (Hin : In n (map Z.of_nat (seq 1 255))).
  { apply in_map_iff. exists (Z.to_nat n). split; [lia|]. apply in_seq. lia. }
  specialize (H Hin).
  unfold GetMajorBitNumber in *.
  destruct (GetMajorBitNumber_scan 8 n 128 0) as [[r i]| | |] eqn:Hs;
    try discriminate.
  rewrite (GetMajorBitNumber_scan_mono _ _ _ _ _ Hs fuel Hf).
  cbn in *. apply andb_prop in H. destruct H as [H1 H2].
  apply Z.eqb_eq in H1, H2. rewrite H1, H2. reflexivity.
Qed.

(** On a zero byte the scan finds no bit and goes on counting: the pass
    that would take the counter to 2^31 overflows it. *)
Lemma GetMajorBitNumber_scan_zero fuel i r :
  0 <= r < 2^31 ->
  GetMajorBitNumber_scan fuel 0 i r
  = if Z.of_nat fuel <? 2^31 - r then OutOfFuel else Undefined SignedOverflow.
Proof.
  change (2 ^ 31) with 2147483648.
  revert i r. induction fuel as [|fuel IH]; intros i r Hr.
  - cbn [GetMajorBitNumber_scan].
    destruct (Z.ltb_spec (Z.of_nat 0) (2147483648 - r)); [reflexivity | lia].
  - cbn [GetMajorBitNumber_scan]. change (Z.land 0 i =? 0) with true. cbv iota.
    unfold int_result. change (2 ^ 31) with 2147483648.
    destruct (Z.leb_spec (Z.opp 2147483648) (r + 1)); [|lia].
    destruct (Z.ltb_spec (r + 1) 2147483648); cbn [andb mbind outcome_bind].
    + rewrite IH by lia.
      destruct (Z.ltb_spec (Z.of_nat fuel) (2147483648 - (r + 1)));
        destruct (Z.ltb_spec (Z.of_nat (S fuel)) (2147483648 - r));
        try reflexivity; lia.
    + destruct (Z.ltb_spec (Z.of_nat (S fuel)) (2147483648 - r)); [lia | reflexivity].
Qed.

Lemma GetMajorBitNumber_zero fuel :
  GetMajorBitNumber fuel 0
  = if Z.of_nat fuel <? 2^31 then OutOfFuel else Undefined SignedOverflow.
Proof.
  unfold GetMajorBitNumber.
  rewrite GetMajorBitNumber_scan_zero by (change (2 ^ 31) with 2147483648; lia).
  rewrite Z.sub_0_r. destruct (Z.of_nat fuel <? 2 ^ 31); reflexivity.
Qed.

Lemma leading_one_log2 k b : leading_one_at k b -> Z.log2 b = 7 - k.
Proof.
  intros [Hk Hb]. apply Z.log2_unique; [lia|].
  replace (Z.succ (7 - k)) with (8 - k) by lia. exact Hb.
Qed.

Lemma leading_one_byte k b : leading_one_at k b -> 1 <= b <= 255.
Proof.
  intros [Hk [Hlo Hhi]].
  assert (1 <= 2 ^ (7 - k)) by (apply Z.pow_le_mono_r with (b := 0); lia).
  assert (2 ^ (8 - k) <= 2 ^ 8) by (apply Z.pow_le_mono_r; lia).
  change (2 ^ 8) with 256 in *. lia.
Qed.

Lemma read_byte_cons x l cb ate :
  read_byte (mk_cursor (x :: l) cb ate) = Ok (x, mk_cursor l (dw (cb - 1)) (dw (ate + 1))).
Proof. reflexivity. Qed.

(** Unsigned decoding, every width: the value read is the big-endian
    integer of the bytes reduced modulo 2^32, except that the reserved
    pattern of all ones in value mode yields the marker [(DWORD)-1]. *)
Lemma ReadMatroskaNumber_unsigned fuel unmodified k b rest tl cb ate :
  (8 <= fuel)%nat -> leading_one_at k b ->
  Z.of_nat (length rest) = k -> Forall is_BYTE rest ->
  ReadMatroskaNumber fuel (mk_cursor (b :: rest ++ tl) cb ate) unmodified false
  = Ok (mk_matroska_number_result
          (if negb unmodified
              && (be_value (vint_bytes unmodified k b rest) =? all_ones k)
           then MAXDWORD
           else dw (be_value (vint_bytes unmodified k b rest)))
          (k + 1),
        mk_cursor tl (dw (cb - (k + 1))) (dw (ate + (k + 1)))).
Proof.
  intros Hf Hlead Hlen Hbytes.
  pose proof (leading_one_log2 k b Hlead) as Hlog.
  pose proof (leading_one_byte k b Hlead) as Hb.
  pose proof (be_value_bound rest Hbytes) as Hrest.
  destruct Hlead as [Hk [Hlo Hhi]].
  unfold ReadMatroskaNumber.
  replace (unmodified && false) with false by (destruct unmodified; reflexivity).
  rewrite read_byte_cons. cbn [mbind outcome_bind].
  assert (Hbb : to_byte b = b) by (unfold to_byte; apply Z.mod_small; lia).
  rewrite Hbb, (GetMajorBitNumber_spec fuel b Hf Hb), Hlog.
  cbn [mbind outcome_bind bitNum clearedNum].
  replace (7 - (7 - k)) with k by lia.
  replace (Z.to_nat k) with (length rest) by lia.
  set (first := if unmodified then b else b - 2 ^ (7 - k)).
  assert (Hfirst : 0 <= first < 2^32).
  { subst first.
    assert (2 ^ (8 - k) <= 2 ^ 8) by (apply Z.pow_le_mono_r; lia).
    change (2 ^ 8) with 256 in *. destruct unmodified; lia. }
  rewrite (ReadMatroskaNumber_tail_spec rest tl first (cb - 1) (ate + 1) Hfirst).
  cbn [mbind outcome_bind].
  rewrite be_acc_value.
  change (first * 256 ^ Z.of_nat (length rest) + be_value rest)
    with (be_value (first :: rest)).
  unfold vint_bytes. fold first.
  replace (cb - 1 - Z.of_nat (length rest)) with (cb - (k + 1)) by lia.
  replace (ate + 1 + Z.of_nat (length rest)) with (ate + (k + 1)) by lia.
  assert (Hval : be_value (first :: rest) = first * 256 ^ k + be_value rest)
    by (cbn [be_value]; rewrite Hlen; reflexivity).
  rewrite Hlen in Hrest.
  assert (Hdouble : 2 ^ (8 - k) = 2 * 2 ^ (7 - k)).
  { replace (8 - k) with (Z.succ (7 - k)) by lia. apply Z.pow_succ_r. lia. }
  assert (Hfr : if unmodified then 2 ^ (7 - k) <= first < 2 ^ (8 - k)
                else 0 <= first < 2 ^ (7 - k))
    by (subst first; destruct unmodified; lia).
  clear Hdouble.
  generalize dependent (be_value (first :: rest)). intros value Hval.
  generalize dependent (be_value rest). intros rv Hrest Hval.
  clear Hfirst Hlen Hbytes Hlog Hbb Hb Hlo Hhi. clearbody first.
  assert (Hdw := dw_range value).
  unfold all_ones, MAXDWORD.
  assert (Hcases : k = 0 \/ k = 1 \/ k = 2 \/ k = 3 \/ k = 4 \/ k = 5 \/ k = 6 \/ k = 7)
    by lia.
  destruct Hcases as [-> | [-> | [-> | [-> | [-> | [-> | [-> | ->]]]]]]];
    closed_pow; destruct unmodified; cbn [negb andb];
    try (rewrite (dw_small value) by lia);
    repeat match goal with
      | |- context [?a =? ?c] => destruct (Z.eqb_spec a c)
      end;
    solve [ reflexivity | lia | subst value; reflexivity
          | match goal with H : value = _ |- _ => rewrite H; reflexivity end ].
Qed.

(** A first byte of zero: the scan for its leading 1-bit stops at no
    bit, and ends in the overflow of its counter. *)
Lemma ReadMatroskaNumber_zero_byte fuel l cb ate unmodified :
  ReadMatroskaNumber fuel (mk_cursor (0 :: l) cb ate) unmodified false
  = if Z.of_nat fuel <? 2^31 then OutOfFuel else Undefined SignedOverflow.
Proof.
  unfold ReadMatroskaNumber.
  replace (unmodified && false) with false by (destruct unmodified; reflexivity).
  rewrite read_byte_cons. cbn [mbind outcome_bind].
  change (to_byte 0) with 0. rewrite GetMajorBitNumber_zero.
  destruct (Z.of_nat fuel <? 2 ^ 31); reflexivity.
Qed.

(** C2 (amended). For every well-formed unsigned VINT whose value is
    below 2^32 and is not the all-ones pattern in value mode, decoding
    reads the first byte, takes [k] = the position of its most
    significant 1-bit from the MSB, returns width [k + 1] and the
    big-endian integer of the [k + 1] bytes, the length marker kept in raw
    mode and cleared in value mode. In particular raw 1A 45 DF A3 gives
    0x1A45DFA3 with width 4, value-mode 82 gives 2 with width 1 and
    value-mode 40 20 gives 32 with width 2. *)
Theorem VInt_decode_unsigned fuel unmodified k b rest tl cb ate :
  (8 <= fuel)%nat -> leading_one_at k b ->
  Z.of_nat (length rest) = k -> Forall is_BYTE rest ->
  be_value (vint_bytes unmodified k b rest) < 2^32 ->
  (unmodified = false -> be_value (vint_bytes unmodified k b rest) <> all_ones k) ->
  ReadMatroskaNumber fuel (mk_cursor (b :: rest ++ tl) cb ate) unmodified false
  = Ok (mk_matroska_number_result (be_value (vint_bytes unmodified k b rest)) (k + 1),
        mk_cursor tl (dw (cb - (k + 1))) (dw (ate + (k + 1))))
  /\ ReadMatroskaNumber fuel (window [0x1A; 0x45; 0xDF; 0xA3]) true false
     = Ok (mk_matroska_number_result 0x1A45DFA3 4, mk_cursor [] 0 4)
  /\ ReadMatroskaNumber fuel (window [0x82]) false false
     = Ok (mk_matroska_number_result 2 1, mk_cursor [] 0 1)
  /\ ReadMatroskaNumber fuel (window [0x40; 0x20]) false false
     = Ok (mk_matroska_number_result 32 2, mk_cursor [] 0 2).
Proof.
  intros Hf Hlead Hlen Hbytes Hfit Hnot.
  assert (Hbyte : forall x, 0 <= x < 256 -> is_BYTE x) by (intros; assumption).
  repeat split.
  - rewrite (ReadMatroskaNumber_unsigned fuel unmodified k b rest tl cb ate)
      by assumption.
    assert (Hnn : 0 <= be_value (vint_bytes unmodified k b rest)).
    { unfold vint_bytes. cbn [be_value].
      pose proof (be_value_bound rest Hbytes).
      destruct Hlead as [Hk [Hlo Hhi]].
      assert (0 <= 256 ^ Z.of_nat (length rest)) by (apply Z.pow_nonneg; lia).
      assert (0 < 2 ^ (7 - k)) by (apply Z.pow_pos_nonneg; lia).
      destruct unmodified; nia. }
    rewrite dw_small by lia.
    destruct unmodified; cbn [negb andb]; [reflexivity|].
    destruct (Z.eqb_spec (be_value (vint_bytes false k b rest)) (all_ones k));
      [exfalso; apply Hnot; [reflexivity | assumption] | reflexivity].
  - apply (ReadMatroskaNumber_unsigned fuel true 3 0x1A [0x45; 0xDF; 0xA3] [] 4 0);
      [assumption | unfold leading_one_at; cbn; lia | reflexivity
      | repeat constructor; apply Hbyte; lia ].
  - apply (ReadMatroskaNumber_unsigned fuel false 0 0x82 [] [] 1 0);
      [assumption | unfold leading_one_at; cbn; lia | reflexivity
      | repeat constructor; apply Hbyte; lia ].
  - apply (ReadMatroskaNumber_unsigned fuel false 1 0x40 [0x20] [] 2 0);
      [assumption | unfold leading_one_at; cbn; lia | reflexivity
      | repeat constructor; apply Hbyte; lia ].
Qed.

(** The instance of [VInt_decode_unsigned] for the value-mode bytes
    21 34 56 followed by two more bytes of input. *)
Lemma VInt_decode_unsigned_witness :
  ReadMatroskaNumber 8 (mk_cursor (0x21 :: [0x34; 0x56] ++ [7; 9]) 5 0) false false
  = Ok (mk_matroska_number_result (be_value (vint_bytes false 2 0x21 [0x34; 0x56])) (2 + 1),
        mk_cursor [7; 9] (dw (5 - (2 + 1))) (dw (0 + (2 + 1))))
  /\ ReadMatroskaNumber 8 (window [0x1A; 0x45; 0xDF; 0xA3]) true false
     = Ok (mk_matroska_number_result 0x1A45DFA3 4, mk_cursor [] 0 4)
  /\ ReadMatroskaNumber 8 (window [0x82]) false false
     = Ok (mk_matroska_number_result 2 1, mk_cursor [] 0 1)
  /\ ReadMatroskaNumber 8 (window [0x40; 0x20]) false false
     = Ok (mk_matroska_number_result 32 2, mk_cursor [] 0 2).
Proof.
  apply (VInt_decode_unsigned 8 false 2 0x21 [0x34; 0x56] [7; 9] 5 0).
  - lia.
  - unfold leading_one_at. cbn. lia.
  - reflexivity.
  - repeat constructor; unfold is_BYTE; lia.
  - vm_compute. reflexivity.
  - intros _. vm_compute. discriminate.
Defined.

(** C2, as stated, fails on a VINT of five bytes: value-mode
    09 00 00 00 00 is the integer 2^32, and the decoder returns 0. *)
Lemma VInt_decode_unsigned_counterexample :
  leading_one_at 4 0x09
  /\ be_value (vint_bytes false 4 0x09 [0; 0; 0; 0]) = 2 ^ 32
  /\ ReadMatroskaNumber 8 (window [0x09; 0; 0; 0; 0]) false false
     = Ok (mk_matroska_number_result 0 5, mk_cursor [] 0 5)
  /\ ReadMatroskaNumber 8 (window [0x09; 0; 0; 0; 0]) false false
     <> Ok (mk_matroska_number_result
              (be_value (vint_bytes false 4 0x09 [0; 0; 0; 0])) 5,
            mk_cursor [] 0 5).
Proof.
  split; [unfold leading_one_at; cbn; lia|].
  split; [reflexivity|]. split; [reflexivity|].
  vm_compute. discriminate.
Qed.

(** The signed mode of [ReadMatroskaNumber], which no call in the
    sources selects ([ReadEbmlElementHeader] passes the default), subtracts
    [2^(7 * width) - 1]: the one-byte FF gives 0 and the two-byte 7F FF
    gives 0, where [signed_vint_value] is 64 and 8192. *)
Example ReadMatroskaNumber_signed_mode :
  ReadMatroskaNumber 8 (window [0xFF]) false true
  = Ok (mk_matroska_number_result 0 1, mk_cursor [] 0 1)
  /\ signed_vint_value 0 0xFF [] = 64
  /\ ReadMatroskaNumber 8 (window [0x7F; 0xFF]) false true
     = Ok (mk_matroska_number_result 0 2, mk_cursor [] 0 2)
  /\ signed_vint_value 1 0x7F [0xFF] = 8192.
Proof. repeat split; vm_compute; reflexivity. Qed.




End VIntFacts.

(** Run the reads of bytes that are known and the binds that follow. *)
Ltac run_reads :=
  repeat first [ rewrite read_byte_cons
               | progress cbn [mbind outcome_bind]
               | progress cbn match ].

Section TreeFacts.

(** C7. A Void child declaring 5 bytes inside a master with 3 bytes
    left: the pass through the loop body skips 3 bytes after the 2 of the
    header, does not leave the loop, reads the 5 bytes of the child and
    wraps [total_size] around to 4294967292, 10 bytes consumed in all; the
    loop then goes on past the end of the window. The sibling test for a
    size of -1 does leave the loop. Reached from [ParseBytes] through an
    Info element of size 3, the same happens. *)
Theorem ReadEbmlElementTree2_overrun :
  ReadEbmlElementTree2_body (ReadEbmlElementTree2 20) 20
    (window [0xEC; 0x85; 1; 2; 3; 4; 5; 6; 7; 8]) 3
  = Ok (TreeNext (mk_cursor [] 0 10) 4294967292
          (binary_element (Some "Void"%string) BINARY 5 [4; 5; 6; 7; 8]))
  /\ ReadEbmlElementTree2 20 (window [0xEC; 0x85; 1; 2; 3; 4; 5; 6; 7; 8]) 3
     = Undefined ReadPastEnd
  /\ ReadEbmlElementTree2_body (ReadEbmlElementTree2 20) 20
       (window [0xEC; 0xFF; 1; 2; 3; 4; 5; 6; 7; 8]) 3
     = Ok (TreeBreak (mk_cursor [4; 5; 6; 7; 8] 5 5))
  /\ ParseBytes 50 Parser_new
       [0x15; 0x49; 0xA9; 0x66; 0x83; 0xEC; 0x85; 1; 2; 3; 4; 5; 6; 7; 8; 9; 10] 17
     = Undefined ReadPastEnd.
Proof. repeat split; vm_compute; reflexivity. Qed.

End TreeFacts.

Section ParserFacts.

(** C10. For every call of [ParseBytes] with a buffer length [cbLen]
    strictly less than 4, the call returns false with the consumed-byte
    count set to 0 and the parser state unchanged. *)
Theorem ParseBytes_short_buffer fuel p pData cbLen :
  cbLen < 4 -> ParseBytes fuel p pData cbLen = Ok (false, 0, p).
Proof.
  intros H. unfold ParseBytes.
  destruct (Z.ltb_spec cbLen 4); [reflexivity | lia].
Qed.

(** The instance of [ParseBytes_short_buffer] for the first three bytes
    of a SimpleBlock. *)
Lemma ParseBytes_short_buffer_witness :
  ParseBytes 20 Parser_new [0xA3; 0x8A; 0x81] 3 = Ok (false, 0, Parser_new).
Proof. apply (ParseBytes_short_buffer 20 Parser_new [0xA3; 0x8A; 0x81] 3). lia. Defined.

Lemma build_SegInfo_keeps_scale children :
  Forall Info_child_without_scale children ->
  forall segInfo,
  exists segInfo', build_SegInfo children segInfo = Ok segInfo'
                   /\ TimecodeScale segInfo' = TimecodeScale segInfo.
Proof.
  induction 1 as [|e children He _ IH]; intros segInfo.
  - exists segInfo. split; reflexivity.
  - cbn [build_SegInfo].
    assert (Hstep : exists s1,
               match elem_type e with
               | BINARY =>
                   match e with
                   | binary_element _ _ len d =>
                       if len >? 16 then Undefined WritePastEnd
                       else if len >? Z.of_nat (length d) then Undefined ReadPastEnd
                       else Ok (mk_SegmentInformation
                                  (take (Z.to_nat len) d
                                   ++ drop (Z.to_nat len) (SegmentUID segInfo))
                                  (TimecodeScale segInfo) (Duration segInfo)
                                  (MuxingApp segInfo) (WritingApp segInfo))
                   | _ => Undefined NullDeref
                   end
               | _UNSIGNED =>
                   d ← uint_data_of e;
                   Ok (mk_SegmentInformation (SegmentUID segInfo) (qw d)
                         (Duration segInfo) (MuxingApp segInfo) (WritingApp segInfo))
               | TEXTU =>
                   match e with
                   | string_element _ _ d =>
                       n ← name_of e;
                       if String.eqb n "MuxingApp" then
                         Ok (mk_SegmentInformation (SegmentUID segInfo)
                               (TimecodeScale segInfo) (Duration segInfo) (Some d)
                               (WritingApp segInfo))
                       else if String.eqb n "WritingApp" then
                         Ok (mk_SegmentInformation (SegmentUID segInfo)
                               (TimecodeScale segInfo) (Duration segInfo)
                               (MuxingApp segInfo) (Some d))
                       else Ok segInfo
                   | _ => Undefined NullDeref
                   end
               | _FLOAT =>
                   match e with
                   | float_element _ _ d =>
                       n ← name_of e;
                       if String.eqb n "Duration" then
                         Ok (mk_SegmentInformation (SegmentUID segInfo)
                               (TimecodeScale segInfo) d (MuxingApp segInfo)
                               (WritingApp segInfo))
                       else Ok segInfo
                   | _ => Undefined NullDeref
                   end
               | _ => Ok segInfo
               end = Ok s1 /\ TimecodeScale s1 = TimecodeScale segInfo).
    { destruct e as [n t | n t ch | n t len d | n t d | n t d | n t d | n t x];
        destruct t; cbn in He; try contradiction;
        try (destruct n; try contradiction);
        cbn [elem_type elem_name name_of mbind outcome_bind];
        try (eexists; split; reflexivity).
      - destruct He as [[H0 H16] Hd].
        destruct (Z.gtb_spec len 16); [lia|].
        destruct (Z.gtb_spec len (Z.of_nat (length d))); [lia|].
        eexists; split; reflexivity.
      - destruct He as [[H0 H16] Hd].
        destruct (Z.gtb_spec len 16); [lia|].
        destruct (Z.gtb_spec len (Z.of_nat (length d))); [lia|].
        eexists; split; reflexivity.
      - destruct (String.eqb s "MuxingApp"); [eexists; split; reflexivity|].
        destruct (String.eqb s "WritingApp"); eexists; split; reflexivity.
      - destruct (String.eqb s "Duration"); eexists; split; reflexivity. }
    destruct Hstep as (s1 & -> & Hs1). cbn [mbind outcome_bind].
    destruct (IH s1) as (s2 & -> & Hs2). exists s2. split; [reflexivity|]. congruence.
Qed.

(** A binary child longer than [SegmentUID]: the copy runs past the 16
    bytes of the array, into the members behind it. *)
Example build_Info_long_binary :
  build_Info [binary_element (Some "Void"%string) BINARY 24 (replicate 24 0)]
  = Undefined WritePastEnd.
Proof. reflexivity. Qed.

(** C8 (amended). After the model builder processes an Info master
    element, built as the tree reader builds it, that contains no
    TimecodeScale child (no unsigned-integer child) and whose binary
    children are each at most 16 bytes long (the size of [SegmentUID],
    into which every binary child is copied), the SegmentInfo it stores
    has TimecodeScale 0, the value the structure is initialised with: no
    default is applied. *)
Theorem Info_without_TimecodeScale fuel size p c name type children :
  Forall Info_child_without_scale children ->
  exists segInfo,
    ParseBytes_dispatch fuel "Info" MASTER size p c
      (Some (master_element name type children))
    = Ok (StepNext
            (set_m_masterData (set_SegInfo (Some segInfo) (m_masterData p)) p)
            c (Some (master_element name type children)))
    /\ TimecodeScale segInfo = 0.
Proof.
  intros Hch.
  destruct (build_SegInfo_keeps_scale children Hch SegmentInformation_zero)
    as (segInfo & Hb & Hs).
  exists segInfo. split; [|exact Hs].
  unfold ParseBytes_dispatch.
  cbn [String.eqb Ascii.eqb Bool.eqb children_of mbind outcome_bind].
  unfold build_Info. rewrite Hb. reflexivity.
Qed.

(** The instance of [Info_without_TimecodeScale] for an Info element
    holding a MuxingApp and a Duration. *)
Lemma Info_without_TimecodeScale_witness :
  exists segInfo,
    ParseBytes_dispatch 20 "Info" MASTER 14 Parser_new (mk_cursor [] 0 19)
      (Some (master_element None _VOID
               [string_element (Some "MuxingApp"%string) TEXTU [97; 98];
                float_element (Some "Duration"%string) _FLOAT (Float32 0x447A0000)]))
    = Ok (StepNext
            (set_m_masterData
               (set_SegInfo (Some segInfo) (m_masterData Parser_new)) Parser_new)
            (mk_cursor [] 0 19)
            (Some (master_element None _VOID
               [string_element (Some "MuxingApp"%string) TEXTU [97; 98];
                float_element (Some "Duration"%string) _FLOAT (Float32 0x447A0000)])))
    /\ TimecodeScale segInfo = 0.
Proof.
  apply (Info_without_TimecodeScale 20 14 Parser_new (mk_cursor [] 0 19) None _VOID).
  repeat constructor.
Defined.

(** C8, as stated, fails: parsing an Info element that holds only a
    MuxingApp leaves TimecodeScale at 0, not at 1,000,000. *)
Lemma Info_without_TimecodeScale_counterexample :
  exists p, ParseBytes 20 Parser_new
              [0x15; 0x49; 0xA9; 0x66; 0x85; 0x4D; 0x80; 0x82; 97; 98] 10
            = Ok (true, 10, p)
            /\ (TimecodeScale <$> SegInfo (m_masterData p)) = Some 0
            /\ (TimecodeScale <$> SegInfo (m_masterData p)) <> Some 1000000.
Proof. eexists. split; [vm_compute; reflexivity|]. split; [reflexivity|discriminate]. Qed.





Lemma sign_bit_checked : forallb sign_bit_check (map Z.of_nat (seq 0 256)) = true.
Proof. vm_compute. reflexivity. Qed.

Lemma sign_bit_of_byte x : is_BYTE x -> (Z.land x 0x80 =? 0) = (x <? 128).
Proof.
  intros Hx. unfold is_BYTE in Hx.
  pose proof sign_bit_checked as H. rewrite forallb_forall in H.
  specialize (H x). unfold sign_bit_check in H.
  apply Bool.eqb_prop. apply H.
  apply in_map_iff. exists (Z.to_nat x). split; [lia|]. apply in_seq. lia.
Qed.

Lemma to_int32_small z : - 2^31 <= z < 2^31 -> to_int32 z = z.
Proof. intros H. unfold to_int32. rewrite Z.mod_small by lia. lia. Qed.

Lemma int_result_small z : - 2^31 <= z < 2^31 -> int_result z = Ok z.
Proof.
  intros H. unfold int_result.
  destruct (Z.leb_spec (- 2^31) z); [|lia].
  destruct (Z.ltb_spec z (2^31)); [reflexivity|lia].
Qed.

Lemma ring_store_ok v p : ring_ok p -> ring_store v p = Ok (ring_stored v p).
Proof.
  intros [Hl Hw]. unfold ring_store. rewrite Hl.
  destruct (Nat.ltb_spec (pCircWrite p) 30); [reflexivity|lia].
Qed.

Lemma ring_stored_ok v p : ring_ok p -> ring_ok (ring_stored v p).
Proof.
  intros [Hl Hw].
  unfold ring_ok, ring_stored, set_pCircWrite, set_m_frameCount, set_m_circularBuffer.
  cbn [m_circularBuffer pCircWrite].
  rewrite length_insert. split; [exact Hl|].
  unfold ring_next. destruct (Nat.eqb_spec (S (pCircWrite p)) 30); lia.
Qed.

(** The block header of a SimpleBlock: track byte 81, relative
    timecode, flags with lacing code 0. *)
Lemma ParseSimpleBlock_no_lacing size p rhi rlo f rest cb ate :
  is_BYTE rhi -> is_BYTE rlo -> Z.land f 0x06 = 0 ->
  - 2^31 <= size - 4 < 2^31 -> ring_ok p ->
  ParseSimpleBlock size p (mk_cursor (0x81 :: rhi :: rlo :: f :: rest) cb ate)
  = Ok (set_m_framesReady true
          (ring_stored (size - 4)
             (set_m_currentTimeStamp
                (qw (m_currentBlockTimeCode p + signed16 rhi rlo))
                (set_m_isCurrentKeyFrame (Z.land f 0x80 =? 0x80)
                   (set_m_currentStream 1 p)))),
        mk_cursor rest (dw (cb - 4)) (dw (ate + 4))).
Proof.
  intros Hhi Hlo Hlace Hsize Hring.
  unfold ParseSimpleBlock. rewrite !read_byte_cons. cbn [mbind outcome_bind].
  rewrite !read_byte_cons. cbn [mbind outcome_bind].
  rewrite !read_byte_cons. cbn [mbind outcome_bind].
  rewrite !read_byte_cons. cbn [mbind outcome_bind].
  rewrite Hlace. cbn [Z.eqb].
  rewrite (int_result_small (size - 4) Hsize). cbn [mbind outcome_bind].
  rewrite ring_store_ok by exact Hring. cbn [mbind outcome_bind].
  assert (Htc : (if negb (Z.land rhi 128 =? 0)
                 then (0 * 256 + rhi) * 256 + rlo - 2 ^ (8 * 2)
                 else (0 * 256 + rhi) * 256 + rlo) = signed16 rhi rlo).
  { rewrite (sign_bit_of_byte rhi Hhi). unfold signed16, is_BYTE in *.
    change (2 ^ (8 * 2)) with 65536. change (2 ^ 15) with 32768.
    change (2 ^ 16) with 65536.
    destruct (Z.ltb_spec rhi 128); destruct (Z.ltb_spec (rhi * 256 + rlo) 32768);
      cbn [negb]; lia. }
  cbn [m_currentBlockTimeCode set_m_isCurrentKeyFrame set_m_currentStream].
  rewrite Htc.
  change (129 - 128) with 1.
  replace (dw (dw (dw (dw (cb - 1) - 1) - 1) - 1)) with (dw (cb - 4)) by dw_lia.
  replace (dw (dw (dw (dw (ate + 1) + 1) + 1) + 1)) with (dw (ate + 4)) by dw_lia.
  reflexivity.
Qed.

Lemma lookup_SimpleBlock :
  lookup_type_name 0xA3 = Ok (tn BINARY "SimpleBlock").
Proof. vm_compute. reflexivity. Qed.

Lemma ParseBytes_dispatch_SimpleBlock fuel size p c me :
  ParseBytes_dispatch fuel "SimpleBlock" BINARY size p c me
  = '(p1, c1) ← ParseSimpleBlock size p c; Ok (StepBreak p1 c1).
Proof. reflexivity. Qed.

(** The element header of a SimpleBlock whose size is a VINT of [k + 1]
    bytes. *)
Lemma ReadEbmlElementHeader_SimpleBlock fuel k sb srest payload cb :
  (8 <= fuel)%nat -> leading_one_at k sb ->
  Z.of_nat (length srest) = k -> Forall is_BYTE srest ->
  0 <= be_value (vint_bytes false k sb srest) < 2^32 ->
  be_value (vint_bytes false k sb srest) <> all_ones k ->
  ReadEbmlElementHeader fuel (mk_cursor (SimpleBlock_bytes sb srest payload) cb 0)
  = Ok (mk_element_header_result 0xA3 (be_value (vint_bytes false k sb srest)) (k + 2),
        mk_cursor payload (dw (cb - (k + 2))) (k + 2)).
Proof.
  intros Hf Hlead Hlen Hbytes Hfit Hnot.
  unfold ReadEbmlElementHeader, SimpleBlock_bytes.
  pose proof (ReadMatroskaNumber_unsigned fuel true 0 0xA3 [] (sb :: srest ++ payload)
                cb 0 Hf ltac:(unfold leading_one_at; cbn; lia) eq_refl
                ltac:(constructor)) as Hid.
  cbn [app] in Hid. rewrite Hid. clear Hid.
  cbn [mbind outcome_bind negb andb].
  rewrite (ReadMatroskaNumber_unsigned fuel false k sb srest payload _ _
             Hf Hlead Hlen Hbytes).
  cbn [mbind outcome_bind negb andb mnr_id mnr_length].
  destruct (Z.eqb_spec (be_value (vint_bytes false k sb srest)) (all_ones k));
    [contradiction|].
  destruct Hlead as [Hk _].
  rewrite (dw_small (be_value (vint_bytes false k sb srest))) by lia.
  change (dw (be_value (vint_bytes true 0 163 []))) with 163.
  replace (dw (0 + 1 + (k + 1))) with (k + 2)
    by (rewrite dw_small; change (2 ^ 32) with 4294967296; lia).
  replace (dw (dw (0 + (0 + 1)) + (k + 1))) with (k + 2)
    by (change (dw (0 + (0 + 1))) with 1; rewrite dw_small;
        change (2 ^ 32) with 4294967296; lia).
  replace (dw (dw (cb - (0 + 1)) - (k + 1))) with (dw (cb - (k + 2))) by dw_lia.
  reflexivity.
Qed.

(** [ParseBytes] on a window that starts with a SimpleBlock element
    and holds all of it: the call is the SimpleBlock branch. *)
Lemma ParseBytes_SimpleBlock fuel p k sb srest payload cb :
  (9 <= fuel)%nat -> leading_one_at k sb ->
  Z.of_nat (length srest) = k -> Forall is_BYTE srest ->
  0 <= be_value (vint_bytes false k sb srest) < 2^31 ->
  be_value (vint_bytes false k sb srest) <> all_ones k ->
  k + 2 + be_value (vint_bytes false k sb srest) <= cb < 2^32 -> 4 <= cb ->
  ParseBytes fuel p (SimpleBlock_bytes sb srest payload) cb
  = '(p1, c1) ← ParseSimpleBlock (be_value (vint_bytes false k sb srest)) p
                  (mk_cursor payload (cb - (k + 2)) (k + 2));
    Ok (true, pAte c1, p1).
Proof.
  intros Hf Hlead Hlen Hbytes Hfit Hnot Hcb Hcb4.
  assert (Hk : 0 <= k <= 7) by (destruct Hlead; assumption).
  change (2 ^ 31) with 2147483648 in Hfit. change (2 ^ 32) with 4294967296 in Hcb.
  unfold ParseBytes.
  destruct (Z.ltb_spec cb 4); [lia|].
  destruct fuel as [|fuel]; [lia|].
  cbn [ParseBytes_loop cbLen].
  destruct (Z.gtb_spec cb 0); [|lia].
  unfold ParseBytes_body.
  rewrite (ReadEbmlElementHeader_SimpleBlock fuel k sb srest payload cb)
    by (try assumption; try lia; change (2 ^ 32) with 4294967296; lia).
  cbn [mbind outcome_bind ehr_id elemsize headsize].
  rewrite lookup_SimpleBlock.
  cbn [mbind outcome_bind tn tn_name tn_type cbLen].
  rewrite (to_int32_small (be_value (vint_bytes false k sb srest)))
    by (change (2 ^ 31) with 2147483648; lia).
  rewrite (dw_small (be_value (vint_bytes false k sb srest)))
    by (change (2 ^ 32) with 4294967296; lia).
  rewrite (dw_small (cb - (k + 2))) by (change (2 ^ 32) with 4294967296; lia).
  destruct (Z.gtb_spec (be_value (vint_bytes false k sb srest)) (cb - (k + 2))); [lia|].
  rewrite ParseBytes_dispatch_SimpleBlock.
  destruct (ParseSimpleBlock (be_value (vint_bytes false k sb srest)) p
              (mk_cursor payload (cb - (k + 2)) (k + 2))) as [[p1 c1]| | |];
    reflexivity.
Qed.

(** The payload of scenario F: track 1, timecode 0, EBML lacing, lace
    count byte 2, size bytes 83 83. *)
Lemma ParseSimpleBlock_ebml_example size p frames cb ate :
  ring_ok p -> - 2^31 <= size - 4 -> size - 4 + 131130 < 2^31 ->
  ParseSimpleBlock size p
    (mk_cursor (0x81 :: 0x00 :: 0x00 :: 0x06 :: 0x02 :: 0x83 :: 0x83 :: frames) cb ate)
  = Ok (set_m_framesReady true
          (ring_stored (- 65536 + (3 - 63))
             (ring_stored (- 65536 + (3 - 63))
                (ring_stored (- 65536)
                   (set_m_currentTimeStamp (qw (m_currentBlockTimeCode p + 0))
                      (set_m_isCurrentKeyFrame false (set_m_currentStream 1 p)))))),
        mk_cursor frames (dw (cb - 7)) (dw (ate + 7))).
Proof.
  intros Hring Hlo Hhi.
  unfold ParseSimpleBlock.
  run_reads.
  change (Z.land 6 6 =? 0) with false. change (Z.land 6 6 =? 2) with false.
  change (Z.land 6 6 =? 6) with true.
  change (Z.land 6 128 =? 128) with false. change (129 - 128) with 1.
  change (negb (Z.land 0 128 =? 0)) with false.
  change ((0 * 256 + 0) * 256 + 0) with 0.
  run_reads.
  unfold ebml_lace_first. run_reads.
  change (negb (Z.land 131 128 =? 0)) with true. run_reads.
  change (to_byte (2 + 1) - 2) with 1. change (Z.to_nat 1) with 1%nat.
  set (p0 := set_m_currentTimeStamp _ _).
  assert (Hr0 : ring_ok p0) by exact Hring.
  change (to_int32 (0 - 2 ^ 16)) with (- 65536).
  rewrite (ring_store_ok _ p0 Hr0). run_reads.
  pose proof (ring_stored_ok (- 65536) p0 Hr0) as Hr1.
  cbn [ebml_lace_loop]. unfold ebml_lace_delta. run_reads.
  change (negb (Z.land 131 128 =? 0)) with true. run_reads.
  change (to_int32 (0 - 2 ^ 16 + (131 - 128 - (2 ^ (7 * 0 + 6) - 1))))
    with (- 65536 + (3 - 63)).
  rewrite (ring_store_ok _ _ Hr1). run_reads.
  pose proof (ring_stored_ok (- 65536 + (3 - 63)) _ Hr1) as Hr2.
  rewrite (int_result_small (size - 4)) by lia. run_reads.
  change (to_int32 (to_int32 (0 + (0 - 2 ^ 16) + 1)
                    + (0 - 2 ^ 16 + (131 - 128 - (2 ^ (7 * 0 + 6) - 1))) + 1))
    with (- 131130).
  rewrite (int_result_small (size - 4 - - 131130)) by lia. run_reads.
  rewrite (ring_store_ok _ _ Hr2). run_reads.
  replace (dw (dw (dw (dw (dw (dw (dw (cb - 1) - 1) - 1) - 1) - 1) - 1) - 1))
    with (dw (cb - 7)) by dw_lia.
  replace (dw (dw (dw (dw (dw (dw (dw (ate + 1) + 1) + 1) + 1) + 1) + 1) + 1))
    with (dw (ate + 7)) by dw_lia.
  reflexivity.
Qed.

Lemma lace_marker_checked :
  forallb lace_marker_check (map Z.of_nat (seq 0 256)) = true.
Proof. vm_compute. reflexivity. Qed.

Lemma lace_marker_of_byte x :
  is_BYTE x -> (Z.land x 0x40 =? 0) = (x mod 128 <? 64).
Proof.
  intros Hx. unfold is_BYTE in Hx.
  pose proof lace_marker_checked as H. rewrite forallb_forall in H.
  specialize (H x). unfold lace_marker_check in H.
  apply Bool.eqb_prop. apply H.
  apply in_map_iff. exists (Z.to_nat x). split; [lia|]. apply in_seq. lia.
Qed.

(** The size differences of EBML lacing are the signed VINTs the parser
    decodes. One of one or two bytes is the cleared big-endian value less
    the bias [2^(7 * width - 1) - 1]. *)
Lemma ebml_lace_delta_signed k b rest tl cb ate :
  leading_one_at k b -> k <= 1 ->
  Z.of_nat (length rest) = k -> Forall is_BYTE rest ->
  ebml_lace_delta (mk_cursor (b :: rest ++ tl) cb ate)
  = Ok (signed_vint_value k b rest, k + 1,
        mk_cursor tl (dw (cb - (k + 1))) (dw (ate + (k + 1)))).
Proof.
  intros [Hk Hb] Hk1 Hlen Hbytes.
  assert (Hcases : k = 0 \/ k = 1) by lia.
  unfold ebml_lace_delta, signed_vint_value, vint_bytes.
  destruct Hcases as [-> | ->].
  - destruct rest as [|? ?]; [|cbn [length] in Hlen; lia].
    change (2 ^ (7 - 0)) with 128 in *. change (2 ^ (8 - 0)) with 256 in Hb.
    cbn [app]. run_reads.
    rewrite (sign_bit_of_byte b) by (unfold is_BYTE; lia).
    destruct (Z.ltb_spec b 128); [lia|]. cbn [negb].
    cbn [be_value length]. change (Z.of_nat 0) with 0.
    change (256 ^ 0) with 1. change (2 ^ (7 * 0 + 6)) with 64.
    change (2 ^ (7 * (0 + 1) - 1)) with 64. change (0 + 1) with 1.
    f_equal. f_equal. f_equal. lia.
  - destruct rest as [|t1 [|? ?]]; cbn [length] in Hlen; try lia.
    apply Forall_cons_1 in Hbytes. destruct Hbytes as [Ht1 _].
    change (2 ^ (7 - 1)) with 64 in *. change (2 ^ (8 - 1)) with 128 in Hb.
    cbn [app]. run_reads.
    rewrite (sign_bit_of_byte b) by (unfold is_BYTE; lia).
    destruct (Z.ltb_spec b 128); [|lia]. cbn [negb]. run_reads.
    rewrite (lace_marker_of_byte b) by (unfold is_BYTE; lia).
    rewrite (Z.mod_small b 128) by lia.
    destruct (Z.ltb_spec b 64); [lia|]. cbn [negb].
    cbn [be_value length]. change (Z.of_nat 1) with 1. change (Z.of_nat 0) with 0.
    change (256 ^ 1) with 256. change (256 ^ 0) with 1.
    change (2 ^ (7 * 1 + 6)) with 8192. change (2 ^ (7 * (1 + 1) - 1)) with 8192.
    change (1 + 1) with 2.
    rewrite dw_dw_sub, dw_dw_add.
    replace (cb - 1 - 1) with (cb - 2) by lia.
    replace (ate + 1 + 1) with (ate + 2) by lia.
    f_equal. f_equal. f_equal. lia.
Qed.

(** C5 (amended). For every signed-mode VINT of width [k + 1] = 1 or 2
    bytes, the decoded value equals the big-endian integer of the bytes
    with the leading length-marker bit cleared, minus
    [2^(7 * width - 1) - 1] (a one-byte [0x80 + v] decodes to [v - 63]).
    The signed VINTs the parser decodes are the size differences of EBML
    lacing: the decoder consumes the bytes of the number, and each
    further frame size is the previous one plus the decoded value. *)
Theorem VInt_signed_lace_delta k b rest tl cb ate :
  leading_one_at k b -> k <= 1 ->
  Z.of_nat (length rest) = k -> Forall is_BYTE rest ->
  let c := mk_cursor (b :: rest ++ tl) cb ate in
  let c' := mk_cursor tl (dw (cb - (k + 1))) (dw (ate + (k + 1))) in
  let v := signed_vint_value k b rest in
  ebml_lace_delta c = Ok (v, k + 1, c')
  /\ forall accumLength lastFramelength p,
       ring_ok p ->
       ebml_lace_loop 1 c accumLength lastFramelength p
       = Ok (c', to_int32 (accumLength + (lastFramelength + v) + (k + 1)),
             lastFramelength + v,
             ring_stored (to_int32 (lastFramelength + v)) p).
Proof.
  intros Hlead Hk Hlen Hbytes c c' v.
  pose proof (ebml_lace_delta_signed k b rest tl cb ate Hlead Hk Hlen Hbytes) as Hd.
  split; [exact Hd|].
  intros accumLength lastFramelength p Hring.
  cbn [ebml_lace_loop]. subst c. rewrite Hd. cbn [mbind outcome_bind].
  rewrite (ring_store_ok _ p Hring). reflexivity.
Qed.

(** The instance of [VInt_signed_lace_delta] for the two-byte VINT
    5F FF: cleared value 0x1FFF = 8191, decoded value 0. *)
Lemma VInt_signed_lace_delta_witness :
  let c := mk_cursor (0x5F :: [0xFF] ++ [1; 2; 3]) 5 11 in
  let c' := mk_cursor [1; 2; 3] (dw (5 - (1 + 1))) (dw (11 + (1 + 1))) in
  let v := signed_vint_value 1 0x5F [0xFF] in
  ebml_lace_delta c = Ok (v, 1 + 1, c')
  /\ forall accumLength lastFramelength p,
       ring_ok p ->
       ebml_lace_loop 1 c accumLength lastFramelength p
       = Ok (c', to_int32 (accumLength + (lastFramelength + v) + (1 + 1)),
             lastFramelength + v,
             ring_stored (to_int32 (lastFramelength + v)) p).
Proof.
  apply (VInt_signed_lace_delta 1 0x5F [0xFF] [1; 2; 3] 5 11).
  - unfold leading_one_at. cbn. lia.
  - lia.
  - reflexivity.
  - repeat constructor; unfold is_BYTE; lia.
Defined.

(** C5, as stated, fails on a signed VINT of five bytes: 0C 00 00 00 00
    has the cleared value 2^34 and stands for 2^34 - (2^34 - 1) = 1, and
    the decoder of the lacing sizes, which takes numbers of up to three
    bytes, throws; so does [ParseBytes] on an EBML-laced SimpleBlock of
    frames of 3, 4 and 2 bytes whose second size is written that way. *)
Lemma VInt_signed_lace_delta_counterexample :
  leading_one_at 4 0x0C
  /\ signed_vint_value 4 0x0C [0; 0; 0; 0] = 1
  /\ ebml_lace_delta (window [0x0C; 0; 0; 0; 0]) = Throw lace_too_big
  /\ ParseBytes 9 Parser_new
       (SimpleBlock_bytes 0x94 []
          ([0x81; 0x00; 0x00; 0x06; 0x02; 0x83; 0x0C; 0; 0; 0; 0]
           ++ [1; 2; 3; 4; 5; 6; 7; 8; 9])) 22
     = Throw lace_too_big.
Proof.
  split; [unfold leading_one_at; cbn; lia|].
  split; [reflexivity|]. split; vm_compute; reflexivity.
Qed.

End ParserFacts.

Section SimpleBlockFraming.

Variables (fuel : nat) (p : Parser) (k sb : Z) (srest : list Z).
Hypothesis fuel_enough : (9 <= fuel)%nat.
Hypothesis ring : ring_ok p.
Hypothesis size_lead : leading_one_at k sb.
Hypothesis size_len : Z.of_nat (length srest) = k.
Hypothesis size_bytes : Forall is_BYTE srest.
Hypothesis size_known : be_value (vint_bytes false k sb srest) <> all_ones k.

(** The element size the header declares. *)
Let sz : Z := be_value (vint_bytes false k sb srest).

Lemma to_byte_succ3 c : to_byte (to_byte (to_byte (c + 1) + 1) + 1) = to_byte (c + 3).
Proof. unfold to_byte. Z.to_euclidean_division_equations. lia. Qed.

(** C1 (amended). For every SimpleBlock with lacing code 0 and an
    element size from 4 to 2^31 - 1, parsed with current cluster timecode
    [T]: the payload (track VInt 81, 2-byte big-endian signed relative
    timecode [r], flags byte [f], then the frame bytes) records track
    number 1, keyframe flag equal to [(f & 0x80) == 0x80], exactly one
    frame whose length is the element size minus 4, and a timestamp equal
    to [T + r] reduced modulo 2^64 (the field is an unsigned 64-bit
    integer), which is [T + r] itself whenever that is not negative. *)
Theorem SimpleBlock_no_lacing rhi rlo f frames tl :
  4 <= sz < 2^31 ->
  is_BYTE rhi -> is_BYTE rlo -> Z.land f 0x06 = 0 ->
  Z.of_nat (length frames) = sz - 4 ->
  Z.of_nat (length (SimpleBlock_bytes sb srest ([0x81; rhi; rlo; f] ++ frames ++ tl)))
    < 2^32 ->
  exists p',
    ParseBytes fuel p
      (SimpleBlock_bytes sb srest ([0x81; rhi; rlo; f] ++ frames ++ tl))
      (Z.of_nat (length (SimpleBlock_bytes sb srest
                           ([0x81; rhi; rlo; f] ++ frames ++ tl))))
    = Ok (true, k + 6, p')
    /\ m_currentStream p' = 1
    /\ m_isCurrentKeyFrame p' = (Z.land f 0x80 =? 0x80)
    /\ m_circularBuffer p' = <[pCircWrite p := sz - 4]> (m_circularBuffer p)
    /\ pCircWrite p' = ring_next (pCircWrite p)
    /\ m_frameCount p' = to_byte (m_frameCount p + 1)
    /\ m_framesReady p' = true
    /\ m_currentTimeStamp p' = qw (m_currentBlockTimeCode p + signed16 rhi rlo)
    /\ (0 <= m_currentBlockTimeCode p + signed16 rhi rlo < 2^64 ->
        m_currentTimeStamp p' = m_currentBlockTimeCode p + signed16 rhi rlo).
Proof.
  intros Hsz Hhi Hlo Hlace Hframes Hwin.
  assert (Hk : 0 <= k <= 7) by (destruct size_lead; assumption).
  assert (Hlen : Z.of_nat (length (SimpleBlock_bytes sb srest
                                     ([0x81; rhi; rlo; f] ++ frames ++ tl)))
                 = k + 2 + sz + Z.of_nat (length tl)).
  { unfold SimpleBlock_bytes. cbn [length app].
    rewrite !length_app. cbn [length]. rewrite length_app. lia. }
  rewrite Hlen in *.
  change (2 ^ 31) with 2147483648 in Hsz. change (2 ^ 32) with 4294967296 in Hwin.
  rewrite (ParseBytes_SimpleBlock fuel p k sb srest _ _ fuel_enough size_lead
             size_len size_bytes);
    [ | fold sz; change (2 ^ 31) with 2147483648; lia | exact size_known
      | fold sz; change (2 ^ 32) with 4294967296; lia | fold sz; lia ].
  fold sz. cbn [app].
  rewrite (ParseSimpleBlock_no_lacing sz p rhi rlo f (frames ++ tl) _ _ Hhi Hlo Hlace)
    by (try exact ring; change (2 ^ 31) with 2147483648; lia).
  cbn [mbind outcome_bind pAte].
  rewrite (dw_small (k + 2 + 4)) by (change (2 ^ 32) with 4294967296; lia).
  replace (k + 2 + 4) with (k + 6) by lia.
  eexists. split; [reflexivity|].
  repeat split.
  intros Hrange. cbn. unfold qw. apply Z.mod_small. exact Hrange.
Qed.

(** C4 (amended). For the EBML-laced SimpleBlock whose payload begins
    81 00 00 06 02 83 83 followed by the frame bytes, the framer records
    exactly three frame sizes: the frame count is the lace-count byte 2
    plus 1, and the second size is the first recorded size plus the
    signed-biased delta decoded from 83, which is 3 - 63 = -60. *)
Theorem SimpleBlock_ebml_lacing_example frames tl :
  7 <= sz < 2^30 ->
  Z.of_nat (length frames) = sz - 7 ->
  Z.of_nat (length (SimpleBlock_bytes sb srest
                      ([0x81; 0x00; 0x00; 0x06; 0x02; 0x83; 0x83] ++ frames ++ tl)))
    < 2^32 ->
  exists p' s1 s3,
    ParseBytes fuel p
      (SimpleBlock_bytes sb srest
         ([0x81; 0x00; 0x00; 0x06; 0x02; 0x83; 0x83] ++ frames ++ tl))
      (Z.of_nat (length (SimpleBlock_bytes sb srest
                           ([0x81; 0x00; 0x00; 0x06; 0x02; 0x83; 0x83] ++ frames ++ tl))))
    = Ok (true, k + 9, p')
    /\ m_frameCount p' = to_byte (m_frameCount p + (2 + 1))
    /\ m_circularBuffer p'
       = <[ring_next (ring_next (pCircWrite p)) := s3]>
           (<[ring_next (pCircWrite p) := s1 + (3 - 63)]>
              (<[pCircWrite p := s1]> (m_circularBuffer p)))
    /\ pCircWrite p' = ring_next (ring_next (ring_next (pCircWrite p)))
    /\ m_framesReady p' = true
    /\ m_currentStream p' = 1.
Proof.
  intros Hsz Hframes Hwin.
  assert (Hk : 0 <= k <= 7) by (destruct size_lead; assumption).
  assert (Hlen : Z.of_nat (length (SimpleBlock_bytes sb srest
                   ([0x81; 0x00; 0x00; 0x06; 0x02; 0x83; 0x83] ++ frames ++ tl)))
                 = k + 2 + sz + Z.of_nat (length tl)).
  { unfold SimpleBlock_bytes. cbn [length app].
    rewrite !length_app. cbn [length]. rewrite length_app. lia. }
  rewrite Hlen in *.
  change (2 ^ 30) with 1073741824 in Hsz. change (2 ^ 32) with 4294967296 in Hwin.
  rewrite (ParseBytes_SimpleBlock fuel p k sb srest _ _ fuel_enough size_lead
             size_len size_bytes);
    [ | fold sz; change (2 ^ 31) with 2147483648; lia | exact size_known
      | fold sz; change (2 ^ 32) with 4294967296; lia | fold sz; lia ].
  fold sz. cbn [app].
  rewrite (ParseSimpleBlock_ebml_example sz p (frames ++ tl) _ _ ring)
    by (change (2 ^ 31) with 2147483648; lia).
  cbn [mbind outcome_bind pAte].
  rewrite (dw_small (k + 2 + 7)) by (change (2 ^ 32) with 4294967296; lia).
  replace (k + 2 + 7) with (k + 9) by lia.
  eexists. exists (- 65536), (- 65536 + (3 - 63)).
  split; [reflexivity|].
  split; [cbn; apply to_byte_succ3|].
  repeat split.
Qed.

End SimpleBlockFraming.

(** A Timecode element of value 5 followed by the SimpleBlock of
    scenario E in one window: one call sets the cluster timecode, frames
    the block and stops after its header with timestamp 5 + 16. *)
Example Timecode_then_SimpleBlock :
  exists p',
    ParseBytes 20 Parser_new
      ([0xE7; 0x81; 0x05]
       ++ SimpleBlock_bytes 0x8A [] ([0x81; 0x00; 0x10; 0x80] ++ [1; 2; 3; 4; 5; 6])) 15
    = Ok (true, 9, p')
    /\ m_currentBlockTimeCode p' = 5
    /\ m_currentStream p' = 1
    /\ m_isCurrentKeyFrame p' = true
    /\ m_currentTimeStamp p' = 21
    /\ m_circularBuffer p' !! 0%nat = Some 6
    /\ m_frameCount p' = 1.
Proof. eexists. split; [vm_compute; reflexivity|]. repeat split. Qed.

(** The instance of [SimpleBlock_no_lacing] for scenario E with ten
    bytes of payload, in a Cluster whose Timecode is 5. *)
Lemma SimpleBlock_no_lacing_witness :
  let p := set_m_currentBlockTimeCode 5 Parser_new in
  let sz := be_value (vint_bytes false 0 0x8A []) in
  exists p',
    ParseBytes 9 p
      (SimpleBlock_bytes 0x8A [] ([0x81; 0x00; 0x10; 0x80] ++ [1; 2; 3; 4; 5; 6] ++ []))
      (Z.of_nat (length (SimpleBlock_bytes 0x8A []
                           ([0x81; 0x00; 0x10; 0x80] ++ [1; 2; 3; 4; 5; 6] ++ []))))
    = Ok (true, 0 + 6, p')
    /\ m_currentStream p' = 1
    /\ m_isCurrentKeyFrame p' = (Z.land 0x80 0x80 =? 0x80)
    /\ m_circularBuffer p' = <[pCircWrite p := sz - 4]> (m_circularBuffer p)
    /\ pCircWrite p' = ring_next (pCircWrite p)
    /\ m_frameCount p' = to_byte (m_frameCount p + 1)
    /\ m_framesReady p' = true
    /\ m_currentTimeStamp p' = qw (m_currentBlockTimeCode p + signed16 0x00 0x10)
    /\ (0 <= m_currentBlockTimeCode p + signed16 0x00 0x10 < 2^64 ->
        m_currentTimeStamp p' = m_currentBlockTimeCode p + signed16 0x00 0x10).
Proof.
  intros p sz.
  apply (SimpleBlock_no_lacing 9 p 0 0x8A [] (le_n 9)).
  - split; [reflexivity | cbn; lia].
  - unfold leading_one_at. cbn. lia.
  - reflexivity.
  - constructor.
  - vm_compute. discriminate.
  - vm_compute. split; [discriminate | reflexivity].
  - unfold is_BYTE. lia.
  - unfold is_BYTE. lia.
  - reflexivity.
  - reflexivity.
  - vm_compute. reflexivity.
Defined.

(** C1, as stated, fails when the relative timecode reaches below zero:
    after a Timecode element of value 0, a SimpleBlock with relative
    timecode FF FF = -1 gets the timestamp 18446744073709551615, not
    0 + (-1). *)
Lemma SimpleBlock_no_lacing_counterexample :
  signed16 0xFF 0xFF = -1
  /\ exists p',
       ParseBytes 20 Parser_new
         ([0xE7; 0x81; 0x00]
          ++ SimpleBlock_bytes 0x8A [] ([0x81; 0xFF; 0xFF; 0x00] ++ [1; 2; 3; 4; 5; 6])) 15
       = Ok (true, 9, p')
       /\ m_currentBlockTimeCode p' = 0
       /\ m_currentTimeStamp p' = 18446744073709551615
       /\ m_currentTimeStamp p' <> m_currentBlockTimeCode p' + signed16 0xFF 0xFF.
Proof.
  split; [reflexivity|]. eexists. split; [vm_compute; reflexivity|].
  split; [reflexivity|]. split; [reflexivity | vm_compute; discriminate].
Qed.

(** The instance of [SimpleBlock_ebml_lacing_example] for a block of 17
    bytes: the seven bytes of scenario F and ten frame bytes. *)
Lemma SimpleBlock_ebml_lacing_example_witness :
  let p := Parser_new in
  exists p' s1 s3,
    ParseBytes 9 p
      (SimpleBlock_bytes 0x91 []
         ([0x81; 0x00; 0x00; 0x06; 0x02; 0x83; 0x83] ++ [1; 2; 3; 4; 5; 6; 7; 8; 9; 10] ++ []))
      (Z.of_nat (length (SimpleBlock_bytes 0x91 []
         ([0x81; 0x00; 0x00; 0x06; 0x02; 0x83; 0x83] ++ [1; 2; 3; 4; 5; 6; 7; 8; 9; 10] ++ []))))
    = Ok (true, 0 + 9, p')
    /\ m_frameCount p' = to_byte (m_frameCount p + (2 + 1))
    /\ m_circularBuffer p'
       = <[ring_next (ring_next (pCircWrite p)) := s3]>
           (<[ring_next (pCircWrite p) := s1 + (3 - 63)]>
              (<[pCircWrite p := s1]> (m_circularBuffer p)))
    /\ pCircWrite p' = ring_next (ring_next (ring_next (pCircWrite p)))
    /\ m_framesReady p' = true
    /\ m_currentStream p' = 1.
Proof.
  intros p.
  apply (SimpleBlock_ebml_lacing_example 9 p 0 0x91 [] (le_n 9)).
  - split; [reflexivity | cbn; lia].
  - unfold leading_one_at. cbn. lia.
  - reflexivity.
  - constructor.
  - vm_compute. discriminate.
  - vm_compute. split; [discriminate | reflexivity].
  - reflexivity.
  - vm_compute. reflexivity.
Defined.

(** C4, as stated, fails: for the block of scenario F with frames of 3, 3
    and 4 bytes the three sizes recorded are -65536, -65596 and -65596, not
    3, 3 and 4. *)
Lemma SimpleBlock_ebml_lacing_example_counterexample :
  exists p',
    ParseBytes 9 Parser_new
      (SimpleBlock_bytes 0x91 []
         ([0x81; 0x00; 0x00; 0x06; 0x02; 0x83; 0x83] ++ [1; 2; 3; 4; 5; 6; 7; 8; 9; 10])) 19
    = Ok (true, 9, p')
    /\ m_frameCount p' = 3
    /\ take 3 (m_circularBuffer p') = [-65536; -65596; -65596]
    /\ take 3 (m_circularBuffer p') <> [3; 3; 4].
Proof.
  eexists. split; [vm_compute; reflexivity|].
  split; [reflexivity|]. split; [reflexivity | vm_compute; discriminate].
Qed.

(* ================================================================== *)
(** * Further properties *)

Section BufferData.
Import Buffer.

Lemma Reserve_data b cb :
  invariant b -> is_DWORD cb -> cb <= MAXDWORD - DataSize b ->
  exists b' n, Reserve cb b = Ok (b', n) /\ invariant b' /\
               buffered_data b' = buffered_data b /\
               DataSize b' = DataSize b /\ m_end b' + cb <= m_count b'.
Proof.
  intros Hb Hcb Hfit0.
  pose proof (invariant_DataSize b Hb) as HD.
  pose proof (invariant_CurrentFreeSize b Hb) as HF.
  destruct Hb as (H0 & H1 & H2 & H3 & H4 & a & Ha & Hlen).
  unfold is_DWORD in Hcb. unfold Reserve. rewrite HF, !HD.
  rewrite HD in Hfit0. clear HF.
  unfold buffered_data at 2. rewrite HD. clear HD.
  destruct b as [arr c al bg en]. cbn in *. subst arr.
  unfold MAXDWORD in *.
  destruct (Z.gtb_spec cb (4294967295 - (en - bg))) as [Hbig|Hfit]; [lia|].
  rewrite (dw_small (c - en)) by lia.
  destruct (Z.gtb_spec cb (c - en)) as [Hmove|Hroom].
  2:{ eexists _, 0%nat. split; [reflexivity|].
      unfold invariant, DataSize, buffered_data; cbn.
      unfold DataSize; cbn.
      rewrite (dw_small (en - bg)) by lia.
      repeat split; try lia. eauto. }
  assert (Hfin : forall a1 c1 al1 (n1 : nat),
             c <= c1 -> c1 <= al1 -> al1 < 2^32 ->
             Z.of_nat (length a1) = al1 -> en - bg + cb <= c1 ->
             take (Z.to_nat (en - bg)) (drop (Z.to_nat bg) a1)
             = take (Z.to_nat (en - bg)) (drop (Z.to_nat bg) a) ->
             exists b' n,
               (a' ← MoveMemory_to_front a1 bg (dw (en - bg));
                Ok (mk (Some a') c1 al1 0 (dw (en - bg)), n1))
               = Ok (b', n) /\ invariant b' /\
               buffered_data b' = take (Z.to_nat (en - bg)) (drop (Z.to_nat bg) a) /\
               DataSize b' = en - bg /\ m_end b' + cb <= m_count b').
  { intros a1 c1 al1 n1 Hc Hal Hlt Hl Hrm Hsame.
    unfold MoveMemory_to_front.
    rewrite (dw_small (en - bg)) by lia.
    destruct (Z.leb_spec (bg + (en - bg)) (Z.of_nat (length a1))); [|lia].
    eexists _, n1. split; [reflexivity|].
    unfold invariant, DataSize, buffered_data. cbn. unfold DataSize. cbn.
    rewrite (dw_small (en - bg - 0)) by lia.
    repeat split; try lia.
    - eexists. split; [reflexivity|].
      rewrite length_app, length_take, !length_drop. lia.
    - rewrite drop_0. replace (en - bg - 0) with (en - bg) by lia.
      rewrite take_app_length'; [exact Hsame|].
      rewrite length_take, length_drop. lia. }
  destruct (Z.gtb_spec cb (c - (en - bg))) as [Hgrow|Hkeep].
  - (* the array grows *)
    unfold SetSize, Allocate, DataSize, Ptr. cbn.
    rewrite (dw_small (en - bg + cb)) by lia.
    destruct (Z.gtb_spec (en - bg + cb) al) as [Hal|Hal]; cbn.
    + assert (Hold : (if c =? 0 then Ok a else Ok a) = Ok a :> outcome (list Z))
        by (destruct (c =? 0); reflexivity).
      rewrite Hold. cbn.
      destruct (Z.leb_spec c (Z.of_nat (length a))); [|lia]. cbn.
      apply Hfin; try lia.
      * rewrite length_app, length_take, length_replicate. lia.
      * rewrite drop_app_le by (rewrite length_take; lia).
        rewrite take_app_le by (rewrite length_drop, length_take; lia).
        rewrite !take_drop_commute, take_take.
        f_equal. f_equal. lia.
    + apply Hfin; try lia. reflexivity.
  - (* compaction alone makes room *)
    unfold DataSize, Ptr. cbn. apply Hfin; try lia. reflexivity.
Qed.

Lemma buffered_data_length b :
  invariant b -> Z.of_nat (length (buffered_data b)) = DataSize b.
Proof.
  intros Hb. pose proof (invariant_DataSize b Hb) as HD.
  destruct Hb as (H0 & H1 & H2 & H3 & H4 & a & Ha & Hlen).
  unfold buffered_data. rewrite Ha, HD, length_take, length_drop. lia.
Qed.

(** A buffer of 16 bytes into which the bytes 1 to 10 were read, 3 of
    them consumed since. *)
Lemma reachable_example :
  reachable (mk (Some [1; 2; 3; 4; 5; 6; 7; 8; 9; 10; 0; 0; 0; 0; 0; 0]) 16 16 3 10).
Proof.
  apply (reach_MoveStart 3
           (mk (Some [1; 2; 3; 4; 5; 6; 7; 8; 9; 10; 0; 0; 0; 0; 0; 0]) 16 16 0 10));
    [ | unfold is_DWORD; lia | reflexivity ].
  apply (reach_stored (replicate 16 0) [1; 2; 3; 4; 5; 6; 7; 8; 9; 10; 0; 0; 0; 0; 0; 0]
           (mk (Some (replicate 16 0)) 16 16 0 10));
    [ | reflexivity | reflexivity ].
  apply (reach_MoveEnd 10 (mk (Some (replicate 16 0)) 16 16 0 0) _ 0%nat);
    [ | unfold is_DWORD; lia | reflexivity ].
  apply (reach_new 16 _ 1%nat); [unfold is_DWORD; lia | reflexivity].
Qed.

(** X1. In every state a buffer can reach, the positions are ordered
    [0 <= m_begin <= m_end <= m_count <= m_allocated], so neither size
    query wraps around: [DataSize] is [m_end - m_begin],
    [CurrentFreeSize] is [m_count - DataSize], and the buffer holds
    exactly [DataSize] bytes of its array. *)
Theorem Buffer_sizes_exact (b : t) :
  reachable b ->
  0 <= m_begin b <= m_end b /\ m_end b <= m_count b <= m_allocated b
  /\ DataSize b = m_end b - m_begin b
  /\ CurrentFreeSize b = m_count b - DataSize b
  /\ Z.of_nat (length (buffered_data b)) = DataSize b.
Proof.
  intros Hr. apply reachable_invariant in Hr.
  pose proof (invariant_DataSize b Hr) as HD.
  pose proof (invariant_CurrentFreeSize b Hr) as HF.
  pose proof (buffered_data_length b Hr) as HL.
  destruct Hr as (H0 & H1 & H2 & H3 & H4 & _).
  repeat split; try lia.
Qed.

(** The instance of [Buffer_sizes_exact] for the buffer of
    [reachable_example]. *)
Lemma Buffer_sizes_exact_witness :
  let b := mk (Some [1; 2; 3; 4; 5; 6; 7; 8; 9; 10; 0; 0; 0; 0; 0; 0]) 16 16 3 10 in
  0 <= m_begin b <= m_end b /\ m_end b <= m_count b <= m_allocated b
  /\ DataSize b = m_end b - m_begin b
  /\ CurrentFreeSize b = m_count b - DataSize b
  /\ Z.of_nat (length (buffered_data b)) = DataSize b.
Proof. intros b. apply (Buffer_sizes_exact b). exact reachable_example. Defined.

(** X2. [Reserve(cb)] on a reachable buffer throws
    [InvalidArgumentException] when [cb] exceeds [MAXDWORD - DataSize];
    otherwise it returns, the bytes the buffer holds are the same as
    before (whether the array was compacted, reallocated or left alone),
    and [cb] bytes of the array are free after the end position. *)
Theorem Reserve_keeps_data (b : t) (cb : Z) :
  reachable b -> is_DWORD cb ->
  (MAXDWORD - DataSize b < cb /\ Reserve cb b = Throw InvalidArgumentException)
  \/ (cb <= MAXDWORD - DataSize b
      /\ exists b' n, Reserve cb b = Ok (b', n)
                      /\ buffered_data b' = buffered_data b
                      /\ DataSize b' = DataSize b
                      /\ m_end b' + cb <= m_count b' <= m_allocated b').
Proof.
  intros Hr Hcb. apply reachable_invariant in Hr.
  destruct (Z.lt_ge_cases (MAXDWORD - DataSize b) cb) as [Hbig|Hfit].
  - left. split; [exact Hbig|]. unfold Reserve.
    destruct (Z.gtb_spec cb (MAXDWORD - DataSize b)); [reflexivity|lia].
  - right. split; [exact Hfit|].
    destruct (Reserve_data b cb Hr Hcb Hfit) as (b' & n & Hok & Hb' & Hd & HD & Hroom).
    exists b', n. destruct Hb' as (H0 & H1 & H2 & H3 & H4 & _).
    repeat split; try assumption; lia.
Qed.

(** The instance of [Reserve_keeps_data] for the buffer of
    [reachable_example] and a request of 12 bytes, which makes the array
    grow. *)
Lemma Reserve_keeps_data_witness :
  let b := mk (Some [1; 2; 3; 4; 5; 6; 7; 8; 9; 10; 0; 0; 0; 0; 0; 0]) 16 16 3 10 in
  (MAXDWORD - DataSize b < 12 /\ Reserve 12 b = Throw InvalidArgumentException)
  \/ (12 <= MAXDWORD - DataSize b
      /\ exists b' n, Reserve 12 b = Ok (b', n)
                      /\ buffered_data b' = buffered_data b
                      /\ DataSize b' = DataSize b
                      /\ m_end b' + 12 <= m_count b' <= m_allocated b').
Proof.
  intros b. apply (Reserve_keeps_data b 12).
  - exact reachable_example.
  - unfold is_DWORD. lia.
Defined.

(** X3. [MoveStart(cb)] on a reachable buffer throws
    [InvalidArgumentException] when [cb] exceeds [DataSize]; otherwise
    it drops the first [cb] bytes the buffer holds and nothing else. *)
Theorem MoveStart_drops_front (b : t) (cb : Z) :
  reachable b -> is_DWORD cb ->
  (DataSize b < cb /\ MoveStart cb b = Throw InvalidArgumentException)
  \/ (cb <= DataSize b
      /\ exists b', MoveStart cb b = Ok b'
                    /\ buffered_data b' = drop (Z.to_nat cb) (buffered_data b)
                    /\ DataSize b' = DataSize b - cb).
Proof.
  intros Hr Hcb. apply reachable_invariant in Hr. unfold is_DWORD in Hcb.
  destruct (Z.lt_ge_cases (DataSize b) cb) as [Hbig|Hfit].
  - left. split; [exact Hbig|]. unfold MoveStart.
    destruct (Z.gtb_spec cb (DataSize b)); [reflexivity|lia].
  - right. split; [exact Hfit|].
    pose proof (invariant_DataSize b Hr) as HD.
    destruct (MoveStart_spec b cb Hr ltac:(lia)) as (b' & Hok & Hb' & HD' & _).
    exists b'. split; [exact Hok|]. split; [|exact HD'].
    unfold MoveStart in Hok.
    destruct (Z.gtb_spec cb (DataSize b)); [lia|]. injection Hok as <-.
    destruct Hr as (H0 & H1 & H2 & H3 & H4 & a & Ha & Hlen).
    unfold buffered_data. rewrite HD', HD. cbn [m_array m_begin]. rewrite Ha.
    rewrite (dw_small (m_begin b + cb)) by lia.
    transitivity (take (Z.to_nat (m_end b - m_begin b - cb))
                    (drop (Z.to_nat cb) (drop (Z.to_nat (m_begin b)) a))).
    + rewrite drop_drop. f_equal. f_equal. lia.
    + rewrite take_drop_commute. f_equal. f_equal. lia.
Qed.

(** The instance of [MoveStart_drops_front] for the buffer of
    [reachable_example] and 4 bytes. *)
Lemma MoveStart_drops_front_witness :
  let b := mk (Some [1; 2; 3; 4; 5; 6; 7; 8; 9; 10; 0; 0; 0; 0; 0; 0]) 16 16 3 10 in
  (DataSize b < 4 /\ MoveStart 4 b = Throw InvalidArgumentException)
  \/ (4 <= DataSize b
      /\ exists b', MoveStart 4 b = Ok b'
                    /\ buffered_data b' = drop (Z.to_nat 4) (buffered_data b)
                    /\ DataSize b' = DataSize b - 4).
Proof.
  intros b. apply (MoveStart_drops_front b 4).
  - exact reachable_example.
  - unfold is_DWORD. lia.
Defined.

(** X4. [MoveEnd(cb)] on a reachable buffer, [cb] not exceeding
    [MAXDWORD - DataSize]: the call returns, the bytes the buffer held
    stay in place at its front and [cb] bytes are added behind them. *)
Theorem MoveEnd_extends_data (b : t) (cb : Z) :
  reachable b -> is_DWORD cb -> cb <= MAXDWORD - DataSize b ->
  exists b' n, MoveEnd cb b = Ok (b', n)
               /\ take (Z.to_nat (DataSize b)) (buffered_data b') = buffered_data b
               /\ Z.of_nat (length (buffered_data b')) = DataSize b + cb.
Proof.
  intros Hr Hcb Hfit. apply reachable_invariant in Hr.
  destruct (Reserve_data b cb Hr Hcb Hfit) as (b1 & n & Hok & Hb1 & Hd & HD & Hroom).
  destruct (MoveEnd_spec b cb Hr Hcb Hfit) as (b' & n' & Hok' & Hb' & HD').
  exists b', n'. split; [exact Hok'|].
  split; [|rewrite (buffered_data_length b' Hb'); exact HD'].
  unfold MoveEnd in Hok'. rewrite Hok in Hok'. cbn in Hok'. injection Hok' as <- <-.
  rewrite <- Hd.
  pose proof (invariant_DataSize b1 Hb1) as HD1.
  pose proof (invariant_DataSize b Hr) as HD0.
  destruct Hb1 as (H0 & H1 & H2 & H3 & H4 & a & Ha & Hlen).
  unfold is_DWORD in Hcb.
  unfold buffered_data. cbn [m_array m_begin]. rewrite Ha.
  unfold DataSize at 2. cbn [m_end m_begin].
  rewrite (dw_small (m_end b1 + cb)) by lia.
  rewrite (dw_small (m_end b1 + cb - m_begin b1)) by lia.
  rewrite take_take. f_equal. lia.
Qed.

(** The instance of [MoveEnd_extends_data] for the buffer of
    [reachable_example] and 12 bytes. *)
Lemma MoveEnd_extends_data_witness :
  let b := mk (Some [1; 2; 3; 4; 5; 6; 7; 8; 9; 10; 0; 0; 0; 0; 0; 0]) 16 16 3 10 in
  exists b' n, MoveEnd 12 b = Ok (b', n)
               /\ take (Z.to_nat (DataSize b)) (buffered_data b') = buffered_data b
               /\ Z.of_nat (length (buffered_data b')) = DataSize b + 12.
Proof.
  intros b. apply (MoveEnd_extends_data b 12).
  - exact reachable_example.
  - unfold is_DWORD. lia.
  - vm_compute. discriminate.
Defined.

End BufferData.

Section ReaderFacts.

Lemma read_n_app l tl :
  forall cb ate,
    read_n (length l) (mk_cursor (l ++ tl) (dw cb) (dw ate))
    = Ok (l, mk_cursor tl (dw (cb - Z.of_nat (length l)))
                          (dw (ate + Z.of_nat (length l)))).
Proof.
  induction l as [|x l IH]; intros cb ate.
  - cbn. rewrite Z.sub_0_r, Z.add_0_r. reflexivity.
  - cbn [length read_n app]. rewrite read_byte_cons. cbn [mbind outcome_bind].
    rewrite dw_dw_sub, dw_dw_add, IH. cbn [mbind outcome_bind].
    rewrite Nat2Z.inj_succ.
    replace (cb - 1 - Z.of_nat (length l)) with (cb - Z.succ (Z.of_nat (length l))) by lia.
    replace (ate + 1 + Z.of_nat (length l)) with (ate + Z.succ (Z.of_nat (length l))) by lia.
    reflexivity.
Qed.

Lemma read_n_short n l cb ate :
  (length l < n)%nat -> read_n n (mk_cursor l cb ate) = Undefined ReadPastEnd.
Proof.
  revert l cb ate. induction n as [|n IH]; intros l cb ate Hl; [lia|].
  destruct l as [|x l]; [reflexivity|].
  cbn [read_n]. rewrite read_byte_cons. cbn [mbind outcome_bind].
  rewrite IH by (cbn in Hl; lia). reflexivity.
Qed.

Lemma be_acc_ge a l : 0 <= a -> Forall is_BYTE l -> a <= be_acc a l.
Proof.
  intros Ha Hl. rewrite be_acc_value.
  pose proof (be_value_bound l Hl).
  assert (1 <= 256 ^ Z.of_nat (length l)) by (apply Z.pow_le_mono_r with (b := 0); lia).
  nia.
Qed.

Lemma accumulate_int64_spec l :
  Forall is_BYTE l ->
  forall r, 0 <= r -> be_acc r l < 2^63 -> accumulate_int64 r l = Ok (be_acc r l).
Proof.
  induction 1 as [|x l Hx Hl IH]; intros r Hr Hfit; [reflexivity|].
  cbn [accumulate_int64]. rewrite be_acc_cons in *.
  unfold is_BYTE in Hx.
  pose proof (be_acc_ge (r * 256 + x) l ltac:(lia) Hl) as Hge.
  unfold int64_result.
  destruct (Z.leb_spec (- 2^63) (r * 256 + x)); [|lia].
  destruct (Z.ltb_spec (r * 256 + x) (2^63)); [|lia].
  cbn [andb mbind outcome_bind]. apply IH; lia.
Qed.

Lemma be_acc_0 l : be_acc 0 l = be_value l.
Proof. rewrite be_acc_value. lia. Qed.

Lemma ReadFixedLengthNumber_unsigned l tl cb ate :
  Forall is_BYTE l -> (length l <= 8)%nat -> be_value l < 2^63 ->
  ReadFixedLengthNumber (mk_cursor (l ++ tl) (dw cb) (dw ate)) (Z.of_nat (length l)) false
  = Ok (be_value l, mk_cursor tl (dw (cb - Z.of_nat (length l)))
                                 (dw (ate + Z.of_nat (length l)))).
Proof.
  intros Hl Hlen Hfit. unfold ReadFixedLengthNumber.
  destruct (Z.gtb_spec (Z.of_nat (length l)) 8); [lia|].
  rewrite Nat2Z.id, read_n_app. cbn [mbind outcome_bind].
  unfold ParseFixedLengthNumber.
  rewrite (accumulate_int64_spec l Hl 0) by (rewrite ?be_acc_0; lia).
  cbn [mbind outcome_bind]. rewrite be_acc_0. reflexivity.
Qed.

(** The header of an element whose id is a VINT of [ik + 1] bytes and
    whose size is a VINT of [sk + 1] bytes. *)
Lemma ReadEbmlElementHeader_general fuel ik ib irest sk sb srest tl cb ate :
  (8 <= fuel)%nat ->
  leading_one_at ik ib -> Z.of_nat (length irest) = ik -> Forall is_BYTE irest ->
  leading_one_at sk sb -> Z.of_nat (length srest) = sk -> Forall is_BYTE srest ->
  ReadEbmlElementHeader fuel (mk_cursor (ib :: irest ++ sb :: srest ++ tl) cb ate)
  = Ok (mk_element_header_result
          (dw (be_value (vint_bytes true ik ib irest)))
          (if be_value (vint_bytes false sk sb srest) =? all_ones sk
           then MAXDWORD else dw (be_value (vint_bytes false sk sb srest)))
          (ik + sk + 2),
        mk_cursor tl (dw (cb - (ik + sk + 2))) (dw (ate + (ik + sk + 2)))).
Proof.
  intros Hf Hil Hin Hib Hsl Hsn Hsb.
  unfold ReadEbmlElementHeader.
  rewrite (ReadMatroskaNumber_unsigned fuel true ik ib irest (sb :: srest ++ tl) cb ate
             Hf Hil Hin Hib).
  cbn [mbind outcome_bind negb andb].
  rewrite (ReadMatroskaNumber_unsigned fuel false sk sb srest tl _ _ Hf Hsl Hsn Hsb).
  cbn [mbind outcome_bind negb andb mnr_id mnr_length].
  destruct Hil as [Hik _]. destruct Hsl as [Hsk _].
  replace (dw (ik + 1 + (sk + 1))) with (ik + sk + 2)
    by (rewrite dw_small; change (2 ^ 32) with 4294967296; lia).
  replace (dw (dw (cb - (ik + 1)) - (sk + 1))) with (dw (cb - (ik + sk + 2))) by dw_lia.
  replace (dw (dw (ate + (ik + 1)) + (sk + 1))) with (dw (ate + (ik + sk + 2))) by dw_lia.
  reflexivity.
Qed.

End ReaderFacts.

Section TreeFraming.

(** One pass through the loop body of the tree reader on [chunk]
    followed by anything: the child [e] comes out, exactly the bytes of
    [chunk] are consumed and [total_size] goes down by their number. *)
Let reads_child (chunk : list Z) (e : base_element) : Prop :=
  (0 < length chunk)%nat /\
  forall f tl cb ate total,
    (7 + length chunk <= f)%nat -> Z.of_nat (length chunk) <= total < 2^32 ->
    ReadEbmlElementTree2_body (fun c' size => ReadEbmlElementTree2_loop f c' size []) f
      (mk_cursor (chunk ++ tl) (dw cb) (dw ate)) total
    = Ok (TreeNext
            (mk_cursor tl (dw (cb - Z.of_nat (length chunk)))
                          (dw (ate + Z.of_nat (length chunk))))
            (total - Z.of_nat (length chunk)) e).

Lemma tree_loop_reads chunks children :
  Forall2 reads_child chunks children ->
  forall f acc tl cb ate,
    (8 + length (concat chunks) <= f)%nat ->
    Z.of_nat (length (concat chunks)) < 2^32 ->
    ReadEbmlElementTree2_loop f (mk_cursor (concat chunks ++ tl) (dw cb) (dw ate))
      (Z.of_nat (length (concat chunks))) acc
    = Ok (master_element None _VOID (acc ++ children),
          mk_cursor tl (dw (cb - Z.of_nat (length (concat chunks))))
                       (dw (ate + Z.of_nat (length (concat chunks))))).
Proof.
  induction 1 as [|chunk e chunks children [Hpos Hstep] _ IH];
    intros f acc tl cb ate Hf Htot.
  - destruct f as [|f]; [lia|]. cbn.
    rewrite Z.sub_0_r, Z.add_0_r, app_nil_r. reflexivity.
  - destruct f as [|f]; [lia|].
    cbn [concat] in *. rewrite length_app in *. rewrite Nat2Z.inj_add in *.
    cbn [ReadEbmlElementTree2_loop].
    destruct (Z.gtb_spec (Z.of_nat (length chunk) + Z.of_nat (length (concat chunks))) 0);
      [|lia].
    rewrite <- app_assoc.
    rewrite Hstep by lia. cbn [mbind outcome_bind].
    replace (Z.of_nat (length chunk) + Z.of_nat (length (concat chunks))
             - Z.of_nat (length chunk))
      with (Z.of_nat (length (concat chunks))) by lia.
    rewrite IH by lia.
    rewrite <- app_assoc. cbn [app].
    replace (cb - Z.of_nat (length chunk) - Z.of_nat (length (concat chunks)))
      with (cb - (Z.of_nat (length chunk) + Z.of_nat (length (concat chunks)))) by lia.
    replace (ate + Z.of_nat (length chunk) + Z.of_nat (length (concat chunks)))
      with (ate + (Z.of_nat (length chunk) + Z.of_nat (length (concat chunks)))) by lia.
    reflexivity.
Qed.

Lemma classify_MASTER id :
  fst (classify id) = MASTER -> tn_type (snd (classify id)) = MASTER.
Proof.
  unfold classify. destruct (element_types_names !! id) as [t|]; cbn.
  - intros H. exact H.
  - discriminate.
Qed.

Lemma classify_eta id : classify id = (fst (classify id), snd (classify id)).
Proof. destruct (classify id). reflexivity. Qed.

Lemma encodes_reads_child depth :
  forall chunk e, encodes depth chunk e -> reads_child chunk e.
Proof.
  induction depth as [|d IHd]; intros chunk e Henc.
  all: destruct Henc as (hdr & id & size & payload & -> & Hhdr & Hlen & Hbody).
  all: destruct Hhdr as (ik & ib & irest & sk & sb & srest & -> & Hil & Hin & Hib
                         & Hsl & Hsn & Hsb & Hid & Hidlt & Hsize & Hnot).
  all: split; [cbn; lia|].
  all: intros f tl cb ate total Hf Htot.
  all: assert (Hik : 0 <= ik <= 7) by (destruct Hil; assumption).
  all: assert (Hsk : 0 <= sk <= 7) by (destruct Hsl; assumption).
  all: assert (Hclen : Z.of_nat (length ((ib :: irest ++ sb :: srest) ++ payload))
                       = ik + sk + 2 + size)
         by (cbn [length app]; rewrite !length_app; cbn [length]; lia).
  all: rewrite Hclen in *.
  all: assert (Hsz : 0 <= size < 2^32 - 2) by lia.
  all: assert (Hidnn : 0 <= id).
  all: try (subst id; unfold vint_bytes; cbn [be_value];
            pose proof (be_value_bound irest Hib);
            destruct Hil as [_ [Hlo _]];
            assert (0 < 2 ^ (7 - ik)) by (apply Z.pow_pos_nonneg; lia);
            assert (0 <= 256 ^ Z.of_nat (length irest)) by (apply Z.pow_nonneg; lia);
            nia).
  all: unfold ReadEbmlElementTree2_body.
  all: replace (((ib :: irest ++ sb :: srest) ++ payload) ++ tl)
         with (ib :: irest ++ sb :: srest ++ (payload ++ tl))
         by (cbn [app]; rewrite <- !app_assoc; reflexivity).
  all: rewrite (ReadEbmlElementHeader_general f ik ib irest sk sb srest (payload ++ tl)
                  (dw cb) (dw ate) ltac:(lia) Hil Hin Hib Hsl Hsn Hsb).
  all: rewrite <- Hid, <- Hsize.
  all: destruct (Z.eqb_spec size (all_ones sk)) as [|_]; [contradiction|].
  all: rewrite (dw_small id), (dw_small size) by lia.
  all: cbn [mbind outcome_bind elemsize headsize ehr_id].
  all: change (dw (-1)) with 4294967295.
  all: destruct (Z.eqb_spec size 4294967295) as [|_]; [lia|].
  all: destruct (Z.gtb_spec size total) as [|_]; [lia|].
  all: rewrite (classify_eta id).
  all: replace (dw (total - dw (size + (ik + sk + 2)))) with (total - (ik + sk + 2 + size))
         by (rewrite (dw_small (size + (ik + sk + 2))) by lia; rewrite dw_small by lia; lia).
  all: rewrite !dw_dw_sub, !dw_dw_add.
  all: pose proof (classify_MASTER id) as Hmaster.
  all: generalize dependent (snd (classify id)); intros t Hbody Hmaster.
  all: destruct (fst (classify id)) eqn:Hty.
  all: lazymatch goal with
       | H : _ = MASTER |- _ => idtac
       | _ => destruct Hbody as (Hpos & Hpb & v & Hv & ->)
       end.
  all: try discriminate Hv.
  all: try contradiction.
  all: cbn [leaf_value] in *.
  all: unfold ReadSimpleElement2_with.
  all: try (destruct (Z.eqb_spec size 0) as [|_]; [lia|]).
  all: assert (Hcur : forall n, n = size ->
                 mk_cursor tl (dw (cb - (ik + sk + 2) - n)) (dw (ate + (ik + sk + 2) + n))
                 = mk_cursor tl (dw (cb - (ik + sk + 2 + size)))
                                (dw (ate + (ik + sk + 2 + size))))
         by (intros n ->; f_equal; f_equal; lia).
  all: try (lazymatch goal with
            | |- context [read_n (Z.to_nat _)] =>
                replace (Z.to_nat size) with (length payload) by lia;
                rewrite read_n_app; cbn [mbind outcome_bind];
                injection Hv as <-; rewrite (Hcur _ Hlen); reflexivity
            end).
  all: try (lazymatch goal with
            | |- context [Float32] =>
                destruct (Z.eqb_spec size 4);
                [ replace 4%nat with (length payload) by lia
                | destruct (Z.eqb_spec size 8);
                  [ replace 8%nat with (length payload) by lia | discriminate Hv ] ];
                rewrite read_n_app; cbn [mbind outcome_bind];
                injection Hv as <-; rewrite (Hcur _ Hlen);
                change (be_bits payload) with (be_acc 0 payload);
                rewrite be_acc_0; reflexivity
            end).
  all: try (lazymatch goal with
            | |- context [ReadFixedLengthNumber] =>
                destruct (Z.leb_spec size 8); [|discriminate Hv];
                destruct (Z.ltb_spec (be_value payload) (2^63)); [|discriminate Hv];
                injection Hv as <-;
                pose proof (ReadFixedLengthNumber_unsigned payload tl
                              (cb - (ik + sk + 2)) (ate + (ik + sk + 2))
                              Hpb ltac:(lia) ltac:(lia)) as HR;
                rewrite Hlen in HR; rewrite HR; cbn [mbind outcome_bind];
                rewrite (Hcur _ eq_refl); reflexivity
            end).
  destruct Hbody as (chunks & children & -> & Hch & ->).
  assert (Hrc : Forall2 reads_child chunks children)
    by (eapply Forall2_impl; [exact Hch | exact IHd]).
  pose proof (tree_loop_reads chunks children Hrc f [] tl
                (cb - (ik + sk + 2)) (ate + (ik + sk + 2))
                ltac:(lia) ltac:(lia)) as HT.
  rewrite Hlen in HT. rewrite HT.
  cbn [mbind outcome_bind app set_name set_type].
  rewrite (Hmaster eq_refl), (Hcur _ eq_refl). reflexivity.
Qed.

(** X5. Framing. A payload made of whole elements, nested to any
    depth, each with a header whose id is below 2^32 and whose size is
    known, every leaf non-empty and of a type the reader keeps (unsigned
    integer of at most 8 bytes below 2^63, string, float of 4 or 8 bytes,
    binary): the tree reader, given the payload's length as
    [total_size] and a budget of its length plus 8, returns one child
    for each element, in order and with the value the bytes stand for,
    and consumes exactly the payload, leaving what follows it unread. *)
Theorem ReadEbmlElementTree2_framing depth chunks children fuel tl cb ate :
  Forall2 (encodes depth) chunks children ->
  Z.of_nat (length (concat chunks)) < 2^32 ->
  (8 + length (concat chunks) <= fuel)%nat ->
  ReadEbmlElementTree2 fuel (mk_cursor (concat chunks ++ tl) (dw cb) (dw ate))
    (Z.of_nat (length (concat chunks)))
  = Ok (master_element None _VOID children,
        mk_cursor tl (dw (cb - Z.of_nat (length (concat chunks))))
                     (dw (ate + Z.of_nat (length (concat chunks))))).
Proof.
  intros Henc Htot Hf. unfold ReadEbmlElementTree2.
  apply (tree_loop_reads chunks children); [|exact Hf|exact Htot].
  eapply Forall2_impl; [exact Henc | apply encodes_reads_child].
Qed.


Lemma classify_Seek :
  classify 0x4DBB = (MASTER, mk_type_name MASTER (Some "Seek"%string)).
Proof. vm_compute. reflexivity. Qed.

Lemma classify_SeekID :
  classify 0x53AB = (BINARY, mk_type_name BINARY (Some "SeekID"%string)).
Proof. vm_compute. reflexivity. Qed.

Lemma classify_SeekPosition :
  classify 0x53AC = (_UNSIGNED, mk_type_name _UNSIGNED (Some "SeekPosition"%string)).
Proof. vm_compute. reflexivity. Qed.

Lemma classify_TimecodeScale :
  classify 0x2AD7B1 = (_UNSIGNED, mk_type_name _UNSIGNED (Some "TimecodeScale"%string)).
Proof. vm_compute. reflexivity. Qed.

(** The instance of [ReadEbmlElementTree2_framing] for a Seek master
    (SeekID 15 49 A9 66, SeekPosition 256) followed by a TimecodeScale
    of 1000000, with one more byte behind them. *)
Lemma ReadEbmlElementTree2_framing_witness :
  let chunks :=
    [ [0x4D; 0xBB; 0x8C; 0x53; 0xAB; 0x84; 0x15; 0x49; 0xA9; 0x66;
       0x53; 0xAC; 0x82; 0x01; 0x00];
      [0x2A; 0xD7; 0xB1; 0x83; 0x0F; 0x42; 0x40] ] in
  let children :=
    [ master_element (Some "Seek"%string) MASTER
        [ binary_element (Some "SeekID"%string) BINARY 4 [0x15; 0x49; 0xA9; 0x66];
          uint_element (Some "SeekPosition"%string) _UNSIGNED 256 ];
      uint_element (Some "TimecodeScale"%string) _UNSIGNED 1000000 ] in
  ReadEbmlElementTree2 30 (mk_cursor (concat chunks ++ [0xEC]) (dw 23) (dw 0))
    (Z.of_nat (length (concat chunks)))
  = Ok (master_element None _VOID children,
        mk_cursor [0xEC] (dw (23 - Z.of_nat (length (concat chunks))))
                         (dw (0 + Z.of_nat (length (concat chunks))))).
Proof.
  intros chunks children.
  assert (Hbyte : forall x, 0 <= x < 256 -> is_BYTE x) by (intros; assumption).
  apply (ReadEbmlElementTree2_framing 1 chunks children 30 [0xEC] 23 0).
  - constructor; [|constructor; [|constructor]].
    + exists [0x4D; 0xBB; 0x8C], 0x4DBB, 12,
        [0x53; 0xAB; 0x84; 0x15; 0x49; 0xA9; 0x66; 0x53; 0xAC; 0x82; 0x01; 0x00].
      split; [reflexivity|]. split.
      { exists 1, 0x4D, [0xBB], 0, 0x8C, [].
        unfold leading_one_at, all_ones. cbn.
        repeat split; try lia; repeat constructor; apply Hbyte; lia. }
      split; [reflexivity|].
      rewrite classify_Seek. cbn [fst snd tn_name].
      exists [ [0x53; 0xAB; 0x84; 0x15; 0x49; 0xA9; 0x66];
               [0x53; 0xAC; 0x82; 0x01; 0x00] ],
        [ binary_element (Some "SeekID"%string) BINARY 4 [0x15; 0x49; 0xA9; 0x66];
          uint_element (Some "SeekPosition"%string) _UNSIGNED 256 ].
      split; [reflexivity|]. split; [|reflexivity].
      constructor; [|constructor; [|constructor]].
      * exists [0x53; 0xAB; 0x84], 0x53AB, 4, [0x15; 0x49; 0xA9; 0x66].
        split; [reflexivity|]. split.
        { exists 1, 0x53, [0xAB], 0, 0x84, [].
          unfold leading_one_at, all_ones. cbn.
          repeat split; try lia; repeat constructor; apply Hbyte; lia. }
        split; [reflexivity|].
        rewrite classify_SeekID. cbn [fst snd tn_name].
        split; [lia|]. split; [repeat constructor; apply Hbyte; lia|].
        eexists. split; reflexivity.
      * exists [0x53; 0xAC; 0x82], 0x53AC, 2, [0x01; 0x00].
        split; [reflexivity|]. split.
        { exists 1, 0x53, [0xAC], 0, 0x82, [].
          unfold leading_one_at, all_ones. cbn.
          repeat split; try lia; repeat constructor; apply Hbyte; lia. }
        split; [reflexivity|].
        rewrite classify_SeekPosition. cbn [fst snd tn_name].
        split; [lia|]. split; [repeat constructor; apply Hbyte; lia|].
        eexists. split; reflexivity.
    + exists [0x2A; 0xD7; 0xB1; 0x83], 0x2AD7B1, 3, [0x0F; 0x42; 0x40].
      split; [reflexivity|]. split.
      { exists 2, 0x2A, [0xD7; 0xB1], 0, 0x83, [].
        unfold leading_one_at, all_ones. cbn.
        repeat split; try lia; repeat constructor; apply Hbyte; lia. }
      split; [reflexivity|].
      rewrite classify_TimecodeScale. cbn [fst snd tn_name].
      split; [lia|]. split; [repeat constructor; apply Hbyte; lia|].
      eexists. split; reflexivity.
  - cbn. lia.
  - cbn. lia.
Defined.

End TreeFraming.

Section TreeEdges.

(** X6. An empty child. Inside a master, an element whose id is not of
    type [MASTER] and whose size is zero (a legal EBML element, an empty
    string for one) makes [ReadSimpleElement2] return the null pointer,
    which the tree reader dereferences to store the name: the call has
    no defined result, whatever follows the header. *)
Theorem ReadEbmlElementTree2_empty_child fuel hdr id tl cb ate total :
  encodes_header hdr id 0 -> fst (classify id) <> MASTER ->
  (9 <= fuel)%nat -> 0 < total ->
  ReadEbmlElementTree2 fuel (mk_cursor (hdr ++ tl) cb ate) total = Undefined NullDeref.
Proof.
  intros Hhdr Hty Hf Htot.
  destruct Hhdr as (ik & ib & irest & sk & sb & srest & -> & Hil & Hin & Hib
                    & Hsl & Hsn & Hsb & Hid & Hidlt & Hsize & Hnot).
  unfold ReadEbmlElementTree2.
  destruct fuel as [|f]; [lia|]. cbn [ReadEbmlElementTree2_loop].
  destruct (Z.gtb_spec total 0); [|lia].
  unfold ReadEbmlElementTree2_body.
  replace ((ib :: irest ++ sb :: srest) ++ tl) with (ib :: irest ++ sb :: srest ++ tl)
    by (cbn [app]; rewrite <- !app_assoc; reflexivity).
  rewrite (ReadEbmlElementHeader_general f ik ib irest sk sb srest tl cb ate
             ltac:(lia) Hil Hin Hib Hsl Hsn Hsb).
  rewrite <- Hsize.
  destruct (Z.eqb_spec 0 (all_ones sk)) as [|_]; [contradiction|].
  cbn [mbind outcome_bind elemsize headsize ehr_id].
  change (dw 0 =? dw (-1)) with false. change (dw 0) with 0.
  destruct (Z.gtb_spec 0 total); [lia|].
  rewrite (classify_eta (dw (be_value (vint_bytes true ik ib irest)))).
  rewrite dw_small
    by (rewrite <- Hid; split; [|exact Hidlt];
        subst id; unfold vint_bytes; cbn [be_value];
        pose proof (be_value_bound irest Hib);
        destruct Hil as [? [Hlo _]];
        assert (0 < 2 ^ (7 - ik)) by (apply Z.pow_pos_nonneg; lia);
        assert (0 <= 256 ^ Z.of_nat (length irest)) by (apply Z.pow_nonneg; lia);
        nia).
  rewrite <- Hid.
  destruct (fst (classify id)); try contradiction; reflexivity.
Qed.

(** The instance of [ReadEbmlElementTree2_empty_child] for an empty
    MuxingApp (4D 80 80) inside a master with 3 bytes left. *)
Lemma ReadEbmlElementTree2_empty_child_witness :
  ReadEbmlElementTree2 9 (mk_cursor ([0x4D; 0x80; 0x80] ++ [1; 2; 3]) 6 0) 3
  = Undefined NullDeref.
Proof.
  apply (ReadEbmlElementTree2_empty_child 9 [0x4D; 0x80; 0x80] 0x4D80 [1; 2; 3] 6 0 3).
  - exists 1, 0x4D, [0x80], 0, 0x80, [].
    unfold leading_one_at, all_ones. cbn.
    repeat split; try lia; repeat constructor; unfold is_BYTE; lia.
  - vm_compute. discriminate.
  - lia.
  - lia.
Defined.

(** X7. A child of unknown size. Inside a master with [total_size]
    bytes left, a child whose size field is the all-ones pattern ends the
    reading: no child is added, and the read position is moved
    [total_size] bytes on from the end of the child's header, which is
    the length of that header beyond the end of the master. *)
Theorem ReadEbmlElementTree2_unknown_size_child
    fuel ik ib irest sk sb srest tl cb ate total :
  (9 <= fuel)%nat -> is_vint ik ib irest -> is_vint sk sb srest ->
  be_value (vint_bytes false sk sb srest) = all_ones sk -> 0 < total ->
  ReadEbmlElementTree2 fuel (mk_cursor (ib :: irest ++ sb :: srest ++ tl) cb ate) total
  = Ok (master_element None _VOID [],
        mk_cursor (drop (Z.to_nat total) tl)
                  (dw (cb - (ik + sk + 2) - total))
                  (dw (ate + (ik + sk + 2) + total))).
Proof.
  intros Hf (Hil & Hin & Hib) (Hsl & Hsn & Hsb) Hones Htot.
  unfold ReadEbmlElementTree2.
  destruct fuel as [|f]; [lia|]. cbn [ReadEbmlElementTree2_loop].
  destruct (Z.gtb_spec total 0); [|lia].
  unfold ReadEbmlElementTree2_body.
  rewrite (ReadEbmlElementHeader_general f ik ib irest sk sb srest tl cb ate
             ltac:(lia) Hil Hin Hib Hsl Hsn Hsb).
  rewrite Hones, Z.eqb_refl.
  cbn [mbind outcome_bind elemsize headsize ehr_id].
  change (MAXDWORD =? dw (-1)) with true. cbn match.
  unfold skip. cbn [data cbLen pAte].
  rewrite dw_dw_sub, dw_dw_add. reflexivity.
Qed.

(** The instance of [ReadEbmlElementTree2_unknown_size_child] for a
    Void of unknown size (EC FF) inside a master with 3 bytes left. *)
Lemma ReadEbmlElementTree2_unknown_size_child_witness :
  ReadEbmlElementTree2 9
    (mk_cursor (0xEC :: [] ++ 0xFF :: [] ++ [1; 2; 3; 4; 5; 6; 7; 8]) 10 0) 3
  = Ok (master_element None _VOID [],
        mk_cursor (drop (Z.to_nat 3) [1; 2; 3; 4; 5; 6; 7; 8])
                  (dw (10 - (0 + 0 + 2) - 3))
                  (dw (0 + (0 + 0 + 2) + 3))).
Proof.
  apply (ReadEbmlElementTree2_unknown_size_child 9 0 0xEC [] 0 0xFF []
           [1; 2; 3; 4; 5; 6; 7; 8] 10 0 3).
  - lia.
  - unfold is_vint, leading_one_at. cbn. repeat split; try lia. constructor.
  - unfold is_vint, leading_one_at. cbn. repeat split; try lia. constructor.
  - reflexivity.
  - lia.
Defined.

End TreeEdges.

Section ParseBytesFacts.

Lemma dw_to_int32 x : 0 <= x < 2^32 -> dw (to_int32 x) = x.
Proof. intros H. unfold dw, to_int32. Z.to_euclidean_division_equations. lia. Qed.

Lemma vint_value_nonneg unmodified k b rest :
  is_vint k b rest -> 0 <= be_value (vint_bytes unmodified k b rest).
Proof.
  intros ([Hk [Hlo Hhi]] & Hn & Hb). unfold vint_bytes. cbn [be_value].
  pose proof (be_value_bound rest Hb).
  assert (0 < 2 ^ (7 - k)) by (apply Z.pow_pos_nonneg; lia).
  assert (0 <= 256 ^ Z.of_nat (length rest)) by (apply Z.pow_nonneg; lia).
  destruct unmodified; nia.
Qed.

Lemma size_field_range k b rest : 0 <= size_field k b rest < 2^32.
Proof.
  unfold size_field, MAXDWORD.
  destruct (_ =? _); [lia | apply dw_range].
Qed.

(** X8. A zero byte where an element id is expected: the scan for the
    length marker of the id finds no bit and increments its [int] counter
    until that overflows. [ParseBytes] yields no result, whatever the
    rest of the window holds: a budget of up to 2^31 steps runs out, and
    any larger one reaches the overflow, which is undefined behaviour. *)
Theorem ParseBytes_zero_byte_overflows fuel p rest cb :
  4 <= cb ->
  (Z.of_nat fuel <= 2^31 -> ParseBytes fuel p (0 :: rest) cb = OutOfFuel)
  /\ (2^31 < Z.of_nat fuel ->
      ParseBytes fuel p (0 :: rest) cb = Undefined SignedOverflow).
Proof.
  intros Hcb. unfold ParseBytes.
  destruct (Z.ltb_spec cb 4); [lia|].
  destruct fuel as [|f]; cbn [ParseBytes_loop cbLen];
    (destruct (Z.gtb_spec cb 0); [|lia]).
  - change (2 ^ 31) with 2147483648. split; [reflexivity | lia].
  - unfold ParseBytes_body, ReadEbmlElementHeader.
    rewrite ReadMatroskaNumber_zero_byte.
    destruct (Z.ltb_spec (Z.of_nat f) (2 ^ 31));
      cbn [mbind outcome_bind]; split; intros; try reflexivity; lia.
Qed.

(** The instance of [ParseBytes_zero_byte_overflows] for a window of
    four zero bytes and a budget of 1000 steps. *)
Lemma ParseBytes_zero_byte_overflows_witness :
  (Z.of_nat 1000 <= 2^31 -> ParseBytes 1000 Parser_new (0 :: [0; 0; 0]) 4 = OutOfFuel)
  /\ (2^31 < Z.of_nat 1000 ->
      ParseBytes 1000 Parser_new (0 :: [0; 0; 0]) 4 = Undefined SignedOverflow).
Proof. apply (ParseBytes_zero_byte_overflows 1000 Parser_new [0; 0; 0] 4). lia. Defined.

(** X9. An id the table does not hold, at the top level: the lookup
    result is used without a test against [end()], so the call has no
    defined result. (Inside a master the tree reader tests and keeps
    such a child as binary.) *)
Theorem ParseBytes_unknown_id fuel p ik ib irest sk sb srest tl cb :
  (9 <= fuel)%nat -> is_vint ik ib irest -> is_vint sk sb srest ->
  element_types_names !! dw (be_value (vint_bytes true ik ib irest)) = None ->
  4 <= cb ->
  ParseBytes fuel p (ib :: irest ++ sb :: srest ++ tl) cb = Undefined MapEnd.
Proof.
  intros Hf (Hil & Hin & Hib) (Hsl & Hsn & Hsb) Hnone Hcb. unfold ParseBytes.
  destruct (Z.ltb_spec cb 4); [lia|].
  destruct fuel as [|f]; [lia|]. cbn [ParseBytes_loop cbLen].
  destruct (Z.gtb_spec cb 0); [|lia].
  unfold ParseBytes_body.
  rewrite (ReadEbmlElementHeader_general f ik ib irest sk sb srest tl cb 0
             ltac:(lia) Hil Hin Hib Hsl Hsn Hsb).
  cbn [mbind outcome_bind ehr_id]. unfold lookup_type_name. rewrite Hnone.
  reflexivity.
Qed.

(** The instance of [ParseBytes_unknown_id] for the id 81, which the
    table does not hold, with size 1. *)
Lemma ParseBytes_unknown_id_witness :
  ParseBytes 9 Parser_new (0x81 :: [] ++ 0x81 :: [] ++ [7; 0; 0]) 5 = Undefined MapEnd.
Proof.
  apply (ParseBytes_unknown_id 9 Parser_new 0 0x81 [] 0 0x81 [] [7; 0; 0] 5).
  - lia.
  - unfold is_vint, leading_one_at. cbn. repeat split; try lia. constructor.
  - unfold is_vint, leading_one_at. cbn. repeat split; try lia. constructor.
  - vm_compute. reflexivity.
  - lia.
Defined.

(** X10. Not enough data. An element at the start of the window whose
    type is neither of the two container types that are walked into
    (Segment, Cluster), and whose size field exceeds what the window
    holds behind the header (the all-ones pattern always does): the call
    returns false, reports no byte consumed, the header included, and
    leaves the parser as it was. *)
Theorem ParseBytes_needs_more_data fuel p ik ib irest sk sb srest tl cb t name :
  (9 <= fuel)%nat -> is_vint ik ib irest -> is_vint sk sb srest ->
  element_types_names !! dw (be_value (vint_bytes true ik ib irest)) = Some t ->
  tn_name t = Some name -> tn_type t <> JUST_GO_ON ->
  4 <= cb < 2^32 -> ik + sk + 2 <= cb ->
  cb - (ik + sk + 2) < size_field sk sb srest ->
  ParseBytes fuel p (ib :: irest ++ sb :: srest ++ tl) cb = Ok (false, 0, p).
Proof.
  intros Hf (Hil & Hin & Hib) (Hsl & Hsn & Hsb) Ht Hname Hty Hcb Hhdr Hbig.
  assert (Hik : 0 <= ik <= 7) by (destruct Hil; assumption).
  assert (Hsk : 0 <= sk <= 7) by (destruct Hsl; assumption).
  pose proof (size_field_range sk sb srest) as Hsf.
  change (2 ^ 32) with 4294967296 in *.
  unfold ParseBytes.
  destruct (Z.ltb_spec cb 4); [lia|].
  destruct fuel as [|f]; [lia|]. cbn [ParseBytes_loop cbLen].
  destruct (Z.gtb_spec cb 0); [|lia].
  unfold ParseBytes_body.
  rewrite (ReadEbmlElementHeader_general f ik ib irest sk sb srest tl cb 0
             ltac:(lia) Hil Hin Hib Hsl Hsn Hsb).
  fold (size_field sk sb srest).
  cbn [mbind outcome_bind ehr_id elemsize headsize]. unfold lookup_type_name.
  rewrite Ht. cbn [mbind outcome_bind]. rewrite Hname.
  rewrite (dw_to_int32 (size_field sk sb srest)) by (change (2 ^ 32) with 4294967296; lia).
  rewrite (dw_to_int32 (ik + sk + 2)) by (change (2 ^ 32) with 4294967296; lia).
  cbn [cbLen]. rewrite (dw_small (cb - (ik + sk + 2))) by (change (2 ^ 32) with 4294967296; lia).
  destruct (Z.gtb_spec (size_field sk sb srest) (cb - (ik + sk + 2))); [|lia].
  assert (Hate : dw (dw (0 + (ik + sk + 2)) - (ik + sk + 2)) = 0)
    by (rewrite dw_dw_sub; replace (0 + (ik + sk + 2) - (ik + sk + 2)) with 0 by lia;
        reflexivity).
  destruct (tn_type t); try contradiction;
    cbn [mbind outcome_bind rewind_counts pAte]; rewrite Hate; reflexivity.
Qed.

(** The instance of [ParseBytes_needs_more_data] for an Info element
    (15 49 A9 66) declaring 16 bytes in a window that holds 8 of them. *)
Lemma ParseBytes_needs_more_data_witness :
  ParseBytes 9 Parser_new
    (0x15 :: [0x49; 0xA9; 0x66] ++ 0x90 :: [] ++ [1; 2; 3; 4; 5; 6; 7; 8]) 13
  = Ok (false, 0, Parser_new).
Proof.
  apply (ParseBytes_needs_more_data 9 Parser_new 3 0x15 [0x49; 0xA9; 0x66] 0 0x90 []
           [1; 2; 3; 4; 5; 6; 7; 8] 13 (mk_type_name MASTER (Some "Info"%string))
           "Info"%string).
  - lia.
  - unfold is_vint, leading_one_at. cbn.
    repeat split; try lia; repeat constructor; unfold is_BYTE; lia.
  - unfold is_vint, leading_one_at. cbn. repeat split; try lia. constructor.
  - vm_compute. reflexivity.
  - reflexivity.
  - discriminate.
  - lia.
  - lia.
  - vm_compute. reflexivity.
Defined.

End ParseBytesFacts.

(** Linear arithmetic on [nat] with remainders modulo 30. *)
Ltac mod30_lia :=
  repeat match goal with
    | |- context [(?a mod 30)%nat] =>
        pose proof (Nat.div_mod_eq a 30);
        pose proof (Nat.mod_upper_bound a 30 ltac:(discriminate));
        generalize dependent ((a mod 30)%nat); generalize dependent ((a / 30)%nat);
        intros
    | H : context [(?a mod 30)%nat] |- _ =>
        pose proof (Nat.div_mod_eq a 30);
        pose proof (Nat.mod_upper_bound a 30 ltac:(discriminate));
        generalize dependent ((a mod 30)%nat); generalize dependent ((a / 30)%nat);
        intros
    end;
  lia.

Section RingFacts.

Lemma ring_iter_ok n v p : ring_ok p -> ring_ok (Nat.iter n (ring_stored v) p).
Proof.
  intros Hp. induction n as [|n IH]; [exact Hp|].
  cbn [Nat.iter]. apply ring_stored_ok. exact IH.
Qed.

Lemma ring_store_n_iter n v :
  forall p, ring_ok p -> ring_store_n n v p = Ok (Nat.iter n (ring_stored v) p).
Proof.
  induction n as [|n IH]; intros p Hp; [reflexivity|].
  cbn [ring_store_n]. rewrite ring_store_ok by exact Hp. cbn [mbind outcome_bind].
  rewrite IH by (apply ring_stored_ok; exact Hp).
  rewrite Nat.iter_succ_r. reflexivity.
Qed.

Lemma ring_stored_fields v p :
  pCircWrite (ring_stored v p) = ring_next (pCircWrite p)
  /\ m_frameCount (ring_stored v p) = to_byte (m_frameCount p + 1)
  /\ m_circularBuffer (ring_stored v p) = <[pCircWrite p := v]> (m_circularBuffer p).
Proof. repeat split. Qed.

Lemma ring_iter_fields n v p :
  ring_ok p -> (n <= 30)%nat ->
  let p' := Nat.iter n (ring_stored v) p in
  pCircWrite p' = ((pCircWrite p + n) mod 30)%nat
  /\ to_byte (m_frameCount p') = to_byte (m_frameCount p + Z.of_nat n)
  /\ forall j, (j < 30)%nat ->
       m_circularBuffer p' !! j
       = if ((j + 30 - pCircWrite p) mod 30 <? n)%nat then Some v
         else m_circularBuffer p !! j.
Proof.
  intros Hp. induction n as [|n IH]; intros Hn.
  - cbn [Nat.iter]. cbn zeta. destruct Hp as [Hl Hw]. split; [|split].
    + rewrite Nat.add_0_r, Nat.mod_small by lia. reflexivity.
    + rewrite Z.add_0_r. reflexivity.
    + intros j Hj. reflexivity.
  - specialize (IH ltac:(lia)). cbn zeta in IH. destruct IH as (IHw & IHc & IHb).
    pose proof (ring_iter_ok n v p Hp) as [Hl' Hw'].
    cbn zeta.
    change (Nat.iter (S n) (ring_stored v) p)
      with (ring_stored v (Nat.iter n (ring_stored v) p)).
    destruct (ring_stored_fields v (Nat.iter n (ring_stored v) p)) as (-> & -> & ->).
    rewrite IHw. destruct Hp as [Hl Hw]. split; [|split].
    + unfold ring_next.
      clear IHb IHc IHw.
      destruct (Nat.eqb_spec (S ((pCircWrite p + n) mod 30)%nat) 30) as [He|He]; mod30_lia.
    + clear IHb IHw. unfold to_byte in *. rewrite Nat2Z.inj_succ.
      Z.to_euclidean_division_equations. lia.
    + intros j Hj. specialize (IHb j Hj).
      destruct (Nat.eq_dec j ((pCircWrite p + n) mod 30)%nat) as [->|Hne].
      * rewrite list_lookup_insert_eq by lia.
        destruct (Nat.ltb_spec (((pCircWrite p + n) mod 30 + 30 - pCircWrite p) mod 30)%nat (S n));
          [reflexivity|]. exfalso. clear IHb IHc IHw. mod30_lia.
      * rewrite list_lookup_insert_ne by lia. rewrite IHb.
        destruct (Nat.ltb_spec ((j + 30 - pCircWrite p) mod 30)%nat n);
          destruct (Nat.ltb_spec ((j + 30 - pCircWrite p) mod 30)%nat (S n));
          try reflexivity; exfalso; clear IHb IHc IHw; mod30_lia.
Qed.

(** X11. The ring of frame sizes. Storing [n] frame sizes, [n] up to
    the 30 slots, always succeeds: the write pointer moves [n] slots on
    and wraps at 30, the frame counter goes up by [n] modulo 256, and the
    [n] slots from the old write pointer on hold the new value whatever
    they held, read or not; the other slots keep theirs. *)
Theorem ring_store_n_wraps (n : nat) (v : Z) (p : Parser) :
  ring_ok p -> (n <= 30)%nat ->
  exists p',
    ring_store_n n v p = Ok p' /\ ring_ok p'
    /\ pCircWrite p' = ((pCircWrite p + n) mod 30)%nat
    /\ to_byte (m_frameCount p') = to_byte (m_frameCount p + Z.of_nat n)
    /\ forall j, (j < 30)%nat ->
         m_circularBuffer p' !! j
         = if ((j + 30 - pCircWrite p) mod 30 <? n)%nat then Some v
           else m_circularBuffer p !! j.
Proof.
  intros Hp Hn. exists (Nat.iter n (ring_stored v) p).
  split; [apply ring_store_n_iter; exact Hp|].
  split; [apply ring_iter_ok; exact Hp|].
  exact (ring_iter_fields n v p Hp Hn).
Qed.

(** The instance of [ring_store_n_wraps] for 3 frames of 100 bytes
    stored into a new parser's ring. *)
Lemma ring_store_n_wraps_witness :
  exists p',
    ring_store_n 3 100 Parser_new = Ok p' /\ ring_ok p'
    /\ pCircWrite p' = ((pCircWrite Parser_new + 3) mod 30)%nat
    /\ to_byte (m_frameCount p') = to_byte (m_frameCount Parser_new + Z.of_nat 3)
    /\ forall j, (j < 30)%nat ->
         m_circularBuffer p' !! j
         = if ((j + 30 - pCircWrite Parser_new) mod 30 <? 3)%nat then Some 100
           else m_circularBuffer Parser_new !! j.
Proof.
  apply (ring_store_n_wraps 3 100 Parser_new).
  - split; [reflexivity | cbn; lia].
  - lia.
Defined.

End RingFacts.

Section LacingFacts.

Variables (fuel : nat) (p : Parser) (k sb : Z) (srest : list Z) (cb : Z).
Hypothesis fuel_enough : (9 <= fuel)%nat.
Hypothesis size_vint : is_vint k sb srest.
Hypothesis size_fits : be_value (vint_bytes false k sb srest) < 2^31.
Hypothesis size_known : be_value (vint_bytes false k sb srest) <> all_ones k.
Hypothesis whole : k + 2 + be_value (vint_bytes false k sb srest) <= cb < 2^32.
Hypothesis window_min : 4 <= cb.

Let size : Z := be_value (vint_bytes false k sb srest).

Lemma ParseBytes_SimpleBlock_payload payload :
  ParseBytes fuel p (SimpleBlock_bytes sb srest payload) cb
  = '(p1, c1) ← ParseSimpleBlock size p (mk_cursor payload (cb - (k + 2)) (k + 2));
    Ok (true, pAte c1, p1).
Proof.
  destruct size_vint as (Hl & Hn & Hb).
  pose proof (vint_value_nonneg false k sb srest size_vint) as Hnn.
  assert (Hk : 0 <= k <= 7) by (destruct Hl; assumption).
  apply ParseBytes_SimpleBlock; try assumption; try lia.
Qed.

(** X12. Xiph lacing. A SimpleBlock that lies whole in the window and
    whose flags byte carries lacing code 01 makes [ParseBytes] throw the
    exception -4, [xiph lacing not supported], whatever the state of the
    parser. *)
Theorem SimpleBlock_xiph_lacing_throws b0 t0 t1 f n rest :
  Z.land f 0x06 = 0x02 ->
  ParseBytes fuel p (SimpleBlock_bytes sb srest (b0 :: t0 :: t1 :: f :: n :: rest)) cb
  = Throw (PlatformException (-4) "xiph lacing not supported").
Proof.
  intros Hlace. rewrite ParseBytes_SimpleBlock_payload.
  unfold ParseSimpleBlock. run_reads. rewrite Hlace. cbn [Z.eqb]. run_reads.
  reflexivity.
Qed.

(** X13. Fixed-size lacing. A SimpleBlock that lies whole in the
    window, with lacing code 10 and lace count byte [n]: for [n] = 255
    the frame count wraps to 0 and the frame size is a division by zero;
    for [n] from 30 to 254 the call throws -222, [circular buffer too
    small], before it stores anything; for [n] below 30 it returns true
    having consumed the element header and 5 bytes, stored [n + 1] times
    the quotient of [size - 5] by [n + 1] and set the parser's stream,
    key-frame flag and time stamp from the block header. *)
Theorem SimpleBlock_fixed_lacing b0 t0 t1 f n rest :
  ring_ok p -> is_BYTE t0 -> is_BYTE t1 -> is_BYTE n -> Z.land f 0x06 = 0x04 ->
  let block := SimpleBlock_bytes sb srest (b0 :: t0 :: t1 :: f :: n :: rest) in
  let p0 := set_m_currentTimeStamp (qw (m_currentBlockTimeCode p + signed16 t0 t1))
              (set_m_isCurrentKeyFrame (Z.land f 0x80 =? 0x80)
                 (set_m_currentStream (b0 - 0x80) p)) in
  (n = 255 -> ParseBytes fuel p block cb = Undefined DivideByZero)
  /\ (30 <= n < 255 ->
      ParseBytes fuel p block cb
      = Throw (PlatformException (-222) "circular buffer too small"))
  /\ (n < 30 ->
      ParseBytes fuel p block cb
      = Ok (true, k + 7,
            set_m_framesReady true
              (Nat.iter (Z.to_nat (n + 1)) (ring_stored (Z.quot (size - 5) (n + 1))) p0))).
Proof.
  intros Hring Ht0 Ht1 Hn Hlace block p0. subst block.
  pose proof (vint_value_nonneg false k sb srest size_vint) as Hnn. fold size in Hnn.
  assert (Hk : 0 <= k <= 7) by (destruct size_vint as ([? _] & _); assumption).
  change (2 ^ 31) with 2147483648 in *.
  rewrite ParseBytes_SimpleBlock_payload.
  unfold ParseSimpleBlock. run_reads. rewrite Hlace. cbn [Z.eqb]. run_reads.
  change (Pos.eqb 4 2) with false. change (Pos.eqb 4 6) with false.
  change (Pos.eqb 4 4) with true. cbn match.
  rewrite (int_result_small (size - 5)) by (change (2 ^ 31) with 2147483648; fold size; lia).
  cbn [mbind outcome_bind].
  assert (Htc : (if negb (Z.land t0 128 =? 0)
                 then (0 * 256 + t0) * 256 + t1 - 2 ^ (8 * 2)
                 else (0 * 256 + t0) * 256 + t1) = signed16 t0 t1).
  { rewrite (sign_bit_of_byte t0 Ht0). unfold signed16, is_BYTE in *.
    change (2 ^ (8 * 2)) with 65536. change (2 ^ 15) with 32768.
    change (2 ^ 16) with 65536.
    destruct (Z.ltb_spec t0 128); destruct (Z.ltb_spec (t0 * 256 + t1) 32768);
      cbn [negb]; lia. }
  cbn [m_currentBlockTimeCode set_m_isCurrentKeyFrame set_m_currentStream].
  rewrite Htc. fold p0.
  unfold is_BYTE in Hn. unfold m_cirBufferLength.
  assert (Hate : dw (dw (dw (dw (dw (k + 2 + 1) + 1) + 1) + 1) + 1) = k + 7)
    by (clear - Hk; dw_lia).
  rewrite Hate.
  split; [|split].
  - intros ->. reflexivity.
  - intros Hbig.
    assert (Hb : to_byte (n + 1) = n + 1) by (unfold to_byte; apply Z.mod_small; lia).
    rewrite Hb.
    destruct (Z.eqb_spec (n + 1) 0); [lia|].
    destruct (Z.gtb_spec (n + 1) 30); [reflexivity|lia].
  - intros Hsmall.
    assert (Hb : to_byte (n + 1) = n + 1) by (unfold to_byte; apply Z.mod_small; lia).
    rewrite Hb.
    destruct (Z.eqb_spec (n + 1) 0); [lia|].
    destruct (Z.gtb_spec (n + 1) 30); [lia|].
    rewrite ring_store_n_iter by exact Hring.
    reflexivity.
Qed.

End LacingFacts.

(** The instance of [SimpleBlock_xiph_lacing_throws] for the block
    A3 8A 81 00 00 02 01 followed by five bytes. *)
Lemma SimpleBlock_xiph_lacing_throws_witness :
  ParseBytes 9 Parser_new
    (SimpleBlock_bytes 0x8A [] (0x81 :: 0 :: 0 :: 0x02 :: 0x01 :: [1; 2; 3; 4; 5])) 12
  = Throw (PlatformException (-4) "xiph lacing not supported").
Proof.
  apply (SimpleBlock_xiph_lacing_throws 9 Parser_new 0 0x8A [] 12).
  - lia.
  - unfold is_vint, leading_one_at. cbn. repeat split; try lia. constructor.
  - cbn. lia.
  - cbn. unfold all_ones. cbn. lia.
  - cbn. lia.
  - lia.
  - reflexivity.
Defined.

(** The instance of [SimpleBlock_fixed_lacing] for the block
    A3 8D 81 00 00 04 01 followed by two frames of four bytes. *)
Lemma SimpleBlock_fixed_lacing_witness :
  let block :=
    SimpleBlock_bytes 0x8D [] (0x81 :: 0 :: 0 :: 0x04 :: 0x01 :: [1; 2; 3; 4; 5; 6; 7; 8]) in
  let p0 := set_m_currentTimeStamp (qw (m_currentBlockTimeCode Parser_new + signed16 0 0))
              (set_m_isCurrentKeyFrame (Z.land 0x04 0x80 =? 0x80)
                 (set_m_currentStream (0x81 - 0x80) Parser_new)) in
  (0x01 = 255 -> ParseBytes 9 Parser_new block 15 = Undefined DivideByZero)
  /\ (30 <= 0x01 < 255 ->
      ParseBytes 9 Parser_new block 15
      = Throw (PlatformException (-222) "circular buffer too small"))
  /\ (0x01 < 30 ->
      ParseBytes 9 Parser_new block 15
      = Ok (true, 0 + 7,
            set_m_framesReady true
              (Nat.iter (Z.to_nat (0x01 + 1))
                 (ring_stored (Z.quot (be_value (vint_bytes false 0 0x8D []) - 5) (0x01 + 1)))
                 p0))).
Proof.
  apply (SimpleBlock_fixed_lacing 9 Parser_new 0 0x8D [] 15).
  - lia.
  - unfold is_vint, leading_one_at. cbn. repeat split; try lia. constructor.
  - cbn. lia.
  - cbn. unfold all_ones. cbn. lia.
  - cbn. lia.
  - lia.
  - split; [reflexivity | cbn; lia].
  - unfold is_BYTE. lia.
  - unfold is_BYTE. lia.
  - unfold is_BYTE. lia.
  - reflexivity.
Defined.

Section ContainerFacts.

Lemma lookup_Segment :
  lookup_type_name 0x18538067 = Ok (mk_type_name JUST_GO_ON (Some "Segment"%string)).
Proof. vm_compute. reflexivity. Qed.

Lemma lookup_Cluster :
  lookup_type_name 0x1F43B675 = Ok (mk_type_name JUST_GO_ON (Some "Cluster"%string)).
Proof. vm_compute. reflexivity. Qed.

(** X14. The Segment header. Wherever in the window it starts, the
    header of a Segment is stepped over without a look at its size
    field, known or not, and [SegmentPosition] becomes the count of
    bytes consumed in this call up to the end of that header; the loop
    goes on with the first byte behind it. *)
Theorem ParseBytes_Segment_position f p sk sb srest tl cb ate me :
  (8 <= f)%nat -> is_vint sk sb srest -> 0 < cb ->
  ParseBytes_loop (S f) p
    (mk_cursor (0x18 :: [0x53; 0x80; 0x67] ++ sb :: srest ++ tl) cb ate) me
  = ParseBytes_loop f
      (set_m_masterData
         (set_SegmentPosition (dw (ate + (sk + 5))) (m_masterData p)) p)
      (mk_cursor tl (dw (cb - (sk + 5))) (dw (ate + (sk + 5)))) me.
Proof.
  intros Hf (Hsl & Hsn & Hsb) Hcb.
  cbn [ParseBytes_loop cbLen].
  destruct (Z.gtb_spec cb 0); [|lia].
  unfold ParseBytes_body.
  rewrite (ReadEbmlElementHeader_general f 3 0x18 [0x53; 0x80; 0x67] sk sb srest tl cb ate
             Hf ltac:(unfold leading_one_at; cbn; lia) eq_refl
             ltac:(repeat constructor; unfold is_BYTE; lia) Hsl Hsn Hsb).
  cbn [mbind outcome_bind ehr_id].
  change (dw (be_value (vint_bytes true 3 24 [83; 128; 103]))) with 0x18538067.
  rewrite lookup_Segment.
  cbn [mbind outcome_bind tn_name tn_type].
  replace (3 + sk + 2) with (sk + 5) by lia.
  reflexivity.
Qed.

(** The instance of [ParseBytes_Segment_position] for a Segment of
    unknown size (size field 01 FF FF FF FF FF FF FF) that follows 40
    bytes already consumed. *)
Lemma ParseBytes_Segment_position_witness :
  ParseBytes_loop (S 8) Parser_new
    (mk_cursor (0x18 :: [0x53; 0x80; 0x67]
                ++ 0x01 :: [0xFF; 0xFF; 0xFF; 0xFF; 0xFF; 0xFF; 0xFF] ++ [0x11; 0x4D])
       14 40) None
  = ParseBytes_loop 8
      (set_m_masterData
         (set_SegmentPosition (dw (40 + (7 + 5))) (m_masterData Parser_new)) Parser_new)
      (mk_cursor [0x11; 0x4D] (dw (14 - (7 + 5))) (dw (40 + (7 + 5)))) None.
Proof.
  apply (ParseBytes_Segment_position 8 Parser_new 7 0x01
           [0xFF; 0xFF; 0xFF; 0xFF; 0xFF; 0xFF; 0xFF] [0x11; 0x4D] 14 40 None).
  - lia.
  - unfold is_vint, leading_one_at. cbn.
    repeat split; try lia; repeat constructor; unfold is_BYTE; lia.
  - lia.
Defined.

(** X15. The Cluster header. While the master data is not marked as
    read, the header of a Cluster makes the parser look through the
    SeekHead: if an entry names Info, Tracks or Cues and that part is
    still missing, the call returns false with the jump flag set and the
    jump target at the entry's position plus [SegmentPosition]; if no
    entry does, the master data is marked as read and the loop goes on
    behind the header. Once it is marked, a Cluster header is just
    stepped over. The size field is not looked at. *)
Theorem ParseBytes_Cluster_header f p sk sb srest tl cb ate me :
  (8 <= f)%nat -> is_vint sk sb srest -> 0 < cb ->
  let bytes := 0x1F :: [0x43; 0xB6; 0x75] ++ sb :: srest ++ tl in
  let c1 := mk_cursor tl (dw (cb - (sk + 5))) (dw (ate + (sk + 5))) in
  let md := m_masterData p in
  (m_isFinishedParsingMaster p = true ->
   ParseBytes_loop (S f) p (mk_cursor bytes cb ate) me = ParseBytes_loop f p c1 me)
  /\ (m_isFinishedParsingMaster p = false ->
      first_missing md (SeekHead md) = Ok None ->
      ParseBytes_loop (S f) p (mk_cursor bytes cb ate) me
      = ParseBytes_loop f (set_m_isFinishedParsingMaster true p) c1 me)
  /\ (m_isFinishedParsingMaster p = false ->
      forall sk', first_missing md (SeekHead md) = Ok (Some sk') ->
      ParseBytes_loop (S f) p (mk_cursor bytes cb ate) me
      = Ok (false,
            set_m_jumpFlag true
              (set_m_jumpTo (qw (SeekPosition sk' + SegmentPosition md)) p),
            c1)).
Proof.
  intros Hf (Hsl & Hsn & Hsb) Hcb bytes c1 md. subst bytes c1 md.
  assert (Hbody : forall me',
    ParseBytes_body f p
      (mk_cursor (0x1F :: [0x43; 0xB6; 0x75] ++ sb :: srest ++ tl) cb ate) me'
    = if negb (m_isFinishedParsingMaster p) then
        missing ← first_missing (m_masterData p) (SeekHead (m_masterData p));
        match missing with
        | Some sk' =>
            Ok (StepReturn false
                  (set_m_jumpFlag true
                     (set_m_jumpTo
                        (qw (SeekPosition sk' + SegmentPosition (m_masterData p))) p))
                  (mk_cursor tl (dw (cb - (sk + 5))) (dw (ate + (sk + 5)))))
        | None =>
            Ok (StepNext (set_m_isFinishedParsingMaster true p)
                  (mk_cursor tl (dw (cb - (sk + 5))) (dw (ate + (sk + 5)))) me')
        end
      else Ok (StepNext p (mk_cursor tl (dw (cb - (sk + 5))) (dw (ate + (sk + 5)))) me')).
  { intros me'. unfold ParseBytes_body.
    rewrite (ReadEbmlElementHeader_general f 3 0x1F [0x43; 0xB6; 0x75] sk sb srest tl cb ate
               Hf ltac:(unfold leading_one_at; cbn; lia) eq_refl
               ltac:(repeat constructor; unfold is_BYTE; lia) Hsl Hsn Hsb).
    cbn [mbind outcome_bind ehr_id].
    change (dw (be_value (vint_bytes true 3 31 [67; 182; 117]))) with 0x1F43B675.
    rewrite lookup_Cluster.
    cbn [mbind outcome_bind tn_name tn_type].
    replace (3 + sk + 2) with (sk + 5) by lia.
    change (String.eqb "Cluster" "Cluster") with true. cbn [andb].
    destruct (m_isFinishedParsingMaster p); cbn [negb]; [reflexivity|].
    destruct (first_missing (m_masterData p) (SeekHead (m_masterData p)))
      as [[sk'|]| | |]; reflexivity. }
  cbn [ParseBytes_loop cbLen].
  destruct (Z.gtb_spec cb 0); [|lia].
  rewrite Hbody.
  split; [|split].
  - intros ->. reflexivity.
  - intros -> ->. reflexivity.
  - intros -> sk' ->. reflexivity.
Qed.

(** The instance of [ParseBytes_Cluster_header] for a parser that has
    read a SeekHead naming Info at 100 and Cues at 9000, with the Segment
    data starting at 52, and no Info yet. *)
Lemma ParseBytes_Cluster_header_witness :
  let p := set_m_masterData
             (mk_MKVMasterData 52
                [mk_Seek (Some "Info"%string) 100; mk_Seek (Some "Cues"%string) 9000]
                None [] 0 []) Parser_new in
  let bytes := 0x1F :: [0x43; 0xB6; 0x75] ++ 0x84 :: [] ++ [0xE7; 0x81; 0x00; 0xA3] in
  let c1 := mk_cursor [0xE7; 0x81; 0x00; 0xA3] (dw (9 - (0 + 5))) (dw (0 + (0 + 5))) in
  let md := m_masterData p in
  (m_isFinishedParsingMaster p = true ->
   ParseBytes_loop (S 8) p (mk_cursor bytes 9 0) None = ParseBytes_loop 8 p c1 None)
  /\ (m_isFinishedParsingMaster p = false ->
      first_missing md (SeekHead md) = Ok None ->
      ParseBytes_loop (S 8) p (mk_cursor bytes 9 0) None
      = ParseBytes_loop 8 (set_m_isFinishedParsingMaster true p) c1 None)
  /\ (m_isFinishedParsingMaster p = false ->
      forall sk', first_missing md (SeekHead md) = Ok (Some sk') ->
      ParseBytes_loop (S 8) p (mk_cursor bytes 9 0) None
      = Ok (false,
            set_m_jumpFlag true
              (set_m_jumpTo (qw (SeekPosition sk' + SegmentPosition md)) p),
            c1)).
Proof.
  intros p.
  apply (ParseBytes_Cluster_header 8 p 0 0x84 [] [0xE7; 0x81; 0x00; 0xA3] 9 0 None).
  - lia.
  - unfold is_vint, leading_one_at. cbn. repeat split; try lia. constructor.
  - lia.
Defined.

End ContainerFacts.

Section SeekFacts.

Lemma FindSeekPoint_scan_count target cues :
  forall lastOne,
    FindSeekPoint_scan target cues lastOne
    = match cues_before target cues with
      | O => lastOne
      | S n => cues !! n
      end.
Proof.
  induction cues as [|item rest IH]; intros lastOne; [reflexivity|].
  cbn [FindSeekPoint_scan cues_before].
  destruct (CueTime item <? target); [|reflexivity].
  rewrite IH. destruct (cues_before target rest); reflexivity.
Qed.

Lemma cues_before_mono cues t1 t2 :
  t1 <= t2 -> (cues_before t1 cues <= cues_before t2 cues)%nat.
Proof.
  intros Ht. induction cues as [|item rest IH]; [reflexivity|].
  cbn [cues_before].
  destruct (Z.ltb_spec (CueTime item) t1); destruct (Z.ltb_spec (CueTime item) t2); lia.
Qed.

(** X16. Seeking is monotone in the target. Whatever the order of the
    cue points, when the scan of [FindSeekPoint] settles on a cue point
    for a target time, it settles on one for every later target too, and
    that one does not come earlier in the list of cue points. *)
Theorem FindSeekPoint_scan_monotone cues t1 t2 c1 :
  t1 <= t2 ->
  FindSeekPoint_scan t1 cues None = Some c1 ->
  exists (i1 i2 : nat) c2,
    (i1 <= i2)%nat /\ cues !! i1 = Some c1 /\ cues !! i2 = Some c2
    /\ FindSeekPoint_scan t2 cues None = Some c2.
Proof.
  intros Ht. rewrite !FindSeekPoint_scan_count.
  pose proof (cues_before_mono cues t1 t2 Ht) as Hmono.
  destruct (cues_before t1 cues) as [|n1] eqn:H1; [discriminate|].
  destruct (cues_before t2 cues) as [|n2] eqn:H2; [lia|].
  intros Hc1.
  assert (Hlen : (cues_before t2 cues <= length cues)%nat).
  { clear. induction cues as [|item rest IH]; [reflexivity|].
    cbn [cues_before length]. destruct (CueTime item <? t2); lia. }
  destruct (lookup_lt_is_Some_2 cues n2 ltac:(lia)) as [c2 Hc2].
  exists n1, n2, c2. repeat split; try assumption. lia.
Qed.

(** The instance of [FindSeekPoint_scan_monotone] for cue points at
    times 0, 1000 and 2000 and the targets 500 and 1500. *)
Lemma FindSeekPoint_scan_monotone_witness :
  let cues := [ mk_CuePoint 0 [mk_CueTrackPosition 1 100];
                mk_CuePoint 1000 [mk_CueTrackPosition 1 200];
                mk_CuePoint 2000 [mk_CueTrackPosition 1 300] ] in
  exists (i1 i2 : nat) c2,
    (i1 <= i2)%nat /\ cues !! i1 = Some (mk_CuePoint 0 [mk_CueTrackPosition 1 100])
    /\ cues !! i2 = Some c2
    /\ FindSeekPoint_scan 1500 cues None = Some c2.
Proof.
  intros cues.
  apply (FindSeekPoint_scan_monotone cues 500 1500
           (mk_CuePoint 0 [mk_CueTrackPosition 1 100])).
  - lia.
  - reflexivity.
Defined.

(** X17. A seek after an Info element without TimecodeScale. An Info
    master built as the tree reader builds it, with no unsigned-integer
    child and with binary children of at most 16 bytes each, leaves the
    scale at 0; [FindSeekPoint], and with it the seek branch of
    [ParseData], then divides the start position by
    [TimecodeScale / 100], which is zero, for every start position. *)
Theorem Seek_after_Info_without_TimecodeScale fuel size p c name type children :
  Forall Info_child_without_scale children ->
  exists p',
    ParseBytes_dispatch fuel "Info" MASTER size p c
      (Some (master_element name type children))
    = Ok (StepNext p' c (Some (master_element name type children)))
    /\ forall t, ParseData_seek (set_m_startPosition t p') = Undefined DivideByZero.
Proof.
  intros Hch.
  destruct (build_SegInfo_keeps_scale children Hch SegmentInformation_zero)
    as (segInfo & Hb & Hs).
  exists (set_m_masterData (set_SegInfo (Some segInfo) (m_masterData p)) p).
  split.
  - unfold ParseBytes_dispatch.
    cbn [String.eqb Ascii.eqb Bool.eqb children_of mbind outcome_bind].
    unfold build_Info. rewrite Hb. reflexivity.
  - intros t. unfold ParseData_seek, FindSeekPoint.
    cbn [m_masterData set_m_startPosition set_m_masterData SegInfo set_SegInfo].
    rewrite Hs. reflexivity.
Qed.

(** The instance of [Seek_after_Info_without_TimecodeScale] for an
    Info element holding a MuxingApp and a Duration. *)
Lemma Seek_after_Info_without_TimecodeScale_witness :
  exists p',
    ParseBytes_dispatch 20 "Info" MASTER 14 Parser_new (mk_cursor [] 0 19)
      (Some (master_element None _VOID
               [string_element (Some "MuxingApp"%string) TEXTU [97; 98];
                float_element (Some "Duration"%string) _FLOAT (Float32 0x447A0000)]))
    = Ok (StepNext p' (mk_cursor [] 0 19)
            (Some (master_element None _VOID
               [string_element (Some "MuxingApp"%string) TEXTU [97; 98];
                float_element (Some "Duration"%string) _FLOAT (Float32 0x447A0000)])))
    /\ forall t, ParseData_seek (set_m_startPosition t p') = Undefined DivideByZero.
Proof.
  apply (Seek_after_Info_without_TimecodeScale 20 14 Parser_new (mk_cursor [] 0 19)
           None _VOID).
  repeat constructor.
Defined.

(** X18. Where a seek has no defined result. With master data that
    holds a SegmentInfo, a TimecodeScale below 100 makes the seek branch
    of [ParseData] divide by zero; with a scale of 100 or more, a list of
    cue points that is empty or whose first cue point is not before the
    target time leaves [lastOne] unassigned, and the result is read
    through it. *)
Theorem ParseData_seek_undefined p segInfo :
  SegInfo (m_masterData p) = Some segInfo -> 0 <= TimecodeScale segInfo ->
  (TimecodeScale segInfo < 100 -> ParseData_seek p = Undefined DivideByZero)
  /\ (100 <= TimecodeScale segInfo ->
      cues_before (qw (m_startPosition p) / (TimecodeScale segInfo / 100))
        (Cues (m_masterData p)) = O ->
      ParseData_seek p = Undefined Uninitialised).
Proof.
  intros Hs Hnn. unfold ParseData_seek, FindSeekPoint. rewrite Hs. split.
  - intros Hscale. rewrite (Z.div_small (TimecodeScale segInfo) 100) by lia. reflexivity.
  - intros Hscale Hnone.
    assert (1 <= TimecodeScale segInfo / 100)
      by (apply Z.div_le_lower_bound; lia).
    destruct (Z.eqb_spec (TimecodeScale segInfo / 100) 0); [lia|].
    rewrite FindSeekPoint_scan_count, Hnone. reflexivity.
Qed.

(** The instance of [ParseData_seek_undefined] for a file with a
    TimecodeScale of 1000000 and no cue points, asked to start at one
    second. *)
Lemma ParseData_seek_undefined_witness :
  let segInfo := mk_SegmentInformation (replicate 16 0) 1000000 (Float64 0) None None in
  let p := Parser_seeking (mk_MKVMasterData 52 [] (Some segInfo) [] 0 []) 10000000 in
  (TimecodeScale segInfo < 100 -> ParseData_seek p = Undefined DivideByZero)
  /\ (100 <= TimecodeScale segInfo ->
      cues_before (qw (m_startPosition p) / (TimecodeScale segInfo / 100))
        (Cues (m_masterData p)) = O ->
      ParseData_seek p = Undefined Uninitialised).
Proof.
  intros segInfo p. apply (ParseData_seek_undefined p segInfo).
  - reflexivity.
  - cbn. lia.
Defined.

End SeekFacts.

Section NumberFacts.

Lemma ParseMatroskaNumber_tail_agrees i :
  forall code l cb ate,
    ParseMatroskaNumber_tail i code l
    = '(r, c) ← ReadMatroskaNumber_tail i code (mk_cursor l cb ate); Ok (r, data c).
Proof.
  induction i as [|i IH]; intros code l cb ate; [reflexivity|].
  cbn [ParseMatroskaNumber_tail ReadMatroskaNumber_tail].
  destruct l as [|x l]; [reflexivity|].
  rewrite read_byte_cons. cbn [mbind outcome_bind]. apply IH.
Qed.

(** X19. The two variable-length readers agree. [ParseMatroskaNumber],
    which walks a bare pointer and takes its flags in the order (signed,
    unmodified), returns the number and leaves the pointer where
    [ReadMatroskaNumber] does on the same bytes, for every input and
    every count the latter is given, whenever the two flags are not set
    together. *)
Theorem ParseMatroskaNumber_agrees fuel pData isSigned unModified cb ate :
  unModified && isSigned = false ->
  ParseMatroskaNumber fuel pData isSigned unModified
  = '(r, c) ← ReadMatroskaNumber fuel (mk_cursor pData cb ate) unModified isSigned;
    Ok (r, data c).
Proof.
  intros Hflags. unfold ParseMatroskaNumber, ReadMatroskaNumber. rewrite Hflags.
  destruct pData as [|code l]; [reflexivity|].
  rewrite read_byte_cons. cbn [mbind outcome_bind].
  destruct (GetMajorBitNumber fuel (to_byte code)) as [numResult| | |];
    cbn [mbind outcome_bind]; try reflexivity.
  rewrite (ParseMatroskaNumber_tail_agrees _ _ l (dw (cb - 1)) (dw (ate + 1))).
  destruct (ReadMatroskaNumber_tail _ _ _) as [[code' c2]| | |];
    cbn [mbind outcome_bind]; try reflexivity.
  destruct isSigned.
  - destruct (double_to_DWORD _); reflexivity.
  - destruct (_ =? _); reflexivity.
Qed.

(** The instance of [ParseMatroskaNumber_agrees] for the value-mode
    bytes 40 20 followed by one more byte. *)
Lemma ParseMatroskaNumber_agrees_witness :
  ParseMatroskaNumber 8 [0x40; 0x20; 0x07] false false
  = '(r, c) ← ReadMatroskaNumber 8 (mk_cursor [0x40; 0x20; 0x07] 3 0) false false;
    Ok (r, data c).
Proof.
  apply (ParseMatroskaNumber_agrees 8 [0x40; 0x20; 0x07] false false 3 0).
  reflexivity.
Defined.

Lemma vint_raw_below k b rest :
  is_vint k b rest -> k <= 3 -> be_value (vint_bytes true k b rest) < 2^32.
Proof.
  intros ([Hk [Hlo Hhi]] & Hn & Hb) Hk3. unfold vint_bytes. cbn [be_value].
  pose proof (be_value_bound rest Hb) as Hr. rewrite Hn in *.
  assert (Hc : k = 0 \/ k = 1 \/ k = 2 \/ k = 3) by lia.
  destruct Hc as [-> | [-> | [-> | ->]]];
    change (2 ^ (8 - 0)) with 256 in *; change (2 ^ (8 - 1)) with 128 in *;
    change (2 ^ (8 - 2)) with 64 in *; change (2 ^ (8 - 3)) with 32 in *;
    change (256 ^ 0) with 1 in *; change (256 ^ 1) with 256 in *;
    change (256 ^ 2) with 65536 in *; change (256 ^ 3) with 16777216 in *;
    change (2 ^ 32) with 4294967296; lia.
Qed.

(** X20. The element header. For an id VINT of [ik + 1] bytes and a
    size VINT of [sk + 1] bytes, whatever the counts say the window
    holds: the header reader returns the id with its length marker
    (exactly, for an id of up to 4 bytes; modulo 2^32 beyond), the size
    with the marker cleared modulo 2^32, or [(DWORD)-1] for the all-ones
    pattern, and the header length [ik + sk + 2]; it consumes exactly the
    bytes of the header, [cbLen] and [pAte] moving by that length modulo
    2^32. *)
Theorem ReadEbmlElementHeader_decodes fuel ik ib irest sk sb srest tl cb ate :
  (8 <= fuel)%nat -> is_vint ik ib irest -> is_vint sk sb srest ->
  exists id,
    ReadEbmlElementHeader fuel (mk_cursor (ib :: irest ++ sb :: srest ++ tl) cb ate)
    = Ok (mk_element_header_result id (size_field sk sb srest) (ik + sk + 2),
          mk_cursor tl (dw (cb - (ik + sk + 2))) (dw (ate + (ik + sk + 2))))
    /\ id = dw (be_value (vint_bytes true ik ib irest))
    /\ (ik <= 3 -> id = be_value (vint_bytes true ik ib irest)).
Proof.
  intros Hf Hi Hs.
  pose proof (vint_value_nonneg true ik ib irest Hi) as Hnn.
  pose proof (vint_raw_below ik ib irest Hi) as Hlt.
  destruct Hi as (Hil & Hin & Hib). destruct Hs as (Hsl & Hsn & Hsb).
  eexists. split; [|split; [reflexivity|]].
  - apply ReadEbmlElementHeader_general; assumption.
  - intros Hk. apply dw_small. split; [exact Hnn | apply Hlt; exact Hk].
Qed.

(** The instance of [ReadEbmlElementHeader_decodes] for the header
    1A 45 DF A3 A3 of scenario D, with 35 bytes behind it. *)
Lemma ReadEbmlElementHeader_decodes_witness :
  exists id,
    ReadEbmlElementHeader 8
      (mk_cursor (0x1A :: [0x45; 0xDF; 0xA3] ++ 0xA3 :: [] ++ replicate 35 0) 40 0)
    = Ok (mk_element_header_result id (size_field 0 0xA3 []) (3 + 0 + 2),
          mk_cursor (replicate 35 0) (dw (40 - (3 + 0 + 2))) (dw (0 + (3 + 0 + 2))))
    /\ id = dw (be_value (vint_bytes true 3 0x1A [0x45; 0xDF; 0xA3]))
    /\ (3 <= 3 -> id = be_value (vint_bytes true 3 0x1A [0x45; 0xDF; 0xA3])).
Proof.
  apply (ReadEbmlElementHeader_decodes 8 3 0x1A [0x45; 0xDF; 0xA3] 0 0xA3 []
           (replicate 35 0) 40 0).
  - lia.
  - unfold is_vint, leading_one_at. cbn.
    repeat split; try lia; repeat constructor; unfold is_BYTE; lia.
  - unfold is_vint, leading_one_at. cbn. repeat split; try lia. constructor.
Defined.

Lemma accumulate_int64_overflow l :
  Forall is_BYTE l ->
  forall r, 0 <= r < 2^63 -> 2^63 <= be_acc r l -> l <> [] ->
  accumulate_int64 r l = Undefined SignedOverflow.
Proof.
  induction 1 as [|x l Hx Hl IH]; intros r Hr Hbig Hne; [contradiction|].
  cbn [accumulate_int64]. rewrite be_acc_cons in Hbig.
  unfold is_BYTE in Hx. unfold int64_result.
  destruct (Z.leb_spec (- 2^63) (r * 256 + x)); [|lia].
  destruct (Z.ltb_spec (r * 256 + x) (2^63)); cbn [andb mbind outcome_bind];
    [|reflexivity].
  destruct l as [|y l]; [cbn in Hbig; lia|].
  apply IH; [lia | exact Hbig | discriminate].
Qed.

(** X21. Fixed-length numbers. [ReadFixedLengthNumber] on [n] bytes
    that are there: for [n] up to 8 and a big-endian value below 2^63 it
    returns that value and consumes exactly the [n] bytes; for 8 bytes
    with the top bit set the accumulation overflows the signed 64-bit
    result, in unsigned mode too; for a length above 8 (with 9 bytes to
    read) it stores past the end of its 8-byte array. *)
Theorem ReadFixedLengthNumber_cases l tl cb ate :
  Forall is_BYTE l ->
  ((length l <= 8)%nat -> be_value l < 2^63 ->
   ReadFixedLengthNumber (mk_cursor (l ++ tl) (dw cb) (dw ate)) (Z.of_nat (length l)) false
   = Ok (be_value l, mk_cursor tl (dw (cb - Z.of_nat (length l)))
                                  (dw (ate + Z.of_nat (length l)))))
  /\ (length l = 8%nat -> 2^63 <= be_value l ->
      forall _signed,
        ReadFixedLengthNumber (mk_cursor (l ++ tl) (dw cb) (dw ate)) 8 _signed
        = Undefined SignedOverflow)
  /\ ((9 <= length l)%nat ->
      forall len _signed, 8 < len ->
        ReadFixedLengthNumber (mk_cursor (l ++ tl) (dw cb) (dw ate)) len _signed
        = Undefined WritePastEnd).
Proof.
  intros Hl. split; [|split].
  - intros Hlen Hfit. apply ReadFixedLengthNumber_unsigned; assumption.
  - intros Hlen Hbig _signed. unfold ReadFixedLengthNumber.
    change (8 >? 8) with false. cbn match.
    change (Z.to_nat 8) with 8%nat. rewrite <- Hlen, read_n_app.
    cbn [mbind outcome_bind]. unfold ParseFixedLengthNumber.
    rewrite (accumulate_int64_overflow l Hl 0);
      [reflexivity | lia | rewrite be_acc_0; exact Hbig
      | intros ->; discriminate Hlen].
  - intros Hlen len _signed Hlong. unfold ReadFixedLengthNumber.
    destruct (Z.gtb_spec len 8); [|lia].
    rewrite <- (take_drop 9 l), <- app_assoc.
    replace 9%nat with (length (take 9 l)) at 1 by (rewrite length_take; lia).
    rewrite read_n_app. reflexivity.
Qed.

(** The instance of [ReadFixedLengthNumber_cases] for the three bytes
    0F 42 40 followed by one more byte. *)
Lemma ReadFixedLengthNumber_cases_witness :
  let l := [0x0F; 0x42; 0x40] in
  ((length l <= 8)%nat -> be_value l < 2^63 ->
   ReadFixedLengthNumber (mk_cursor (l ++ [0xEC]) (dw 4) (dw 0)) (Z.of_nat (length l)) false
   = Ok (be_value l, mk_cursor [0xEC] (dw (4 - Z.of_nat (length l)))
                                      (dw (0 + Z.of_nat (length l)))))
  /\ (length l = 8%nat -> 2^63 <= be_value l ->
      forall _signed,
        ReadFixedLengthNumber (mk_cursor (l ++ [0xEC]) (dw 4) (dw 0)) 8 _signed
        = Undefined SignedOverflow)
  /\ ((9 <= length l)%nat ->
      forall len _signed, 8 < len ->
        ReadFixedLengthNumber (mk_cursor (l ++ [0xEC]) (dw 4) (dw 0)) len _signed
        = Undefined WritePastEnd).
Proof.
  intros l. apply (ReadFixedLengthNumber_cases l [0xEC] 4 0).
  repeat constructor; unfold is_BYTE; lia.
Defined.

End NumberFacts.

Section BitFacts.

Lemma lor_mul_add a b n :
  0 <= n -> 0 <= b < 2^n -> Z.lor (a * 2^n) b = a * 2^n + b.
Proof.
  intros Hn Hb. symmetry. apply Z.add_nocarry_lor.
  apply Z.bits_inj'. intros m Hm.
  rewrite Z.land_spec, Z.bits_0.
  destruct (Z.lt_ge_cases m n) as [Hlt|Hge].
  - rewrite Z.mul_pow2_bits_low by lia. reflexivity.
  - rewrite <- (Z.mod_small b (2^n)) by lia.
    rewrite Z.mod_pow2_bits_high by lia. apply andb_false_r.
Qed.

Lemma lor_shiftl_add a b n :
  0 <= n -> 0 <= b < 2^n -> Z.lor (Z.shiftl a n) b = a * 2^n + b.
Proof. intros Hn Hb. rewrite Z.shiftl_mul_pow2 by lia. apply lor_mul_add; assumption. Qed.

Lemma lor_add_shiftl a b n :
  0 <= n -> 0 <= b < 2^n -> Z.lor b (Z.shiftl a n) = b + a * 2^n.
Proof. intros Hn Hb. rewrite Z.lor_comm, lor_shiftl_add by assumption. lia. Qed.

Lemma MAKE_WORD_value b1 b2 :
  is_BYTE b1 -> is_BYTE b2 -> MAKE_WORD b1 b2 = b1 * 256 + b2.
Proof.
  unfold is_BYTE, MAKE_WORD. intros H1 H2.
  rewrite (lor_shiftl_add b1 b2 8) by lia.
  unfold to_word. change (2 ^ 8) with 256. apply Z.mod_small.
  change (2 ^ 16) with 65536. lia.
Qed.

(** The four bytes under a pointer read in host order. *)
Lemma host_dword_value b0 b1 b2 b3 :
  is_BYTE b0 -> is_BYTE b1 -> is_BYTE b2 -> is_BYTE b3 ->
  Z.lor (Z.lor (Z.lor b0 (Z.shiftl b1 8)) (Z.shiftl b2 16)) (Z.shiftl b3 24)
  = b0 + b1 * 2^8 + b2 * 2^16 + b3 * 2^24.
Proof.
  unfold is_BYTE. intros H0 H1 H2 H3.
  rewrite (lor_add_shiftl b1 b0 8) by lia.
  rewrite (lor_add_shiftl b2 (b0 + b1 * 2^8) 16)
    by (change (2 ^ 8) with 256; change (2 ^ 16) with 65536; lia).
  rewrite (lor_add_shiftl b3 (b0 + b1 * 2^8 + b2 * 2^16) 24)
    by (change (2 ^ 8) with 256; change (2 ^ 16) with 65536;
        change (2 ^ 24) with 16777216; lia).
  reflexivity.
Qed.

Lemma land_even_word w :
  0 <= w < 2^16 -> Z.land w 0xFFFE = w - w mod 2.
Proof.
  intros Hw.
  assert (H1 : Z.land w 1 = w mod 2) by (apply (Z.land_ones w 1); lia).
  assert (H16 : Z.land w 0xFFFF = w)
    by (change 0xFFFF with (Z.ones 16); rewrite Z.land_ones by lia;
        apply Z.mod_small; lia).
  assert (Hsplit : Z.land w 0xFFFF = Z.land w 0xFFFE + Z.land w 1).
  { change 0xFFFF with (Z.lor 0xFFFE 1). rewrite Z.land_lor_distr_r.
    symmetry. apply Z.add_nocarry_lor.
    rewrite Z.land_assoc, (Z.land_comm (Z.land w 0xFFFE) w), Z.land_assoc,
      Z.land_diag, <- Z.land_assoc.
    change (Z.land 0xFFFE 1) with 0. apply Z.land_0_r. }
  lia.
Qed.

Lemma land_shiftl_mask a b n :
  0 <= n -> Z.land a (Z.shiftl b n) = Z.shiftl (Z.land (Z.shiftr a n) b) n.
Proof.
  intros Hn. apply Z.bits_inj'. intros m Hm.
  rewrite Z.land_spec.
  destruct (Z.lt_ge_cases m n) as [Hlt|Hge].
  - rewrite !Z.shiftl_spec_low by lia. apply andb_false_r.
  - rewrite !Z.shiftl_spec by lia. rewrite Z.land_spec, Z.shiftr_spec by lia.
    replace (m - n + n) with m by lia. reflexivity.
Qed.

(** The byte at bit position [n] of a number laid out as low part,
    byte, high part. *)
Lemma land_byte_field lo f hi n :
  0 <= n -> 0 <= lo < 2^n -> 0 <= f < 256 -> 0 <= hi ->
  Z.land (lo + f * 2^n + hi * 2^(n + 8)) (0xFF * 2^n) = f * 2^n.
Proof.
  intros Hn Hlo Hf Hhi.
  rewrite <- (Z.shiftl_mul_pow2 0xFF n) by lia.
  rewrite land_shiftl_mask by lia.
  rewrite Z.shiftr_div_pow2 by lia.
  replace (lo + f * 2 ^ n + hi * 2 ^ (n + 8)) with (lo + (f + hi * 256) * 2 ^ n)
    by (rewrite Z.pow_add_r by lia; change (2 ^ 8) with 256; ring).
  rewrite Z.div_add by lia. rewrite (Z.div_small lo) by lia.
  change 0xFF with (Z.ones 8). rewrite Z.land_ones by lia.
  change (2 ^ 8) with 256. rewrite Z.add_0_l, Z.mod_add by lia.
  rewrite Z.mod_small by lia. apply Z.shiftl_mul_pow2. lia.
Qed.

Lemma htonl_bytes b0 b1 b2 b3 :
  is_BYTE b0 -> is_BYTE b1 -> is_BYTE b2 -> is_BYTE b3 ->
  htonl (b0 + b1 * 2^8 + b2 * 2^16 + b3 * 2^24)
  = b3 + b2 * 2^8 + b1 * 2^16 + b0 * 2^24.
Proof.
  unfold is_BYTE, htonl. intros H0 H1 H2 H3.
  set (x := b0 + b1 * 2 ^ 8 + b2 * 2 ^ 16 + b3 * 2 ^ 24).
  assert (T1 : Z.land (Z.shiftr x 24) 0xFF = b3).
  { rewrite Z.shiftr_div_pow2 by lia. subst x.
    rewrite Z.div_add by lia.
    rewrite Z.div_small
      by (change (2 ^ 8) with 256; change (2 ^ 16) with 65536;
          change (2 ^ 24) with 16777216; lia).
    change 0xFF with (Z.ones 8). rewrite Z.land_ones by lia.
    change (2 ^ 8) with 256. apply Z.mod_small. lia. }
  assert (T2 : Z.land (Z.shiftr x 8) 0xFF00 = b2 * 2^8).
  { rewrite Z.shiftr_div_pow2 by lia. subst x.
    replace (b0 + b1 * 2 ^ 8 + b2 * 2 ^ 16 + b3 * 2 ^ 24)
      with (b0 + (b1 + b2 * 2 ^ 8 + b3 * 2 ^ 16) * 2 ^ 8)
      by (change (2 ^ 8) with 256; change (2 ^ 16) with 65536;
          change (2 ^ 24) with 16777216; ring).
    rewrite Z.div_add by lia. rewrite Z.div_small by (change (2 ^ 8) with 256; lia).
    rewrite Z.add_0_l.
    apply (land_byte_field b1 b2 b3 8); try lia; change (2 ^ 8) with 256; lia. }
  assert (T3 : Z.land (Z.shiftl x 8) 0xFF0000 = b1 * 2^16).
  { rewrite Z.shiftl_mul_pow2 by lia. subst x.
    replace ((b0 + b1 * 2 ^ 8 + b2 * 2 ^ 16 + b3 * 2 ^ 24) * 2 ^ 8)
      with (b0 * 2 ^ 8 + b1 * 2 ^ 16 + (b2 + b3 * 2 ^ 8) * 2 ^ (16 + 8))
      by (change (2 ^ 8) with 256; change (2 ^ 16) with 65536;
          change (2 ^ 24) with 16777216; change (2 ^ (16 + 8)) with 16777216; ring).
    apply (land_byte_field (b0 * 2 ^ 8) b1 (b2 + b3 * 2 ^ 8) 16); try lia;
      change (2 ^ 8) with 256; change (2 ^ 16) with 65536; lia. }
  assert (T4 : Z.land (Z.shiftl x 24) 0xFF000000 = b0 * 2^24).
  { rewrite Z.shiftl_mul_pow2 by lia. subst x.
    replace ((b0 + b1 * 2 ^ 8 + b2 * 2 ^ 16 + b3 * 2 ^ 24) * 2 ^ 24)
      with (0 + b0 * 2 ^ 24 + (b1 + b2 * 2 ^ 8 + b3 * 2 ^ 16) * 2 ^ (24 + 8))
      by (change (2 ^ 8) with 256; change (2 ^ 16) with 65536;
          change (2 ^ 24) with 16777216; change (2 ^ (24 + 8)) with 4294967296; ring).
    apply (land_byte_field 0 b0 (b1 + b2 * 2 ^ 8 + b3 * 2 ^ 16) 24); try lia;
      change (2 ^ 8) with 256; change (2 ^ 16) with 65536;
      change (2 ^ 24) with 16777216; lia. }
  rewrite T1, T2, T3, T4.
  rewrite (Z.lor_comm b3), (lor_mul_add b2 b3 8) by (change (2 ^ 8) with 256; lia).
  rewrite (Z.lor_comm _ (b1 * 2 ^ 16)), (lor_mul_add b1 _ 16)
    by (change (2 ^ 8) with 256; change (2 ^ 16) with 65536; lia).
  rewrite (Z.lor_comm _ (b0 * 2 ^ 24)), (lor_mul_add b0 _ 24)
    by (change (2 ^ 8) with 256; change (2 ^ 16) with 65536;
        change (2 ^ 24) with 16777216; lia).
  ring.
Qed.

End BitFacts.

Section MPEG1Facts.

Lemma PTS_byte1_checked : forallb PTS_byte1_check (map Z.of_nat (seq 0 256)) = true.
Proof. vm_compute. reflexivity. Qed.

Lemma PTS_byte1_facts b :
  is_BYTE b ->
  (Z.land b 0xE1 =? 0x21) = ((b / 32 =? 1) && (b mod 2 =? 1))
  /\ Z.shiftr (Z.land b 0x08) 3 = (b / 8) mod 2
  /\ Z.land b 0x06 = ((b / 2) mod 4) * 2.
Proof.
  intros Hb. unfold is_BYTE in Hb.
  pose proof PTS_byte1_checked as H. rewrite forallb_forall in H.
  specialize (H b). unfold PTS_byte1_check in H.
  assert (Hin : In b (map Z.of_nat (seq 0 256))).
  { apply in_map_iff. exists (Z.to_nat b). split; [lia|]. apply in_seq. lia. }
  specialize (H Hin).
  apply andb_prop in H. destruct H as [H H3].
  apply andb_prop in H. destruct H as [H1 H2].
  apply Bool.eqb_prop in H1. apply Z.eqb_eq in H2, H3. auto.
Qed.

(** X22. The presentation time stamp. For every 33-bit value [pts] and
    either of the two prefixes 0010 and 0011, [ParsePTS] on the five
    bytes of the field returns [pts]: the three marker bits pass the
    test and the 3 + 15 + 15 value bits are put back in place. *)
Theorem ParsePTS_round_trip prefix pts tl :
  0 <= pts < 2^33 -> prefix = 2 \/ prefix = 3 ->
  ParsePTS (PTS_field prefix pts ++ tl) = Returns pts.
Proof.
  intros Hpts Hprefix. unfold PTS_field, ParsePTS. cbn [app mpeg_at lookup list_lookup].
  cbn [mbind mpeg_outcome_bind].
  set (b0 := prefix * 16 + pts / 2 ^ 30 * 2 + 1).
  set (b1 := (pts / 2 ^ 22) mod 256).
  set (b2 := (pts / 2 ^ 15) mod 128 * 2 + 1).
  set (b3 := (pts / 2 ^ 7) mod 256).
  set (b4 := pts mod 128 * 2 + 1).
  assert (H0 : is_BYTE b0).
  { unfold is_BYTE. subst b0. change (2 ^ 33) with 8589934592 in Hpts.
    change (2 ^ 30) with 1073741824.
    assert (0 <= pts / 1073741824 < 8)
      by (split; [apply Z.div_pos; lia | apply Z.div_lt_upper_bound; lia]).
    lia. }
  assert (H1 : is_BYTE b1) by (unfold is_BYTE; subst b1; apply Z.mod_pos_bound; lia).
  assert (H2 : is_BYTE b2)
    by (unfold is_BYTE; subst b2;
        pose proof (Z.mod_pos_bound (pts / 2 ^ 15) 128 ltac:(lia)); lia).
  assert (H3 : is_BYTE b3) by (unfold is_BYTE; subst b3; apply Z.mod_pos_bound; lia).
  assert (H4 : is_BYTE b4)
    by (unfold is_BYTE; subst b4;
        pose proof (Z.mod_pos_bound pts 128 ltac:(lia)); lia).
  rewrite (MAKE_WORD_value b1 b2 H1 H2), (MAKE_WORD_value b3 b4 H3 H4).
  destruct (PTS_byte1_facts b0 H0) as (Hmark & Hhigh & Hlow).
  rewrite Hmark, Hhigh, Hlow.
  set (w1 := b1 * 256 + b2). set (w2 := b3 * 256 + b4).
  assert (Hw1 : 0 <= w1 < 2^16)
    by (unfold is_BYTE in *; subst w1; change (2 ^ 16) with 65536; lia).
  assert (Hw2 : 0 <= w2 < 2^16)
    by (unfold is_BYTE in *; subst w2; change (2 ^ 16) with 65536; lia).
  assert (Hm1 : Z.land w1 1 = w1 mod 2) by (apply (Z.land_ones w1 1); lia).
  assert (Hm2 : Z.land w2 1 = w2 mod 2) by (apply (Z.land_ones w2 1); lia).
  rewrite Hm1, Hm2, (land_even_word w1 Hw1).
  rewrite !Z.shiftl_mul_pow2, Z.shiftr_div_pow2 by lia.
  assert (Ha : 0 <= (b0 / 2) mod 4 < 4) by (apply Z.mod_pos_bound; lia).
  assert (Hodd1 : w1 mod 2 = 1)
    by (subst w1 b2; clear; Z.to_euclidean_division_equations; lia).
  assert (Hodd2 : w2 mod 2 = 1)
    by (subst w2 b4; clear; Z.to_euclidean_division_equations; lia).
  rewrite Hodd1, Hodd2.
  change (2 ^ 16) with 65536 in *. change (2 ^ 29) with 536870912.
  change (2 ^ 14) with 16384. change (2 ^ 1) with 2.
  rewrite (dw_small ((b0 / 2) mod 4 * 2 * 536870912))
    by (change (2 ^ 32) with 4294967296; lia).
  rewrite (dw_small ((w1 - 1) * 16384)) by (change (2 ^ 32) with 4294967296; lia).
  assert (Hhalf : (w1 - 1) * 16384 = (w1 / 2) * 2 ^ 15)
    by (change (2 ^ 15) with 32768; clear - Hodd1;
        Z.to_euclidean_division_equations; lia).
  rewrite Hhalf.
  replace ((b0 / 2) mod 4 * 2 * 536870912) with ((b0 / 2) mod 4 * 2 ^ 30)
    by (change (2 ^ 30) with 1073741824; lia).
  assert (Hq1 : 0 <= w1 / 2 < 32768)
    by (split; [apply Z.div_pos; lia | apply Z.div_lt_upper_bound; lia]).
  assert (Hq2 : 0 <= w2 / 2 < 32768)
    by (split; [apply Z.div_pos; lia | apply Z.div_lt_upper_bound; lia]).
  rewrite (lor_mul_add ((b0 / 2) mod 4) (w1 / 2 * 2 ^ 15) 30)
    by (change (2 ^ 15) with 32768; change (2 ^ 30) with 1073741824; lia).
  replace ((b0 / 2) mod 4 * 2 ^ 30 + w1 / 2 * 2 ^ 15)
    with (((b0 / 2) mod 4 * 2 ^ 15 + w1 / 2) * 2 ^ 15)
    by (change (2 ^ 15) with 32768; change (2 ^ 30) with 1073741824; lia).
  rewrite (lor_mul_add _ (w2 / 2) 15) by (change (2 ^ 15) with 32768; lia).
  change (2 ^ 33) with 8589934592 in Hpts.
  assert (Ht : 0 <= pts / 2 ^ 30 < 8)
    by (change (2 ^ 30) with 1073741824;
        split; [apply Z.div_pos; lia | apply Z.div_lt_upper_bound; lia]).
  assert (Hb32 : b0 / 32 = 1 /\ b0 mod 2 = 1)
    by (subst b0; clear - Ht Hprefix; Z.to_euclidean_division_equations; lia).
  destruct Hb32 as [-> ->]. cbn [Z.eqb Pos.eqb andb negb orb].
  f_equal.
  subst w1 w2 b0 b1 b2 b3 b4.
  clear - Hpts Hprefix.
  change (2 ^ 32) with 4294967296. change (2 ^ 30) with 1073741824.
  change (2 ^ 22) with 4194304. change (2 ^ 15) with 32768. change (2 ^ 7) with 128.
  Z.to_euclidean_division_equations. lia.
Qed.

(** The instance of [ParsePTS_round_trip] for one second of the 90 kHz
    clock under the prefix 0010. *)
Lemma ParsePTS_round_trip_witness :
  ParsePTS (PTS_field 2 90000 ++ [0xAA]) = Returns 90000.
Proof.
  apply (ParsePTS_round_trip 2 90000 [0xAA]).
  - lia.
  - left. reflexivity.
Defined.

Lemma byte_in_range b : is_BYTE b -> In b (map Z.of_nat (seq 0 256)).
Proof.
  unfold is_BYTE. intros Hb.
  apply in_map_iff. exists (Z.to_nat b). split; [lia|]. apply in_seq. lia.
Qed.

Lemma ParseStreamId_checked :
  forallb ParseStreamId_check (map Z.of_nat (seq 0 256)) = true.
Proof. vm_compute. reflexivity. Qed.

(** X23. Stream ids. On a byte, [ParseStreamId] yields an audio stream
    with number [id - 0xC0] exactly on 0xC0..0xDF, a video stream with
    number [id - 0xE0] exactly on 0xE0..0xEF and a data stream with
    number [id - 0xF0] exactly on 0xF0..0xFF; it throws
    [MF_E_INVALID_FORMAT] exactly on the ids below 0xB8 and on 0xBA and
    0xBB; it never leaves the type unknown, and the stream number is
    below 32. *)
Theorem ParseStreamId_ranges id :
  is_BYTE id ->
  (0xC0 <= id <= 0xDF <-> ParseStreamId id = Returns (StreamType_Audio, id - 0xC0))
  /\ (0xE0 <= id <= 0xEF <-> ParseStreamId id = Returns (StreamType_Video, id - 0xE0))
  /\ (0xF0 <= id <-> ParseStreamId id = Returns (StreamType_Data, id - 0xF0))
  /\ (id < 0xB8 \/ id = 0xBA \/ id = 0xBB
      <-> ParseStreamId id = ThrowException MF_E_INVALID_FORMAT)
  /\ (forall t num, ParseStreamId id = Returns (t, num) ->
        t <> StreamType_Unknown /\ 0 <= num < 32).
Proof.
  intros Hb.
  pose proof ParseStreamId_checked as H. rewrite forallb_forall in H.
  specialize (H id (byte_in_range id Hb)). unfold ParseStreamId_check in H.
  unfold is_BYTE in Hb.
  destruct (ParseStreamId id) as [[t num]|hr| |f]; try discriminate H.
  - destruct t; try discriminate H;
      rewrite ?andb_true_iff, ?Z.leb_le, ?Z.eqb_eq in H;
      (repeat split; try intros; try discriminate; try lia;
       try (f_equal; f_equal; lia);
       try match goal with
           | E : Returns _ = Returns _ |- _ =>
               injection E as; subst; try discriminate; try lia
           end).
  - destruct hr; try discriminate H.
    rewrite !orb_true_iff, Z.ltb_lt, !Z.eqb_eq in H.
    repeat split; try intros; try discriminate; try lia; try reflexivity.
Qed.

(** The instance of [ParseStreamId_ranges] for the id 0xC3. *)
Lemma ParseStreamId_ranges_witness :
  (0xC0 <= 0xC3 <= 0xDF <-> ParseStreamId 0xC3 = Returns (StreamType_Audio, 0xC3 - 0xC0))
  /\ (0xE0 <= 0xC3 <= 0xEF <-> ParseStreamId 0xC3 = Returns (StreamType_Video, 0xC3 - 0xE0))
  /\ (0xF0 <= 0xC3 <-> ParseStreamId 0xC3 = Returns (StreamType_Data, 0xC3 - 0xF0))
  /\ (0xC3 < 0xB8 \/ 0xC3 = 0xBA \/ 0xC3 = 0xBB
      <-> ParseStreamId 0xC3 = ThrowException MF_E_INVALID_FORMAT)
  /\ (forall t num, ParseStreamId 0xC3 = Returns (t, num) ->
        t <> StreamType_Unknown /\ 0 <= num < 32).
Proof. apply (ParseStreamId_ranges 0xC3). unfold is_BYTE. lia. Defined.

Lemma start_code_test b0 b1 b2 b3 :
  is_BYTE b0 -> is_BYTE b1 -> is_BYTE b2 -> is_BYTE b3 ->
  (Z.land (Z.lor (Z.lor (Z.lor b0 (Z.shiftl b1 8)) (Z.shiftl b2 16)) (Z.shiftl b3 24))
          0x00FFFFFF =? 0x00010000)
  = (b0 =? 0) && (b1 =? 0) && (b2 =? 1).
Proof.
  intros H0 H1 H2 H3. rewrite (host_dword_value b0 b1 b2 b3 H0 H1 H2 H3).
  unfold is_BYTE in *.
  change 0x00FFFFFF with (Z.ones 24). rewrite Z.land_ones by lia.
  rewrite Z.mod_add by lia.
  change (2 ^ 8) with 256. change (2 ^ 16) with 65536. change (2 ^ 24) with 16777216.
  rewrite Z.mod_small by lia.
  destruct (Z.eqb_spec (b0 + b1 * 256 + b2 * 65536) 65536);
    destruct (Z.eqb_spec b0 0); destruct (Z.eqb_spec b1 0); destruct (Z.eqb_spec b2 1);
    cbn [andb]; try reflexivity; lia.
Qed.

Lemma FindNextStartCode_loop_unfold pData cbLeft :
  FindNextStartCode_loop pData cbLeft
  = if cbLeft >? 4 then
      match pData with
      | b0 :: b1 :: b2 :: b3 :: rest =>
          if Z.land (Z.lor (Z.lor (Z.lor b0 (Z.shiftl b1 8)) (Z.shiftl b2 16))
                           (Z.shiftl b3 24)) 0x00FFFFFF =? 0x00010000
          then Returns (true, cbLeft)
          else FindNextStartCode_loop rest (cbLeft - 4)
      | _ => Faults ReadPastEnd
      end
    else Returns (false, cbLeft).
Proof. destruct pData; reflexivity. Qed.

Lemma FindNextStartCode_loop_spec n :
  forall pData cbLeft,
    (length pData <= n)%nat -> Forall is_BYTE pData ->
    0 <= cbLeft <= Z.of_nat (length pData) ->
    exists r left,
      FindNextStartCode_loop pData cbLeft = Returns (r, left)
      /\ 0 <= left <= cbLeft
      /\ (exists q, 0 <= q /\ cbLeft - left = 4 * q)
      /\ (forall j, 0 <= j -> 4 * j < cbLeft - left ->
            take 3 (drop (Z.to_nat (4 * j)) pData) <> [0; 0; 1])
      /\ (r = true -> 4 < left
                      /\ take 3 (drop (Z.to_nat (cbLeft - left)) pData) = [0; 0; 1])
      /\ (r = false -> left <= 4).
Proof.
  induction n as [|n IH]; intros pData cbLeft Hn Hb Hcb;
    rewrite FindNextStartCode_loop_unfold.
  - destruct pData; [|cbn in Hn; lia]. cbn in Hcb.
    destruct (Z.gtb_spec cbLeft 4); [lia|].
    exists false, cbLeft. split; [reflexivity|]. split; [lia|].
    split; [exists 0; lia|]. split; [intros; lia|]. split; [discriminate|]. lia.
  - destruct (Z.gtb_spec cbLeft 4) as [Hgt|Hle].
    2:{ exists false, cbLeft. split; [reflexivity|]. split; [lia|].
        split; [exists 0; lia|]. split; [intros; lia|]. split; [discriminate|]. lia. }
    destruct pData as [|b0 [|b1 [|b2 [|b3 rest]]]]; try (cbn in Hcb; lia).
    inversion Hb as [|? ? H0 Hb1]; subst. inversion Hb1 as [|? ? H1 Hb2]; subst.
    inversion Hb2 as [|? ? H2 Hb3]; subst. inversion Hb3 as [|? ? H3 Hrest]; subst.
    rewrite (start_code_test b0 b1 b2 b3 H0 H1 H2 H3).
    cbn [length] in Hn, Hcb.
    destruct ((b0 =? 0) && (b1 =? 0) && (b2 =? 1)) eqn:Htest.
    + apply andb_prop in Htest. destruct Htest as [Htest Ht2].
      apply andb_prop in Htest. destruct Htest as [Ht0 Ht1].
      apply Z.eqb_eq in Ht0, Ht1, Ht2. subst.
      exists true, cbLeft. split; [reflexivity|]. split; [lia|].
      split; [exists 0; lia|]. split; [intros; lia|].
      split; [|discriminate]. intros _. split; [lia|].
      replace (cbLeft - cbLeft) with 0 by lia. reflexivity.
    + destruct (IH rest (cbLeft - 4) ltac:(lia) Hrest ltac:(lia))
        as (r & left & Hrun & Hleft & (q & Hq & Hdiv) & Hnone & Htrue & Hfalse).
      exists r, left. split; [exact Hrun|]. split; [lia|].
      split; [exists (q + 1); lia|]. split; [|split].
      * intros j Hj Hlt.
        destruct (Z.eq_dec j 0) as [->|Hj0].
        -- cbn. intros [= -> -> ->]. discriminate Htest.
        -- replace (Z.to_nat (4 * j)) with (4 + Z.to_nat (4 * (j - 1)))%nat by lia.
           cbn [drop Nat.add]. apply Hnone; lia.
      * intros Hr. destruct (Htrue Hr) as [H4 Htake]. split; [exact H4|].
        replace (Z.to_nat (cbLeft - left))
          with (4 + Z.to_nat (cbLeft - 4 - left))%nat by lia.
        cbn [drop Nat.add]. exact Htake.
      * exact Hfalse.
Qed.

(** X24. The start-code search. Over a buffer that holds its [cbLen]
    bytes, [FindNextStartCode] always returns, never reading outside the
    buffer; the count it stores is a multiple of 4 within the buffer, no
    4-byte group before it starts with 00 00 01, and the result is true
    exactly when the group at that count does and more than 4 bytes were
    left there. So the search finds the first start code that lies on a
    4-byte boundary; one that does not, or one in the last 4 bytes, is
    not found. *)
Theorem FindNextStartCode_first_aligned pData cbLen :
  Forall is_BYTE pData -> 0 <= cbLen <= Z.of_nat (length pData) -> cbLen < 2^32 ->
  exists r ate,
    FindNextStartCode pData cbLen = Returns (r, ate)
    /\ 0 <= ate <= cbLen
    /\ (exists q, 0 <= q /\ ate = 4 * q)
    /\ (forall j, 0 <= j -> 4 * j < ate ->
          take 3 (drop (Z.to_nat (4 * j)) pData) <> [0; 0; 1])
    /\ (r = true -> ate + 4 < cbLen
                    /\ take 3 (drop (Z.to_nat ate) pData) = [0; 0; 1])
    /\ (r = false -> cbLen - ate <= 4).
Proof.
  intros Hb Hcb Hdw.
  destruct (FindNextStartCode_loop_spec (length pData) pData cbLen
              (Nat.le_refl _) Hb Hcb)
    as (r & left & Hrun & Hleft & (q & Hq & Hdiv) & Hnone & Htrue & Hfalse).
  exists r, (cbLen - left). unfold FindNextStartCode. rewrite Hrun.
  cbn [mbind mpeg_outcome_bind]. rewrite dw_small by lia.
  split; [reflexivity|]. split; [lia|]. split; [exists q; lia|].
  split; [exact Hnone|]. split.
  - intros Hr. destruct (Htrue Hr). split; [lia | assumption].
  - intros Hr. specialize (Hfalse Hr). lia.
Qed.

(** The instance of [FindNextStartCode_first_aligned] for a buffer of
    12 bytes with a pack start code 00 00 01 BA at offset 4. *)
Lemma FindNextStartCode_first_aligned_witness :
  let pData := [0xFF; 0xFF; 0xFF; 0xFF; 0; 0; 1; 0xBA; 0x21; 0; 1; 0] in
  exists r ate,
    FindNextStartCode pData 12 = Returns (r, ate)
    /\ 0 <= ate <= 12
    /\ (exists q, 0 <= q /\ ate = 4 * q)
    /\ (forall j, 0 <= j -> 4 * j < ate ->
          take 3 (drop (Z.to_nat (4 * j)) pData) <> [0; 0; 1])
    /\ (r = true -> ate + 4 < 12
                    /\ take 3 (drop (Z.to_nat ate) pData) = [0; 0; 1])
    /\ (r = false -> 12 - ate <= 4).
Proof.
  intros pData. apply (FindNextStartCode_first_aligned pData 12).
  - repeat constructor; unfold is_BYTE; lia.
  - cbn. lia.
  - lia.
Defined.

Lemma audio_byte_checked : forallb audio_byte_check (map Z.of_nat (seq 0 256)) = true.
Proof. vm_compute. reflexivity. Qed.

Lemma audio_byte_facts b :
  is_BYTE b ->
  HAS_FLAG b 0xF8 = (0xF8 <=? b)
  /\ Z.land b 0x06 = ((b / 2) mod 4) * 2
  /\ to_byte (Z.shiftr (Z.land b 0xF0) 4) = b / 16
  /\ to_byte (Z.shiftr (Z.land b 0x0C) 2) = (b / 4) mod 4
  /\ Z.shiftr (Z.land b 0xC0) 6 = b / 64
  /\ to_byte (Z.shiftr (Z.land b 0x30) 4) = (b / 16) mod 4
  /\ to_byte (Z.land b 0x03) = b mod 4.
Proof.
  intros Hb.
  pose proof audio_byte_checked as H. rewrite forallb_forall in H.
  specialize (H b (byte_in_range b Hb)). unfold audio_byte_check in H.
  repeat (apply andb_prop in H; destruct H as [H ?]).
  apply Bool.eqb_prop in H.
  repeat match goal with E : (_ =? _) = true |- _ => apply Z.eqb_eq in E end.
  repeat split; assumption.
Qed.

Lemma audio_bitrate_checked :
  forallb (fun l => forallb (audio_bitrate_check l) (map Z.of_nat (seq 0 16)))
    [MPEG1_Audio_Layer1; MPEG1_Audio_Layer2; MPEG1_Audio_Layer3] = true.
Proof. vm_compute. reflexivity. Qed.

Lemma GetAudioBitRate_range l index :
  0 <= index < 16 ->
  (index = 15 /\ GetAudioBitRate l index = ThrowException MF_E_INVALID_FORMAT)
  \/ (index < 15 /\ exists r, GetAudioBitRate l index = Returns r /\ 0 <= r <= 448).
Proof.
  intros Hi.
  pose proof audio_bitrate_checked as H. rewrite forallb_forall in H.
  assert (Hl : In l [MPEG1_Audio_Layer1; MPEG1_Audio_Layer2; MPEG1_Audio_Layer3])
    by (destruct l; cbn; auto).
  specialize (H l Hl). rewrite forallb_forall in H.
  assert (Hin : In index (map Z.of_nat (seq 0 16))).
  { apply in_map_iff. exists (Z.to_nat index). split; [lia|]. apply in_seq. lia. }
  specialize (H index Hin). unfold audio_bitrate_check in H.
  destruct (GetAudioBitRate l index) as [r|hr| |f]; try discriminate H.
  - right. rewrite !andb_true_iff, Z.ltb_lt, !Z.leb_le in H.
    split; [lia|]. exists r. split; [reflexivity | lia].
  - destruct hr; try discriminate H. apply Z.eqb_eq in H. left. auto.
Qed.

(** X25. The audio frame header. With fewer than 4 bytes
    [ReadAudioFrameHeader] returns 0 and leaves the header alone. With
    4 bytes or more it reads the first four and no other: it returns 4
    with a header exactly when the first byte is FF, the second is
    F8 or above with layer bits other than 00, the bit-rate index is
    not 15 and the sampling index is not 3, and throws
    [MF_E_INVALID_FORMAT] otherwise, never [E_UNEXPECTED]. In a
    header it returns, the bit rate is at most 448, the sampling rate
    is 44100, 48000 or 32000, there is one channel for mode 3 and two
    otherwise, the block alignment is 1 and the flags are below 16. *)
Theorem ReadAudioFrameHeader_outcomes b0 b1 b2 b3 tl cbData :
  is_BYTE b0 -> is_BYTE b1 -> is_BYTE b2 -> is_BYTE b3 ->
  let pData := b0 :: b1 :: b2 :: b3 :: tl in
  let valid := (b0 =? 0xFF) && (0xF8 <=? b1) && negb ((b1 / 2) mod 4 =? 0)
               && (b2 / 16 <? 15) && negb ((b2 / 4) mod 4 =? 3) in
  (cbData < 4 -> ReadAudioFrameHeader pData cbData = Returns (0, None))
  /\ (4 <= cbData -> valid = false ->
      ReadAudioFrameHeader pData cbData = ThrowException MF_E_INVALID_FORMAT)
  /\ (4 <= cbData -> valid = true ->
      exists h,
        ReadAudioFrameHeader pData cbData = Returns (4, Some h)
        /\ 0 <= dwBitRate h <= 448
        /\ (dwSamplesPerSec h = 44100 \/ dwSamplesPerSec h = 48000
            \/ dwSamplesPerSec h = 32000)
        /\ nChannels h = (if b3 / 64 =? 3 then 1 else 2)
        /\ nBlockAlign h = 1 /\ 0 <= wFlags h < 16
        /\ modeExtension h = (b3 / 16) mod 4 /\ emphasis h = b3 mod 4).
Proof.
  intros H0 H1 H2 H3 pData valid. subst pData.
  assert (Hmain : 4 <= cbData ->
            if valid
            then exists h,
                   ReadAudioFrameHeader (b0 :: b1 :: b2 :: b3 :: tl) cbData
                   = Returns (4, Some h)
                   /\ 0 <= dwBitRate h <= 448
                   /\ (dwSamplesPerSec h = 44100 \/ dwSamplesPerSec h = 48000
                       \/ dwSamplesPerSec h = 32000)
                   /\ nChannels h = (if b3 / 64 =? 3 then 1 else 2)
                   /\ nBlockAlign h = 1 /\ 0 <= wFlags h < 16
                   /\ modeExtension h = (b3 / 16) mod 4 /\ emphasis h = b3 mod 4
            else ReadAudioFrameHeader (b0 :: b1 :: b2 :: b3 :: tl) cbData
                 = ThrowException MF_E_INVALID_FORMAT).
  { intros Hcb. subst valid.
    unfold ReadAudioFrameHeader, MPEG1_AUDIO_FRAME_HEADER_SIZE.
    destruct (Z.ltb_spec cbData 4); [lia|].
    cbn [mpeg_at lookup list_lookup mbind mpeg_outcome_bind].
    destruct (audio_byte_facts b1 H1) as (F1 & L1 & _).
    destruct (audio_byte_facts b2 H2) as (_ & _ & I2 & S2 & _).
    destruct (audio_byte_facts b3 H3) as (_ & _ & _ & _ & M3 & E3 & P3).
    rewrite F1, L1, I2, S2, M3, E3, P3. clear F1 L1 I2 S2 M3 E3 P3.
    assert (Ha : 0 <= (b1 / 2) mod 4 < 4) by (apply Z.mod_pos_bound; lia).
    assert (Hs : 0 <= (b2 / 4) mod 4 < 4) by (apply Z.mod_pos_bound; lia).
    assert (Hi : 0 <= b2 / 16 < 16)
      by (unfold is_BYTE in H2;
          split; [apply Z.div_pos; lia | apply Z.div_lt_upper_bound; lia]).
    assert (Hm : 0 <= b3 / 64 < 4)
      by (unfold is_BYTE in H3;
          split; [apply Z.div_pos; lia | apply Z.div_lt_upper_bound; lia]).
    generalize dependent ((b1 / 2) mod 4). intros a Ha.
    generalize dependent ((b2 / 4) mod 4). intros s Hs.
    generalize dependent (b2 / 16). intros i Hi.
    generalize dependent (b3 / 64). intros m Hm.
    destruct (Z.eqb_spec b0 255); cbn [andb negb]; [|reflexivity].
    destruct (Z.leb_spec 248 b1); cbn [andb negb]; [|reflexivity].
    assert (Hl : a = 0 \/ exists l,
              (if a * 2 =? 0 then ThrowException MF_E_INVALID_FORMAT
               else if a * 2 =? 6 then Returns MPEG1_Audio_Layer1
               else if a * 2 =? 4 then Returns MPEG1_Audio_Layer2
               else if a * 2 =? 2 then Returns MPEG1_Audio_Layer3
               else ThrowException E_UNEXPECTED) = Returns l /\ a <> 0).
    { assert (Hc : a = 0 \/ a = 1 \/ a = 2 \/ a = 3) by lia.
      destruct Hc as [-> | [-> | [-> | ->]]]; [left; reflexivity | right ..];
        eexists; split; try reflexivity; lia. }
    destruct Hl as [-> | (l & -> & Hne)]; [reflexivity|].
    destruct (Z.eqb_spec a 0); [contradiction|]. cbn [andb negb mbind mpeg_outcome_bind].
    destruct (GetAudioBitRate_range l i Hi) as [[-> ->] | (Hi15 & br & -> & Hbr)];
      [reflexivity|].
    destruct (Z.ltb_spec i 15); [|lia]. cbn [andb negb mbind mpeg_outcome_bind].
    unfold GetSamplingFrequency.
    assert (Hc : s = 0 \/ s = 1 \/ s = 2 \/ s = 3) by lia.
    destruct Hc as [-> | [-> | [-> | ->]]]; cbn [Z.eqb Pos.eqb negb mbind mpeg_outcome_bind];
      try reflexivity.
    all: eexists; split; [reflexivity|].
    all: cbn [dwBitRate dwSamplesPerSec nChannels nBlockAlign wFlags modeExtension emphasis].
    all: split; [exact Hbr|]. all: split; [auto|].
    all: split;
      [ unfold MPEG1AudioMode_of;
        assert (Hc : m = 0 \/ m = 1 \/ m = 2 \/ m = 3) by lia;
        destruct Hc as [-> | [-> | [-> | ->]]]; reflexivity |].
    all: split; [reflexivity|].
    all: split; [|split; reflexivity].
    all: destruct (HAS_FLAG b3 4), (HAS_FLAG b3 8), (HAS_FLAG b2 1), (HAS_FLAG b1 1);
      vm_compute; (split; [discriminate | reflexivity]). }
  split; [|split].
  - intros Hcb. unfold ReadAudioFrameHeader, MPEG1_AUDIO_FRAME_HEADER_SIZE.
    destruct (Z.ltb_spec cbData 4); [reflexivity|lia].
  - intros Hcb Hvalid. specialize (Hmain Hcb). rewrite Hvalid in Hmain. exact Hmain.
  - intros Hcb Hvalid. specialize (Hmain Hcb). rewrite Hvalid in Hmain. exact Hmain.
Qed.

(** The instance of [ReadAudioFrameHeader_outcomes] for the header
    FF FD 90 64 (layer II, 160 kbit/s, 44100 Hz, joint stereo). *)
Lemma ReadAudioFrameHeader_outcomes_witness :
  let pData := 0xFF :: 0xFD :: 0x90 :: 0x64 :: [1; 2; 3] in
  let valid := (0xFF =? 0xFF) && (0xF8 <=? 0xFD) && negb ((0xFD / 2) mod 4 =? 0)
               && (0x90 / 16 <? 15) && negb ((0x90 / 4) mod 4 =? 3) in
  (7 < 4 -> ReadAudioFrameHeader pData 7 = Returns (0, None))
  /\ (4 <= 7 -> valid = false ->
      ReadAudioFrameHeader pData 7 = ThrowException MF_E_INVALID_FORMAT)
  /\ (4 <= 7 -> valid = true ->
      exists h,
        ReadAudioFrameHeader pData 7 = Returns (4, Some h)
        /\ 0 <= dwBitRate h <= 448
        /\ (dwSamplesPerSec h = 44100 \/ dwSamplesPerSec h = 48000
            \/ dwSamplesPerSec h = 32000)
        /\ nChannels h = (if 0x64 / 64 =? 3 then 1 else 2)
        /\ nBlockAlign h = 1 /\ 0 <= wFlags h < 16
        /\ modeExtension h = (0x64 / 16) mod 4 /\ emphasis h = 0x64 mod 4).
Proof.
  apply (ReadAudioFrameHeader_outcomes 0xFF 0xFD 0x90 0x64 [1; 2; 3] 7);
    unfold is_BYTE; lia.
Defined.

Lemma MAKE_DWORD_value b0 b1 b2 b3 tl :
  is_BYTE b0 -> is_BYTE b1 -> is_BYTE b2 -> is_BYTE b3 ->
  MAKE_DWORD (b0 :: b1 :: b2 :: b3 :: tl) = Returns (be_value [b0; b1; b2; b3]).
Proof.
  intros H0 H1 H2 H3. unfold MAKE_DWORD, MAKE_DWORD_HOSTORDER.
  cbn [mbind mpeg_outcome_bind].
  rewrite (host_dword_value b0 b1 b2 b3 H0 H1 H2 H3), (htonl_bytes b0 b1 b2 b3 H0 H1 H2 H3).
  f_equal. cbn [be_value length].
  change (Z.of_nat 3) with 3. change (Z.of_nat 2) with 2.
  change (Z.of_nat 1) with 1. change (Z.of_nat 0) with 0.
  change (256 ^ 3) with 16777216. change (256 ^ 2) with 65536.
  change (256 ^ 1) with 256. change (256 ^ 0) with 1.
  change (2 ^ 8) with 256. change (2 ^ 16) with 65536. change (2 ^ 24) with 16777216.
  ring.
Qed.

(** X26. Byte order. Over bytes, [MAKE_WORD] is the big-endian number
    of its two arguments and [MAKE_DWORD] that of the four bytes under
    the pointer: the swap by [htonl] undoes the host order of the load. *)
Theorem MAKE_DWORD_big_endian b0 b1 b2 b3 tl :
  is_BYTE b0 -> is_BYTE b1 -> is_BYTE b2 -> is_BYTE b3 ->
  MAKE_DWORD (b0 :: b1 :: b2 :: b3 :: tl) = Returns (be_value [b0; b1; b2; b3])
  /\ MAKE_WORD b0 b1 = be_value [b0; b1].
Proof.
  intros H0 H1 H2 H3. split.
  - apply MAKE_DWORD_value; assumption.
  - rewrite (MAKE_WORD_value b0 b1 H0 H1). cbn [be_value length].
    change (Z.of_nat 1) with 1. change (Z.of_nat 0) with 0.
    change (256 ^ 1) with 256. change (256 ^ 0) with 1.
    ring.
Qed.

(** The instance of [MAKE_DWORD_big_endian] for the sequence header
    code 00 00 01 B3. *)
Lemma MAKE_DWORD_big_endian_witness :
  MAKE_DWORD (0 :: 0 :: 1 :: 0xB3 :: [0x16; 0x01]) = Returns (be_value [0; 0; 1; 0xB3])
  /\ MAKE_WORD 0 0 = be_value [0; 0].
Proof.
  apply (MAKE_DWORD_big_endian 0 0 1 0xB3 [0x16; 0x01]); unfold is_BYTE; lia.
Defined.

Lemma skip_zero_dwords_unfold pData cbData cbPadding :
  skip_zero_dwords pData cbData cbPadding
  = if dw (cbPadding + 4) <=? cbData then
      match pData with
      | b0 :: b1 :: b2 :: b3 :: rest =>
          if Z.lor (Z.lor (Z.lor b0 (Z.shiftl b1 8)) (Z.shiftl b2 16)) (Z.shiftl b3 24) =? 0
          then skip_zero_dwords rest cbData (dw (cbPadding + 4))
          else Returns (pData, cbPadding)
      | _ => Faults ReadPastEnd
      end
    else Returns (pData, cbPadding).
Proof. destruct pData; reflexivity. Qed.

Lemma skip_zero_dwords_spec n :
  forall pData cbData cbPadding,
    (length pData <= n)%nat -> Forall is_BYTE pData ->
    0 <= cbPadding <= cbData -> cbData - cbPadding <= Z.of_nat (length pData) ->
    cbData < 2^32 - 4 ->
    exists k : nat,
      skip_zero_dwords pData cbData cbPadding
      = Returns (drop (4 * k) pData, cbPadding + 4 * Z.of_nat k)
      /\ cbPadding + 4 * Z.of_nat k <= cbData
      /\ Forall (eq 0) (take (4 * k) pData).
Proof.
  induction n as [|n IH]; intros pData cbData cbPadding Hn Hb Hpad Hlen Hdw;
    rewrite skip_zero_dwords_unfold;
    change (2 ^ 32) with 4294967296 in Hdw;
    rewrite (dw_small (cbPadding + 4)) by (change (2 ^ 32) with 4294967296; lia).
  - destruct pData; [|cbn in Hn; lia]. cbn in Hlen.
    destruct (Z.leb_spec (cbPadding + 4) cbData); [lia|].
    exists 0%nat. cbn. rewrite Z.add_0_r. repeat split; [lia | constructor].
  - destruct (Z.leb_spec (cbPadding + 4) cbData) as [Hle|Hgt].
    2:{ exists 0%nat. cbn [Nat.mul drop take Z.of_nat]. rewrite Z.mul_0_r, Z.add_0_r.
        repeat split; [lia | constructor]. }
    destruct pData as [|b0 [|b1 [|b2 [|b3 rest]]]]; try (cbn in Hlen; lia).
    inversion Hb as [|? ? H0 Hb1]; subst. inversion Hb1 as [|? ? H1 Hb2]; subst.
    inversion Hb2 as [|? ? H2 Hb3]; subst. inversion Hb3 as [|? ? H3 Hrest]; subst.
    rewrite (host_dword_value b0 b1 b2 b3 H0 H1 H2 H3).
    cbn [length] in Hn, Hlen. unfold is_BYTE in H0, H1, H2, H3.
    change (2 ^ 8) with 256. change (2 ^ 16) with 65536. change (2 ^ 24) with 16777216.
    destruct (Z.eqb_spec (b0 + b1 * 256 + b2 * 65536 + b3 * 16777216) 0) as [Hz|Hnz].
    + assert (b0 = 0 /\ b1 = 0 /\ b2 = 0 /\ b3 = 0) as (-> & -> & -> & ->) by lia.
      destruct (IH rest cbData (cbPadding + 4) ltac:(lia) Hrest ltac:(lia) ltac:(lia) Hdw)
        as (k & Hrun & Hle' & Hzero).
      exists (S k). rewrite Hrun.
      replace (4 * S k)%nat with (4 + 4 * k)%nat by lia.
      cbn [drop take Nat.add]. split; [f_equal; f_equal; lia|]. split; [lia|].
      repeat constructor. exact Hzero.
    + exists 0%nat. cbn [Nat.mul drop take Z.of_nat]. rewrite Z.mul_0_r, Z.add_0_r.
      repeat split; [lia | constructor].
Qed.

Lemma GetFrameRate_outcome code :
  0 <= code ->
  GetFrameRate code = ThrowException MF_E_INVALIDTYPE
  \/ exists r, GetFrameRate code = Returns r.
Proof.
  intros Hc. unfold GetFrameRate.
  destruct (Z.ltb_spec code 1); cbn [orb]; [left; reflexivity|].
  destruct (Z.geb_spec code (Z.of_nat (length frameRates))); [left; reflexivity|].
  destruct (lookup_lt_is_Some_2 frameRates (Z.to_nat code) ltac:(lia)) as [r ->].
  right. eexists. reflexivity.
Qed.

Lemma GetPixelAspectRatio_outcome code :
  0 <= code ->
  GetPixelAspectRatio code = ThrowException MF_E_INVALIDTYPE
  \/ exists r, GetPixelAspectRatio code = Returns r.
Proof.
  intros Hc. unfold GetPixelAspectRatio.
  destruct (Z.ltb_spec code 1); cbn [orb]; [left; reflexivity|].
  destruct (Z.geb_spec code (Z.of_nat (length pixelAspectHeights))); [left; reflexivity|].
  destruct (lookup_lt_is_Some_2 pixelAspectHeights (Z.to_nat code) ltac:(lia)) as [r ->].
  right. eexists. reflexivity.
Qed.

(** X27. The video sequence header. Over a buffer that holds its
    [cbData] bytes, [ReadVideoSequenceHeader] never reads outside the
    buffer and never throws anything but [MF_E_INVALID_FORMAT] and
    [MF_E_INVALIDTYPE]. When it returns without a header, it has only
    stepped over zero bytes, a multiple of 4 of them, and fewer than 76
    bytes are left. When it returns a header, the count returned is the
    zero padding (a multiple of 4) plus the header length, which is 12 or
    76 and within the buffer; the bytes after the padding start with
    00 00 01 B3 and are the header copied out; width and height are below
    4096; and of the 10 bits of the VBV buffer size only the 5 of byte 11
    are kept, the field being a [WORD]. *)
Theorem ReadVideoSequenceHeader_consumes pData cbData :
  Forall is_BYTE pData -> 0 <= cbData <= Z.of_nat (length pData) ->
  cbData < 2^32 - 4 ->
  match ReadVideoSequenceHeader (Some pData) cbData with
  | Returns (n, None) =>
      0 <= n <= cbData /\ (exists q, n = 4 * q)
      /\ Forall (eq 0) (take (Z.to_nat n) pData) /\ cbData - n < 76
  | Returns (n, Some h) =>
      (cbHeader h = 12 \/ cbHeader h = 76)
      /\ 0 <= n - cbHeader h /\ n <= cbData
      /\ (exists q, n - cbHeader h = 4 * q)
      /\ Forall (eq 0) (take (Z.to_nat (n - cbHeader h)) pData)
      /\ take (Z.to_nat (cbHeader h)) (header h)
         = take (Z.to_nat (cbHeader h)) (drop (Z.to_nat (n - cbHeader h)) pData)
      /\ take 4 (header h) = [0; 0; 1; 0xB3]
      /\ length (header h) = 140%nat
      /\ 0 <= width h < 4096 /\ 0 <= height h < 4096
      /\ (exists b, header h !! 11%nat = Some b /\ cbVBV_Buffer h = 2048 * (b / 8))
  | ThrowException hr => hr = MF_E_INVALID_FORMAT \/ hr = MF_E_INVALIDTYPE
  | ThrowInvalidArgument => False
  | Faults _ => False
  end.
Proof.
  intros Hb Hcb Hdw. unfold ReadVideoSequenceHeader.
  destruct (skip_zero_dwords_spec (length pData) pData cbData 0
              (Nat.le_refl _) Hb ltac:(lia) ltac:(lia) Hdw)
    as (k & Hrun & Hle & Hzero).
  rewrite Hrun. cbn [mbind mpeg_outcome_bind].
  rewrite Z.add_0_l in *.
  change (2 ^ 32) with 4294967296 in Hdw.
  rewrite (dw_small (cbData - 4 * Z.of_nat k)) by (change (2 ^ 32) with 4294967296; lia).
  unfold MPEG1_VIDEO_SEQ_HEADER_MIN_SIZE.
  assert (Hk : Z.to_nat (4 * Z.of_nat k) = (4 * k)%nat) by lia.
  destruct (Z.ltb_spec (cbData - 4 * Z.of_nat k) 12) as [Hshort|Hlong].
  { rewrite Hk. repeat split; try lia; [exists (Z.of_nat k); lia | exact Hzero]. }
  assert (Hpb : Forall is_BYTE (drop (4 * k) pData)) by (apply Forall_drop; exact Hb).
  assert (Hpl : cbData - 4 * Z.of_nat k <= Z.of_nat (length (drop (4 * k) pData)))
    by (rewrite length_drop; lia).
  remember (drop (4 * k) pData) as pd eqn:Hpd.
  destruct pd as [|p0 [|p1 [|p2 [|p3 [|p4 [|p5 [|p6 [|p7 [|p8 [|p9 [|p10 [|p11 rest]]]]]]]]]]]];
    try (cbn [length] in Hpl; lia).
  repeat match goal with
         | H : Forall is_BYTE (_ :: _) |- _ =>
             let Hx := fresh "Hx" in
             apply Forall_cons_1 in H; destruct H as [Hx H]
         end.
  rewrite MAKE_DWORD_value by assumption. cbn [mbind mpeg_outcome_bind].
  destruct (be_value [p0; p1; p2; p3] =? MPEG1_SEQUENCE_HEADER_CODE) eqn:Hcode;
    cbn [negb]; [|left; reflexivity].
  apply Z.eqb_eq in Hcode.
  assert (Hstart : p0 = 0 /\ p1 = 0 /\ p2 = 1 /\ p3 = 0xB3).
  { cbn [be_value length] in Hcode. unfold MPEG1_SEQUENCE_HEADER_CODE in Hcode.
    change (Z.of_nat 3) with 3 in Hcode. change (Z.of_nat 2) with 2 in Hcode.
    change (Z.of_nat 1) with 1 in Hcode. change (Z.of_nat 0) with 0 in Hcode.
    change (256 ^ 3) with 16777216 in Hcode. change (256 ^ 2) with 65536 in Hcode.
    change (256 ^ 1) with 256 in Hcode. change (256 ^ 0) with 1 in Hcode.
    unfold is_BYTE in *. lia. }
  destruct Hstart as (-> & -> & -> & ->). clear Hcode.
  unfold mpeg_at. cbn [lookup list_lookup mbind mpeg_outcome_bind].
  set (cbRequired := if HAS_FLAG p11 2 then 12 + 64
                     else if HAS_FLAG p11 1 then 12 + 64 else 12).
  assert (Hreq : cbRequired = 12 \/ cbRequired = 76)
    by (subst cbRequired; destruct (HAS_FLAG p11 2), (HAS_FLAG p11 1); auto).
  destruct (Z.ltb_spec (cbData - 4 * Z.of_nat k) cbRequired) as [Hless|Hfull].
  { rewrite Hk. repeat split; try lia; [exists (Z.of_nat k); lia | exact Hzero]. }
  destruct (HAS_FLAG p10 32); cbn [negb]; [|left; reflexivity].
  destruct (GetPixelAspectRatio_outcome (to_byte (p7 ≫ 4))) as [->|[par ->]];
    [unfold to_byte; apply Z.mod_pos_bound; lia | right; reflexivity |].
  cbn [mbind mpeg_outcome_bind].
  destruct (GetFrameRate_outcome (to_byte (Z.land p7 15))) as [->|[rate ->]];
    [unfold to_byte; apply Z.mod_pos_bound; lia | right; reflexivity |].
  cbn [mbind mpeg_outcome_bind].
  destruct (dw (Z.lor (Z.lor (p8 ≪ 10) (p9 ≪ 2)) (p10 ≫ 6)) =? 0);
    [left; reflexivity|].
  unfold copy_header.
  destruct (Z.leb_spec cbRequired
              (Z.of_nat (length (0 :: 0 :: 1 :: 179 :: p4 :: p5 :: p6 :: p7 :: p8
                                   :: p9 :: p10 :: p11 :: rest)))) as [_|Hbad];
    [|lia].
  cbn [mbind mpeg_outcome_bind cbHeader header width height cbVBV_Buffer].
  rewrite (dw_small (cbRequired + 4 * Z.of_nat k))
    by (change (2 ^ 32) with 4294967296; lia).
  replace (cbRequired + 4 * Z.of_nat k - cbRequired) with (4 * Z.of_nat k) by lia.
  rewrite Hk, <- Hpd.
  cbn [length] in Hpl.
  assert (Hlen : le (Z.to_nat cbRequired)
                    (length (0 :: 0 :: 1 :: 179 :: p4 :: p5 :: p6 :: p7 :: p8
                               :: p9 :: p10 :: p11 :: rest)))
    by (cbn [length]; lia).
  unfold is_BYTE in *.
  split; [exact Hreq|]. split; [lia|]. split; [lia|].
  split; [exists (Z.of_nat k); reflexivity|]. split; [exact Hzero|].
  split.
  { rewrite take_app_le by (rewrite length_take; lia).
    rewrite take_take. f_equal. lia. }
  split.
  { destruct Hreq as [-> | ->]; reflexivity. }
  split.
  { rewrite length_app, length_take, length_replicate.
    unfold MPEG1_VIDEO_SEQ_HEADER_MAX_SIZE. lia. }
  split.
  { rewrite (lor_shiftl_add p4 (p5 ≫ 4) 4)
      by (rewrite ?Z.shiftr_div_pow2 by lia; change (2 ^ 4) with 16;
          Z.to_euclidean_division_equations; lia).
    rewrite Z.shiftr_div_pow2 by lia. unfold to_word.
    change (2 ^ 4) with 16. change (2 ^ 16) with 65536.
    Z.to_euclidean_division_equations; lia. }
  split.
  { change 15 with (Z.ones 4). rewrite Z.land_ones by lia.
    rewrite (lor_shiftl_add (p5 mod 2 ^ 4) p6 8) by (change (2 ^ 8) with 256; lia).
    unfold to_word.
    change (2 ^ 4) with 16. change (2 ^ 8) with 256. change (2 ^ 16) with 65536.
    Z.to_euclidean_division_equations; lia. }
  exists p11. split.
  { destruct Hreq as [-> | ->]; reflexivity. }
  change 31 with (Z.ones 5). rewrite Z.land_ones by lia.
  rewrite (lor_shiftl_add (p10 mod 2 ^ 5) (p11 ≫ 3) 5)
    by (rewrite ?Z.shiftr_div_pow2 by lia; change (2 ^ 3) with 8;
        change (2 ^ 5) with 32; Z.to_euclidean_division_equations; lia).
  rewrite Z.shiftr_div_pow2 by lia. unfold to_word.
  change (2 ^ 3) with 8. change (2 ^ 5) with 32. change (2 ^ 16) with 65536.
  Z.to_euclidean_division_equations; lia.
Qed.

(** The instance of [ReadVideoSequenceHeader_consumes] for four zero
    bytes followed by the 12-byte header of a 352 x 288 stream at 25
    frames a second and one more byte. *)
Lemma ReadVideoSequenceHeader_consumes_witness :
  let pData := [0; 0; 0; 0; 0; 0; 1; 0xB3; 0x16; 0x01; 0x20; 0x13;
                0xFF; 0xFF; 0xE0; 0x18; 0x42] in
  match ReadVideoSequenceHeader (Some pData) 17 with
  | Returns (n, None) =>
      0 <= n <= 17 /\ (exists q, n = 4 * q)
      /\ Forall (eq 0) (take (Z.to_nat n) pData) /\ 17 - n < 76
  | Returns (n, Some h) =>
      (cbHeader h = 12 \/ cbHeader h = 76)
      /\ 0 <= n - cbHeader h /\ n <= 17
      /\ (exists q, n - cbHeader h = 4 * q)
      /\ Forall (eq 0) (take (Z.to_nat (n - cbHeader h)) pData)
      /\ take (Z.to_nat (cbHeader h)) (header h)
         = take (Z.to_nat (cbHeader h)) (drop (Z.to_nat (n - cbHeader h)) pData)
      /\ take 4 (header h) = [0; 0; 1; 0xB3]
      /\ length (header h) = 140%nat
      /\ 0 <= width h < 4096 /\ 0 <= height h < 4096
      /\ (exists b, header h !! 11%nat = Some b /\ cbVBV_Buffer h = 2048 * (b / 8))
  | ThrowException hr => hr = MF_E_INVALID_FORMAT \/ hr = MF_E_INVALIDTYPE
  | ThrowInvalidArgument => False
  | Faults _ => False
  end.
Proof.
  intros pData. apply (ReadVideoSequenceHeader_consumes pData 17).
  - repeat constructor; unfold is_BYTE; lia.
  - cbn. lia.
  - lia.
Defined.

Lemma stream_marker_checked :
  forallb stream_marker_check (map Z.of_nat (seq 0 256)) = true.
Proof. vm_compute. reflexivity. Qed.

Lemma stream_marker_facts b :
  is_BYTE b ->
  (Z.land b 0xC0 =? 0xC0) = (0xC0 <=? b)
  /\ Z.land b 0x1F = b mod 32
  /\ (Z.land b 0x20 =? 0) = ((b / 32) mod 2 =? 0).
Proof.
  intros Hb.
  pose proof stream_marker_checked as H. rewrite forallb_forall in H.
  specialize (H b (byte_in_range b Hb)). unfold stream_marker_check in H.
  apply andb_prop in H. destruct H as [H H3].
  apply andb_prop in H. destruct H as [H1 H2].
  apply Bool.eqb_prop in H1, H3. apply Z.eqb_eq in H2.
  repeat split; assumption.
Qed.

(** X28. A stream entry of the system header. Over the three bytes of
    an entry, [ParseStreamData] throws [MF_E_INVALID_FORMAT] when the two
    marker bits of the second byte are not both set, before it looks at
    the stream id; otherwise it fails as [ParseStreamId] fails on the
    first byte, and where that yields a type and a number, the header
    holds them with the id, and the size bound is the 13-bit field of
    the second and third byte in units of 1024 bytes when bit 0x20 of the
    second byte is set and of 128 bytes when it is clear, which stays
    below 2^23. *)
Theorem ParseStreamData_bound s0 s1 s2 tl :
  is_BYTE s0 -> is_BYTE s1 -> is_BYTE s2 ->
  let p := s0 :: s1 :: s2 :: tl in
  (s1 < 0xC0 -> ParseStreamData p = ThrowException MF_E_INVALID_FORMAT)
  /\ (0xC0 <= s1 -> forall hr, ParseStreamId s0 = ThrowException hr ->
        ParseStreamData p = ThrowException hr)
  /\ (0xC0 <= s1 -> forall t num, ParseStreamId s0 = Returns (t, num) ->
        exists h,
          ParseStreamData p = Returns h
          /\ stream_id h = s0 /\ sh_type h = t /\ sh_number h = num
          /\ sizeBound h
             = (256 * (s1 mod 32) + s2) * (if (s1 / 32) mod 2 =? 0 then 128 else 1024)
          /\ 0 <= sizeBound h < 2^23).
Proof.
  intros H0 H1 H2 p. subst p.
  destruct (stream_marker_facts s1 H1) as (Hm & Hf & Hs).
  unfold ParseStreamData, mpeg_at.
  cbn [lookup list_lookup mbind mpeg_outcome_bind].
  rewrite Hm, Hf, Hs. unfold is_BYTE in *.
  split; [|split].
  - intros Hlt. destruct (Z.leb_spec 192 s1); [lia|]. reflexivity.
  - intros Hge hr ->. destruct (Z.leb_spec 192 s1); [|lia]. reflexivity.
  - intros Hge t num ->. destruct (Z.leb_spec 192 s1); [|lia].
    cbn [negb mbind mpeg_outcome_bind].
    eexists. split; [reflexivity|].
    cbn [stream_id sh_type sh_number sizeBound].
    split; [reflexivity|]. split; [reflexivity|]. split; [reflexivity|].
    rewrite (lor_add_shiftl (s1 mod 32) s2 8) by (change (2 ^ 8) with 256; lia).
    change (2 ^ 8) with 256. change (2 ^ 23) with 8388608.
    assert (Hr : 0 <= s1 mod 32 < 32) by (apply Z.mod_pos_bound; lia).
    destruct ((s1 / 32) mod 2 =? 0); cbn [negb];
      rewrite dw_small by (change (2 ^ 32) with 4294967296; lia);
      split; lia.
Qed.

(** The instance of [ParseStreamData_bound] for the entry E0 E0 2E of a
    video stream with a bound of 46 KB. *)
Lemma ParseStreamData_bound_witness :
  let p := [0xE0; 0xE0; 0x2E; 0xC0; 0xC0; 0x20] in
  (0xE0 < 0xC0 -> ParseStreamData p = ThrowException MF_E_INVALID_FORMAT)
  /\ (0xC0 <= 0xE0 -> forall hr, ParseStreamId 0xE0 = ThrowException hr ->
        ParseStreamData p = ThrowException hr)
  /\ (0xC0 <= 0xE0 -> forall t num, ParseStreamId 0xE0 = Returns (t, num) ->
        exists h,
          ParseStreamData p = Returns h
          /\ stream_id h = 0xE0 /\ sh_type h = t /\ sh_number h = num
          /\ sizeBound h
             = (256 * (0xE0 mod 32) + 0x2E) * (if (0xE0 / 32) mod 2 =? 0 then 128 else 1024)
          /\ 0 <= sizeBound h < 2^23).
Proof.
  apply (ParseStreamData_bound 0xE0 0xE0 0x2E [0xC0; 0xC0; 0x20]);
    unfold is_BYTE; lia.
Defined.

(** X29. The two tables of the sequence header. On a code that is not
    negative, [GetFrameRate] throws [MF_E_INVALIDTYPE] exactly on 0 and
    on 8 and above, and [GetPixelAspectRatio] exactly on 0 and on 15 and
    above; neither reads outside its table. A frame rate returned has a
    denominator that is not zero and lies above 23 and at most at 60
    frames a second; a pixel aspect ratio returned has denominator 10000
    and a numerator from 6735 to 12015. *)
Theorem video_ratio_tables code :
  0 <= code ->
  (GetFrameRate code = ThrowException MF_E_INVALIDTYPE <-> code = 0 \/ 8 <= code)
  /\ (1 <= code < 8 ->
        exists r, GetFrameRate code = Returns r
                  /\ 0 < Denominator r
                  /\ 23 * Denominator r < Numerator r <= 60 * Denominator r)
  /\ (GetPixelAspectRatio code = ThrowException MF_E_INVALIDTYPE
        <-> code = 0 \/ 15 <= code)
  /\ (1 <= code < 15 ->
        exists r, GetPixelAspectRatio code = Returns r
                  /\ Denominator r = 10000 /\ 6735 <= Numerator r <= 12015).
Proof.
  intros Hc.
  assert (HF : 1 <= code < 8 ->
               exists r, GetFrameRate code = Returns r
                         /\ 0 < Denominator r
                         /\ 23 * Denominator r < Numerator r <= 60 * Denominator r).
  { intros Hr.
    assert (Hcases : code = 1 \/ code = 2 \/ code = 3 \/ code = 4
                     \/ code = 5 \/ code = 6 \/ code = 7) by lia.
    repeat (destruct Hcases as [-> | Hcases]); try subst code;
      (eexists; split; [reflexivity | cbn; lia]). }
  assert (HP : 1 <= code < 15 ->
               exists r, GetPixelAspectRatio code = Returns r
                         /\ Denominator r = 10000 /\ 6735 <= Numerator r <= 12015).
  { intros Hr.
    assert (Hcases : code = 1 \/ code = 2 \/ code = 3 \/ code = 4
                     \/ code = 5 \/ code = 6 \/ code = 7 \/ code = 8
                     \/ code = 9 \/ code = 10 \/ code = 11 \/ code = 12
                     \/ code = 13 \/ code = 14) by lia.
    repeat (destruct Hcases as [-> | Hcases]); try subst code;
      (eexists; split; [reflexivity | cbn; lia]). }
  split; [|split; [exact HF|split; [|exact HP]]].
  - split.
    + intros Hthrow. destruct (Z.eq_dec code 0); [auto|].
      destruct (Z_lt_le_dec code 8); [|auto].
      destruct HF as (r & Hr & _); [lia|]. rewrite Hr in Hthrow. discriminate.
    + intros Hout. unfold GetFrameRate.
      destruct (Z.ltb_spec code 1); cbn [orb]; [reflexivity|].
      destruct (Z.geb_spec code (Z.of_nat (length frameRates))) as [_|Hlt];
        [reflexivity | cbn in Hlt; lia].
  - split.
    + intros Hthrow. destruct (Z.eq_dec code 0); [auto|].
      destruct (Z_lt_le_dec code 15); [|auto].
      destruct HP as (r & Hr & _); [lia|]. rewrite Hr in Hthrow. discriminate.
    + intros Hout. unfold GetPixelAspectRatio.
      destruct (Z.ltb_spec code 1); cbn [orb]; [reflexivity|].
      destruct (Z.geb_spec code (Z.of_nat (length pixelAspectHeights))) as [_|Hlt];
        [reflexivity | cbn in Hlt; lia].
Qed.

(** The instance of [video_ratio_tables] for the code 4. *)
Lemma video_ratio_tables_witness :
  (GetFrameRate 4 = ThrowException MF_E_INVALIDTYPE <-> 4 = 0 \/ 8 <= 4)
  /\ (1 <= 4 < 8 ->
        exists r, GetFrameRate 4 = Returns r
                  /\ 0 < Denominator r
                  /\ 23 * Denominator r < Numerator r <= 60 * Denominator r)
  /\ (GetPixelAspectRatio 4 = ThrowException MF_E_INVALIDTYPE
        <-> 4 = 0 \/ 15 <= 4)
  /\ (1 <= 4 < 15 ->
        exists r, GetPixelAspectRatio 4 = Returns r
                  /\ Denominator r = 10000 /\ 6735 <= Numerator r <= 12015).
Proof. apply (video_ratio_tables 4). lia. Defined.

End MPEG1Facts.
